(** * A shallow embedding of [internship/app.py]

    The chatbot backend keeps four process-wide stores (rate windows,
    sessions, conversational contexts, the history log) and routes each
    message among a Wikipedia lookup, a generative model and a keyword
    fallback.  This development embeds the in-memory state subsystem and
    the routing logic as executable functions and proves the properties
    its specification attaches to them.

    Conventions.
    - A Python [str] is the list of its code points ([list N]), so that
      [len], slicing and concatenation count characters the way Python
      does (the emoji of the headings are one character each).
      [str.lower], [str.capitalize] and the regex class [\w] follow the
      Unicode character database of the interpreter (version 14.0.0, as
      in CPython 3.11) through tables of code point ranges, with the
      full case mappings and the final-sigma rule of [str.lower].  [\s]
      and [str.strip] use the full list of code points for which
      [str.isspace] holds.
    - A [datetime] is the number of microseconds since 1970-01-01T00:00
      in the proleptic calendar of the [datetime] module ([Z]), between
      [datetime_min] and [datetime_max]; [datetime.now()] is an explicit
      argument of every operation that reads the clock, and
      [uuid.uuid4()] likewise.  The subtraction of the session timeout,
      which is configurable, raises [OverflowError] as the library does;
      the rate limiter subtracts the constant one minute, which no clock
      reading later than the first minute of year 1 can overflow, and is
      written in [Z].
    - A Python [int] is a [Z].
    - The module-level dictionaries are [gmap]s threaded explicitly.
    - A [try ... except Exception] block is a function [*_try] into
      [result] together with its handler. *)

From Stdlib Require Import ZArith NArith Lia List Bool String Ascii.
From stdpp Require Import base option list gmap fin_maps pretty.

Local Open Scope Z_scope.

(** ** Python strings *)

Module PyStr.

Definition str := list N.

(** Decoding of the UTF-8 bytes of a Rocq string literal into code
    points; used only to write the string constants of the source. *)
Fixpoint utf8_decode (acc : N) (pending : nat) (bs : list N) : str :=
  match bs with
  | [] => []
  | b :: r =>
      match pending with
      | O =>
          if (b <? 128)%N then b :: utf8_decode 0%N 0%nat r
          else if (b <? 224)%N then utf8_decode (b - 192)%N 1%nat r
          else if (b <? 240)%N then utf8_decode (b - 224)%N 2%nat r
          else utf8_decode (b - 240)%N 3%nat r
      | S O => (acc * 64 + (b - 128))%N :: utf8_decode 0%N 0%nat r
      | S k => utf8_decode (acc * 64 + (b - 128))%N k r
      end
  end.

Fixpoint bytes_of (s : string) : list N :=
  match s with
  | EmptyString => []
  | String a r => N_of_ascii a :: bytes_of r
  end.

Definition lit (s : string) : str := utf8_decode 0%N 0%nat (bytes_of s).

#[global] Arguments lit : simpl never.

Definition NL : str := [10%N].

(** [len(s)], of a string or of a list. *)
Definition len {A} (s : list A) : Z := Z.of_nat (length s).

Definition eqb (a b : str) : bool := bool_decide (a = b).

Fixpoint drop_while (p : N -> bool) (s : str) : str :=
  match s with
  | [] => []
  | c :: r => if p c then drop_while p r else s
  end.

Fixpoint take_while (p : N -> bool) (s : str) : str :=
  match s with
  | [] => []
  | c :: r => if p c then c :: take_while p r else []
  end.

(** *** The character tables

    The tables of the Unicode character database (version 14.0.0) that
    the string methods and the regex engine consult. *)

Definition word_ranges_0 : list (N * N) :=
  [(48, 57); (65, 90); (95, 95); (97, 122); (170, 170); (178, 179); (181,
   181); (185, 186); (188, 190); (192, 214); (216, 246); (248, 705); (710,
   721); (736, 740); (748, 748); (750, 750); (880, 884); (886, 887); (890,
   893); (895, 895); (902, 902); (904, 906); (908, 908); (910, 929); (931,
   1013); (1015, 1153); (1162, 1327); (1329, 1366); (1369, 1369); (1376,
   1416); (1488, 1514); (1519, 1522); (1568, 1610); (1632, 1641); (1646,
   1647); (1649, 1747); (1749, 1749); (1765, 1766); (1774, 1788); (1791,
   1791); (1808, 1808); (1810, 1839); (1869, 1957); (1969, 1969); (1984,
   2026); (2036, 2037); (2042, 2042); (2048, 2069); (2074, 2074); (2084,
   2084); (2088, 2088); (2112, 2136); (2144, 2154); (2160, 2183); (2185,
   2190); (2208, 2249); (2308, 2361); (2365, 2365); (2384, 2384); (2392,
   2401); (2406, 2415); (2417, 2432); (2437, 2444); (2447, 2448); (2451,
   2472); (2474, 2480); (2482, 2482); (2486, 2489); (2493, 2493); (2510,
   2510); (2524, 2525); (2527, 2529); (2534, 2545); (2548, 2553); (2556,
   2556); (2565, 2570); (2575, 2576); (2579, 2600); (2602, 2608); (2610,
   2611); (2613, 2614); (2616, 2617); (2649, 2652); (2654, 2654); (2662,
   2671); (2674, 2676); (2693, 2701); (2703, 2705); (2707, 2728); (2730,
   2736); (2738, 2739); (2741, 2745); (2749, 2749); (2768, 2768); (2784,
   2785); (2790, 2799); (2809, 2809); (2821, 2828); (2831, 2832); (2835,
   2856); (2858, 2864); (2866, 2867); (2869, 2873); (2877, 2877); (2908,
   2909); (2911, 2913); (2918, 2927); (2929, 2935); (2947, 2947); (2949,
   2954); (2958, 2960); (2962, 2965); (2969, 2970); (2972, 2972); (2974,
   2975); (2979, 2980); (2984, 2986); (2990, 3001); (3024, 3024); (3046,
   3058); (3077, 3084); (3086, 3088); (3090, 3112); (3114, 3129); (3133,
   3133); (3160, 3162); (3165, 3165); (3168, 3169); (3174, 3183); (3192,
   3198); (3200, 3200); (3205, 3212); (3214, 3216); (3218, 3240); (3242,
   3251); (3253, 3257); (3261, 3261); (3293, 3294); (3296, 3297); (3302,
   3311); (3313, 3314); (3332, 3340); (3342, 3344); (3346, 3386); (3389,
   3389); (3406, 3406); (3412, 3414); (3416, 3425); (3430, 3448); (3450,
   3455)]%N.

Definition word_ranges_1 : list (N * N) :=
  [(3461, 3478); (3482, 3505); (3507, 3515); (3517, 3517); (3520, 3526);
   (3558, 3567); (3585, 3632); (3634, 3635); (3648, 3654); (3664, 3673);
   (3713, 3714); (3716, 3716); (3718, 3722); (3724, 3747); (3749, 3749);
   (3751, 3760); (3762, 3763); (3773, 3773); (3776, 3780); (3782, 3782);
   (3792, 3801); (3804, 3807); (3840, 3840); (3872, 3891); (3904, 3911);
   (3913, 3948); (3976, 3980); (4096, 4138); (4159, 4169); (4176, 4181);
   (4186, 4189); (4193, 4193); (4197, 4198); (4206, 4208); (4213, 4225);
   (4238, 4238); (4240, 4249); (4256, 4293); (4295, 4295); (4301, 4301);
   (4304, 4346); (4348, 4680); (4682, 4685); (4688, 4694); (4696, 4696);
   (4698, 4701); (4704, 4744); (4746, 4749); (4752, 4784); (4786, 4789);
   (4792, 4798); (4800, 4800); (4802, 4805); (4808, 4822); (4824, 4880);
   (4882, 4885); (4888, 4954); (4969, 4988); (4992, 5007); (5024, 5109);
   (5112, 5117); (5121, 5740); (5743, 5759); (5761, 5786); (5792, 5866);
   (5870, 5880); (5888, 5905); (5919, 5937); (5952, 5969); (5984, 5996);
   (5998, 6000); (6016, 6067); (6103, 6103); (6108, 6108); (6112, 6121);
   (6128, 6137); (6160, 6169); (6176, 6264); (6272, 6276); (6279, 6312);
   (6314, 6314); (6320, 6389); (6400, 6430); (6470, 6509); (6512, 6516);
   (6528, 6571); (6576, 6601); (6608, 6618); (6656, 6678); (6688, 6740);
   (6784, 6793); (6800, 6809); (6823, 6823); (6917, 6963); (6981, 6988);
   (6992, 7001); (7043, 7072); (7086, 7141); (7168, 7203); (7232, 7241);
   (7245, 7293); (7296, 7304); (7312, 7354); (7357, 7359); (7401, 7404);
   (7406, 7411); (7413, 7414); (7418, 7418); (7424, 7615); (7680, 7957);
   (7960, 7965); (7968, 8005); (8008, 8013); (8016, 8023); (8025, 8025);
   (8027, 8027); (8029, 8029); (8031, 8061); (8064, 8116); (8118, 8124);
   (8126, 8126); (8130, 8132); (8134, 8140); (8144, 8147); (8150, 8155);
   (8160, 8172); (8178, 8180); (8182, 8188); (8304, 8305); (8308, 8313);
   (8319, 8329); (8336, 8348); (8450, 8450); (8455, 8455); (8458, 8467);
   (8469, 8469); (8473, 8477); (8484, 8484); (8486, 8486); (8488, 8488);
   (8490, 8493); (8495, 8505); (8508, 8511); (8517, 8521); (8526, 8526);
   (8528, 8585); (9312, 9371); (9450, 9471); (10102, 10131); (11264, 11492)]%N.

Definition word_ranges_2 : list (N * N) :=
  [(11499, 11502); (11506, 11507); (11517, 11517); (11520, 11557); (11559,
   11559); (11565, 11565); (11568, 11623); (11631, 11631); (11648, 11670);
   (11680, 11686); (11688, 11694); (11696, 11702); (11704, 11710); (11712,
   11718); (11720, 11726); (11728, 11734); (11736, 11742); (11823, 11823);
   (12293, 12295); (12321, 12329); (12337, 12341); (12344, 12348); (12353,
   12438); (12445, 12447); (12449, 12538); (12540, 12543); (12549, 12591);
   (12593, 12686); (12690, 12693); (12704, 12735); (12784, 12799); (12832,
   12841); (12872, 12879); (12881, 12895); (12928, 12937); (12977, 12991);
   (13312, 19903); (19968, 42124); (42192, 42237); (42240, 42508); (42512,
   42539); (42560, 42606); (42623, 42653); (42656, 42735); (42775, 42783);
   (42786, 42888); (42891, 42954); (42960, 42961); (42963, 42963); (42965,
   42969); (42994, 43009); (43011, 43013); (43015, 43018); (43020, 43042);
   (43056, 43061); (43072, 43123); (43138, 43187); (43216, 43225); (43250,
   43255); (43259, 43259); (43261, 43262); (43264, 43301); (43312, 43334);
   (43360, 43388); (43396, 43442); (43471, 43481); (43488, 43492); (43494,
   43518); (43520, 43560); (43584, 43586); (43588, 43595); (43600, 43609);
   (43616, 43638); (43642, 43642); (43646, 43695); (43697, 43697); (43701,
   43702); (43705, 43709); (43712, 43712); (43714, 43714); (43739, 43741);
   (43744, 43754); (43762, 43764); (43777, 43782); (43785, 43790); (43793,
   43798); (43808, 43814); (43816, 43822); (43824, 43866); (43868, 43881);
   (43888, 44002); (44016, 44025); (44032, 55203); (55216, 55238); (55243,
   55291); (63744, 64109); (64112, 64217); (64256, 64262); (64275, 64279);
   (64285, 64285); (64287, 64296); (64298, 64310); (64312, 64316); (64318,
   64318); (64320, 64321); (64323, 64324); (64326, 64433); (64467, 64829);
   (64848, 64911); (64914, 64967); (65008, 65019); (65136, 65140); (65142,
   65276); (65296, 65305); (65313, 65338); (65345, 65370); (65382, 65470);
   (65474, 65479); (65482, 65487); (65490, 65495); (65498, 65500); (65536,
   65547); (65549, 65574); (65576, 65594); (65596, 65597); (65599, 65613);
   (65616, 65629); (65664, 65786); (65799, 65843); (65856, 65912); (65930,
   65931); (66176, 66204); (66208, 66256); (66273, 66299); (66304, 66339);
   (66349, 66378); (66384, 66421); (66432, 66461); (66464, 66499); (66504,
   66511); (66513, 66517); (66560, 66717); (66720, 66729); (66736, 66771);
   (66776, 66811); (66816, 66855); (66864, 66915); (66928, 66938); (66940,
   66954); (66956, 66962)]%N.

Definition word_ranges_3 : list (N * N) :=
  [(66964, 66965); (66967, 66977); (66979, 66993); (66995, 67001); (67003,
   67004); (67072, 67382); (67392, 67413); (67424, 67431); (67456, 67461);
   (67463, 67504); (67506, 67514); (67584, 67589); (67592, 67592); (67594,
   67637); (67639, 67640); (67644, 67644); (67647, 67669); (67672, 67702);
   (67705, 67742); (67751, 67759); (67808, 67826); (67828, 67829); (67835,
   67867); (67872, 67897); (67968, 68023); (68028, 68047); (68050, 68096);
   (68112, 68115); (68117, 68119); (68121, 68149); (68160, 68168); (68192,
   68222); (68224, 68255); (68288, 68295); (68297, 68324); (68331, 68335);
   (68352, 68405); (68416, 68437); (68440, 68466); (68472, 68497); (68521,
   68527); (68608, 68680); (68736, 68786); (68800, 68850); (68858, 68899);
   (68912, 68921); (69216, 69246); (69248, 69289); (69296, 69297); (69376,
   69415); (69424, 69445); (69457, 69460); (69488, 69505); (69552, 69579);
   (69600, 69622); (69635, 69687); (69714, 69743); (69745, 69746); (69749,
   69749); (69763, 69807); (69840, 69864); (69872, 69881); (69891, 69926);
   (69942, 69951); (69956, 69956); (69959, 69959); (69968, 70002); (70006,
   70006); (70019, 70066); (70081, 70084); (70096, 70106); (70108, 70108);
   (70113, 70132); (70144, 70161); (70163, 70187); (70272, 70278); (70280,
   70280); (70282, 70285); (70287, 70301); (70303, 70312); (70320, 70366);
   (70384, 70393); (70405, 70412); (70415, 70416); (70419, 70440); (70442,
   70448); (70450, 70451); (70453, 70457); (70461, 70461); (70480, 70480);
   (70493, 70497); (70656, 70708); (70727, 70730); (70736, 70745); (70751,
   70753); (70784, 70831); (70852, 70853); (70855, 70855); (70864, 70873);
   (71040, 71086); (71128, 71131); (71168, 71215); (71236, 71236); (71248,
   71257); (71296, 71338); (71352, 71352); (71360, 71369); (71424, 71450);
   (71472, 71483); (71488, 71494); (71680, 71723); (71840, 71922); (71935,
   71942); (71945, 71945); (71948, 71955); (71957, 71958); (71960, 71983);
   (71999, 71999); (72001, 72001); (72016, 72025); (72096, 72103); (72106,
   72144); (72161, 72161); (72163, 72163); (72192, 72192); (72203, 72242);
   (72250, 72250); (72272, 72272); (72284, 72329); (72349, 72349); (72368,
   72440); (72704, 72712); (72714, 72750); (72768, 72768); (72784, 72812);
   (72818, 72847); (72960, 72966); (72968, 72969); (72971, 73008); (73030,
   73030); (73040, 73049); (73056, 73061); (73063, 73064); (73066, 73097);
   (73112, 73112); (73120, 73129); (73440, 73458); (73648, 73648); (73664,
   73684); (73728, 74649)]%N.

Definition word_ranges_4 : list (N * N) :=
  [(74752, 74862); (74880, 75075); (77712, 77808); (77824, 78894); (82944,
   83526); (92160, 92728); (92736, 92766); (92768, 92777); (92784, 92862);
   (92864, 92873); (92880, 92909); (92928, 92975); (92992, 92995); (93008,
   93017); (93019, 93025); (93027, 93047); (93053, 93071); (93760, 93846);
   (93952, 94026); (94032, 94032); (94099, 94111); (94176, 94177); (94179,
   94179); (94208, 100343); (100352, 101589); (101632, 101640); (110576,
   110579); (110581, 110587); (110589, 110590); (110592, 110882); (110928,
   110930); (110948, 110951); (110960, 111355); (113664, 113770); (113776,
   113788); (113792, 113800); (113808, 113817); (119520, 119539); (119648,
   119672); (119808, 119892); (119894, 119964); (119966, 119967); (119970,
   119970); (119973, 119974); (119977, 119980); (119982, 119993); (119995,
   119995); (119997, 120003); (120005, 120069); (120071, 120074); (120077,
   120084); (120086, 120092); (120094, 120121); (120123, 120126); (120128,
   120132); (120134, 120134); (120138, 120144); (120146, 120485); (120488,
   120512); (120514, 120538); (120540, 120570); (120572, 120596); (120598,
   120628); (120630, 120654); (120656, 120686); (120688, 120712); (120714,
   120744); (120746, 120770); (120772, 120779); (120782, 120831); (122624,
   122654); (123136, 123180); (123191, 123197); (123200, 123209); (123214,
   123214); (123536, 123565); (123584, 123627); (123632, 123641); (124896,
   124902); (124904, 124907); (124909, 124910); (124912, 124926); (124928,
   125124); (125127, 125135); (125184, 125251); (125259, 125259); (125264,
   125273); (126065, 126123); (126125, 126127); (126129, 126132); (126209,
   126253); (126255, 126269); (126464, 126467); (126469, 126495); (126497,
   126498); (126500, 126500); (126503, 126503); (126505, 126514); (126516,
   126519); (126521, 126521); (126523, 126523); (126530, 126530); (126535,
   126535); (126537, 126537); (126539, 126539); (126541, 126543); (126545,
   126546); (126548, 126548); (126551, 126551); (126553, 126553); (126555,
   126555); (126557, 126557); (126559, 126559); (126561, 126562); (126564,
   126564); (126567, 126570); (126572, 126578); (126580, 126583); (126585,
   126588); (126590, 126590); (126592, 126601); (126603, 126619); (126625,
   126627); (126629, 126633); (126635, 126651); (127232, 127244); (130032,
   130041); (131072, 173791); (173824, 177976); (177984, 178205); (178208,
   183969); (183984, 191456); (194560, 195101); (196608, 201546)]%N.

(** The code points [c] with [chr(c).isalnum() or c == '_'], as inclusive
    ranges in increasing order: the regex class [\w] of a [str] pattern. *)
Definition word_ranges : list (N * N) :=
  word_ranges_0 ++ word_ranges_1 ++ word_ranges_2 ++ word_ranges_3 ++ word_ranges_4.

Definition case_ignorable_ranges_0 : list (N * N) :=
  [(39, 39); (46, 46); (58, 58); (94, 94); (96, 96); (168, 168); (173, 173);
   (175, 175); (180, 180); (183, 184); (688, 879); (884, 885); (890, 890);
   (900, 901); (903, 903); (1155, 1161); (1369, 1369); (1375, 1375); (1425,
   1469); (1471, 1471); (1473, 1474); (1476, 1477); (1479, 1479); (1524,
   1524); (1536, 1541); (1552, 1562); (1564, 1564); (1600, 1600); (1611,
   1631); (1648, 1648); (1750, 1757); (1759, 1768); (1770, 1773); (1807,
   1807); (1809, 1809); (1840, 1866); (1958, 1968); (2027, 2037); (2042,
   2042); (2045, 2045); (2070, 2093); (2137, 2139); (2184, 2184); (2192,
   2193); (2200, 2207); (2249, 2306); (2362, 2362); (2364, 2364); (2369,
   2376); (2381, 2381); (2385, 2391); (2402, 2403); (2417, 2417); (2433,
   2433); (2492, 2492); (2497, 2500); (2509, 2509); (2530, 2531); (2558,
   2558); (2561, 2562); (2620, 2620); (2625, 2626); (2631, 2632); (2635,
   2637); (2641, 2641); (2672, 2673); (2677, 2677); (2689, 2690); (2748,
   2748); (2753, 2757); (2759, 2760); (2765, 2765); (2786, 2787); (2810,
   2815); (2817, 2817); (2876, 2876); (2879, 2879); (2881, 2884); (2893,
   2893); (2901, 2902); (2914, 2915); (2946, 2946); (3008, 3008); (3021,
   3021); (3072, 3072); (3076, 3076); (3132, 3132); (3134, 3136); (3142,
   3144); (3146, 3149); (3157, 3158); (3170, 3171); (3201, 3201); (3260,
   3260); (3263, 3263); (3270, 3270); (3276, 3277); (3298, 3299); (3328,
   3329); (3387, 3388); (3393, 3396); (3405, 3405); (3426, 3427); (3457,
   3457); (3530, 3530); (3538, 3540); (3542, 3542); (3633, 3633); (3636,
   3642); (3654, 3662); (3761, 3761); (3764, 3772); (3782, 3782); (3784,
   3789); (3864, 3865); (3893, 3893); (3895, 3895); (3897, 3897); (3953,
   3966); (3968, 3972); (3974, 3975); (3981, 3991); (3993, 4028); (4038,
   4038); (4141, 4144); (4146, 4151); (4153, 4154); (4157, 4158); (4184,
   4185); (4190, 4192); (4209, 4212); (4226, 4226); (4229, 4230); (4237,
   4237); (4253, 4253); (4348, 4348); (4957, 4959); (5906, 5908); (5938,
   5939); (5970, 5971); (6002, 6003); (6068, 6069); (6071, 6077); (6086,
   6086); (6089, 6099); (6103, 6103); (6109, 6109); (6155, 6159); (6211,
   6211); (6277, 6278)]%N.

Definition case_ignorable_ranges_1 : list (N * N) :=
  [(6313, 6313); (6432, 6434); (6439, 6440); (6450, 6450); (6457, 6459);
   (6679, 6680); (6683, 6683); (6742, 6742); (6744, 6750); (6752, 6752);
   (6754, 6754); (6757, 6764); (6771, 6780); (6783, 6783); (6823, 6823);
   (6832, 6862); (6912, 6915); (6964, 6964); (6966, 6970); (6972, 6972);
   (6978, 6978); (7019, 7027); (7040, 7041); (7074, 7077); (7080, 7081);
   (7083, 7085); (7142, 7142); (7144, 7145); (7149, 7149); (7151, 7153);
   (7212, 7219); (7222, 7223); (7288, 7293); (7376, 7378); (7380, 7392);
   (7394, 7400); (7405, 7405); (7412, 7412); (7416, 7417); (7468, 7530);
   (7544, 7544); (7579, 7679); (8125, 8125); (8127, 8129); (8141, 8143);
   (8157, 8159); (8173, 8175); (8189, 8190); (8203, 8207); (8216, 8217);
   (8228, 8228); (8231, 8231); (8234, 8238); (8288, 8292); (8294, 8303);
   (8305, 8305); (8319, 8319); (8336, 8348); (8400, 8432); (11388, 11389);
   (11503, 11505); (11631, 11631); (11647, 11647); (11744, 11775); (11823,
   11823); (12293, 12293); (12330, 12333); (12337, 12341); (12347, 12347);
   (12441, 12446); (12540, 12542); (40981, 40981); (42232, 42237); (42508,
   42508); (42607, 42610); (42612, 42621); (42623, 42623); (42652, 42655);
   (42736, 42737); (42752, 42785); (42864, 42864); (42888, 42890); (42994,
   42996); (43000, 43001); (43010, 43010); (43014, 43014); (43019, 43019);
   (43045, 43046); (43052, 43052); (43204, 43205); (43232, 43249); (43263,
   43263); (43302, 43309); (43335, 43345); (43392, 43394); (43443, 43443);
   (43446, 43449); (43452, 43453); (43471, 43471); (43493, 43494); (43561,
   43566); (43569, 43570); (43573, 43574); (43587, 43587); (43596, 43596);
   (43632, 43632); (43644, 43644); (43696, 43696); (43698, 43700); (43703,
   43704); (43710, 43711); (43713, 43713); (43741, 43741); (43756, 43757);
   (43763, 43764); (43766, 43766); (43867, 43871); (43881, 43883); (44005,
   44005); (44008, 44008); (44013, 44013); (64286, 64286); (64434, 64450);
   (65024, 65039); (65043, 65043); (65056, 65071); (65106, 65106); (65109,
   65109); (65279, 65279); (65287, 65287); (65294, 65294); (65306, 65306);
   (65342, 65342); (65344, 65344); (65392, 65392); (65438, 65439); (65507,
   65507); (65529, 65531); (66045, 66045); (66272, 66272); (66422, 66426);
   (67456, 67461); (67463, 67504); (67506, 67514); (68097, 68099); (68101,
   68102); (68108, 68111); (68152, 68154); (68159, 68159); (68325, 68326)]%N.

Definition case_ignorable_ranges_2 : list (N * N) :=
  [(68900, 68903); (69291, 69292); (69446, 69456); (69506, 69509); (69633,
   69633); (69688, 69702); (69744, 69744); (69747, 69748); (69759, 69761);
   (69811, 69814); (69817, 69818); (69821, 69821); (69826, 69826); (69837,
   69837); (69888, 69890); (69927, 69931); (69933, 69940); (70003, 70003);
   (70016, 70017); (70070, 70078); (70089, 70092); (70095, 70095); (70191,
   70193); (70196, 70196); (70198, 70199); (70206, 70206); (70367, 70367);
   (70371, 70378); (70400, 70401); (70459, 70460); (70464, 70464); (70502,
   70508); (70512, 70516); (70712, 70719); (70722, 70724); (70726, 70726);
   (70750, 70750); (70835, 70840); (70842, 70842); (70847, 70848); (70850,
   70851); (71090, 71093); (71100, 71101); (71103, 71104); (71132, 71133);
   (71219, 71226); (71229, 71229); (71231, 71232); (71339, 71339); (71341,
   71341); (71344, 71349); (71351, 71351); (71453, 71455); (71458, 71461);
   (71463, 71467); (71727, 71735); (71737, 71738); (71995, 71996); (71998,
   71998); (72003, 72003); (72148, 72151); (72154, 72155); (72160, 72160);
   (72193, 72202); (72243, 72248); (72251, 72254); (72263, 72263); (72273,
   72278); (72281, 72283); (72330, 72342); (72344, 72345); (72752, 72758);
   (72760, 72765); (72767, 72767); (72850, 72871); (72874, 72880); (72882,
   72883); (72885, 72886); (73009, 73014); (73018, 73018); (73020, 73021);
   (73023, 73029); (73031, 73031); (73104, 73105); (73109, 73109); (73111,
   73111); (73459, 73460); (78896, 78904); (92912, 92916); (92976, 92982);
   (92992, 92995); (94031, 94031); (94095, 94111); (94176, 94177); (94179,
   94180); (110576, 110579); (110581, 110587); (110589, 110590); (113821,
   113822); (113824, 113827); (118528, 118573); (118576, 118598); (119143,
   119145); (119155, 119170); (119173, 119179); (119210, 119213); (119362,
   119364); (121344, 121398); (121403, 121452); (121461, 121461); (121476,
   121476); (121499, 121503); (121505, 121519); (122880, 122886); (122888,
   122904); (122907, 122913); (122915, 122916); (122918, 122922); (123184,
   123197); (123566, 123566); (123628, 123631); (125136, 125142); (125252,
   125259); (127995, 127999); (917505, 917505); (917536, 917631); (917760,
   917999)]%N.

(** The code points with the property Case_Ignorable, which the lowering of
    a capital sigma skips on either side. *)
Definition case_ignorable_ranges : list (N * N) :=
  case_ignorable_ranges_0 ++ case_ignorable_ranges_1 ++ case_ignorable_ranges_2.

Definition cased_ranges_0 : list (N * N) :=
  [(65, 90); (97, 122); (170, 170); (181, 181); (186, 186); (192, 214); (216,
   246); (248, 442); (444, 447); (452, 659); (661, 687); (880, 883); (886,
   887); (891, 893); (895, 895); (902, 902); (904, 906); (908, 908); (910,
   929); (931, 1013); (1015, 1153); (1162, 1327); (1329, 1366); (1376, 1416);
   (4256, 4293); (4295, 4295); (4301, 4301); (4304, 4346); (4349, 4351);
   (5024, 5109); (5112, 5117); (7296, 7304); (7312, 7354); (7357, 7359);
   (7424, 7467); (7531, 7543); (7545, 7578); (7680, 7957); (7960, 7965);
   (7968, 8005); (8008, 8013); (8016, 8023); (8025, 8025); (8027, 8027);
   (8029, 8029); (8031, 8061); (8064, 8116); (8118, 8124); (8126, 8126);
   (8130, 8132); (8134, 8140); (8144, 8147); (8150, 8155); (8160, 8172);
   (8178, 8180); (8182, 8188); (8450, 8450); (8455, 8455); (8458, 8467);
   (8469, 8469); (8473, 8477); (8484, 8484); (8486, 8486); (8488, 8488);
   (8490, 8493); (8495, 8500); (8505, 8505); (8508, 8511); (8517, 8521);
   (8526, 8526); (8544, 8575); (8579, 8580); (9398, 9449); (11264, 11387);
   (11390, 11492); (11499, 11502); (11506, 11507); (11520, 11557); (11559,
   11559); (11565, 11565); (42560, 42605); (42624, 42651); (42786, 42863);
   (42865, 42887); (42891, 42894); (42896, 42954); (42960, 42961); (42963,
   42963); (42965, 42969); (42997, 42998); (43002, 43002); (43824, 43866);
   (43872, 43880); (43888, 43967); (64256, 64262); (64275, 64279); (65313,
   65338); (65345, 65370); (66560, 66639); (66736, 66771); (66776, 66811);
   (66928, 66938); (66940, 66954); (66956, 66962); (66964, 66965); (66967,
   66977); (66979, 66993); (66995, 67001); (67003, 67004); (68736, 68786);
   (68800, 68850); (71840, 71903); (93760, 93823); (119808, 119892); (119894,
   119964); (119966, 119967); (119970, 119970); (119973, 119974); (119977,
   119980); (119982, 119993); (119995, 119995); (119997, 120003); (120005,
   120069); (120071, 120074); (120077, 120084); (120086, 120092); (120094,
   120121); (120123, 120126); (120128, 120132); (120134, 120134); (120138,
   120144); (120146, 120485); (120488, 120512); (120514, 120538); (120540,
   120570); (120572, 120596); (120598, 120628); (120630, 120654); (120656,
   120686); (120688, 120712); (120714, 120744); (120746, 120770); (120772,
   120779); (122624, 122633); (122635, 122654); (125184, 125251); (127280,
   127305); (127312, 127337); (127344, 127369)]%N.

(** The code points with the property Cased that are not Case_Ignorable. *)
Definition cased_ranges : list (N * N) :=
  cased_ranges_0.

Definition lower_runs_0 : list (N * N * N * N) :=
  [(65, 90, 1, 97); (192, 214, 1, 224); (216, 222, 1, 248); (256, 302, 2,
   257); (306, 310, 2, 307); (313, 327, 2, 314); (330, 374, 2, 331); (376,
   376, 1, 255); (377, 381, 2, 378); (385, 385, 1, 595); (386, 388, 2, 387);
   (390, 390, 1, 596); (391, 391, 1, 392); (393, 394, 1, 598); (395, 395, 1,
   396); (398, 398, 1, 477); (399, 399, 1, 601); (400, 400, 1, 603); (401,
   401, 1, 402); (403, 403, 1, 608); (404, 404, 1, 611); (406, 406, 1, 617);
   (407, 407, 1, 616); (408, 408, 1, 409); (412, 412, 1, 623); (413, 413, 1,
   626); (415, 415, 1, 629); (416, 420, 2, 417); (422, 422, 1, 640); (423,
   423, 1, 424); (425, 425, 1, 643); (428, 428, 1, 429); (430, 430, 1, 648);
   (431, 431, 1, 432); (433, 434, 1, 650); (435, 437, 2, 436); (439, 439, 1,
   658); (440, 440, 1, 441); (444, 444, 1, 445); (452, 452, 1, 454); (453,
   453, 1, 454); (455, 455, 1, 457); (456, 456, 1, 457); (458, 458, 1, 460);
   (459, 475, 2, 460); (478, 494, 2, 479); (497, 497, 1, 499); (498, 500, 2,
   499); (502, 502, 1, 405); (503, 503, 1, 447); (504, 542, 2, 505); (544,
   544, 1, 414); (546, 562, 2, 547); (570, 570, 1, 11365); (571, 571, 1,
   572); (573, 573, 1, 410); (574, 574, 1, 11366); (577, 577, 1, 578); (579,
   579, 1, 384); (580, 580, 1, 649); (581, 581, 1, 652); (582, 590, 2, 583);
   (880, 882, 2, 881); (886, 886, 1, 887); (895, 895, 1, 1011); (902, 902, 1,
   940); (904, 906, 1, 941); (908, 908, 1, 972); (910, 911, 1, 973); (913,
   929, 1, 945); (931, 939, 1, 963); (975, 975, 1, 983); (984, 1006, 2, 985);
   (1012, 1012, 1, 952); (1015, 1015, 1, 1016); (1017, 1017, 1, 1010); (1018,
   1018, 1, 1019); (1021, 1023, 1, 891); (1024, 1039, 1, 1104); (1040, 1071,
   1, 1072); (1120, 1152, 2, 1121); (1162, 1214, 2, 1163); (1216, 1216, 1,
   1231); (1217, 1229, 2, 1218); (1232, 1326, 2, 1233); (1329, 1366, 1,
   1377); (4256, 4293, 1, 11520); (4295, 4295, 1, 11559); (4301, 4301, 1,
   11565); (5024, 5103, 1, 43888); (5104, 5109, 1, 5112); (7312, 7354, 1,
   4304); (7357, 7359, 1, 4349); (7680, 7828, 2, 7681); (7838, 7838, 1, 223);
   (7840, 7934, 2, 7841); (7944, 7951, 1, 7936); (7960, 7965, 1, 7952);
   (7976, 7983, 1, 7968); (7992, 7999, 1, 7984); (8008, 8013, 1, 8000);
   (8025, 8031, 2, 8017); (8040, 8047, 1, 8032); (8072, 8079, 1, 8064);
   (8088, 8095, 1, 8080); (8104, 8111, 1, 8096); (8120, 8121, 1, 8112);
   (8122, 8123, 1, 8048); (8124, 8124, 1, 8115); (8136, 8139, 1, 8050);
   (8140, 8140, 1, 8131); (8152, 8153, 1, 8144); (8154, 8155, 1, 8054);
   (8168, 8169, 1, 8160); (8170, 8171, 1, 8058); (8172, 8172, 1, 8165);
   (8184, 8185, 1, 8056); (8186, 8187, 1, 8060); (8188, 8188, 1, 8179);
   (8486, 8486, 1, 969)]%N.

Definition lower_runs_1 : list (N * N * N * N) :=
  [(8490, 8490, 1, 107); (8491, 8491, 1, 229); (8498, 8498, 1, 8526); (8544,
   8559, 1, 8560); (8579, 8579, 1, 8580); (9398, 9423, 1, 9424); (11264,
   11311, 1, 11312); (11360, 11360, 1, 11361); (11362, 11362, 1, 619);
   (11363, 11363, 1, 7549); (11364, 11364, 1, 637); (11367, 11371, 2, 11368);
   (11373, 11373, 1, 593); (11374, 11374, 1, 625); (11375, 11375, 1, 592);
   (11376, 11376, 1, 594); (11378, 11378, 1, 11379); (11381, 11381, 1,
   11382); (11390, 11391, 1, 575); (11392, 11490, 2, 11393); (11499, 11501,
   2, 11500); (11506, 11506, 1, 11507); (42560, 42604, 2, 42561); (42624,
   42650, 2, 42625); (42786, 42798, 2, 42787); (42802, 42862, 2, 42803);
   (42873, 42875, 2, 42874); (42877, 42877, 1, 7545); (42878, 42886, 2,
   42879); (42891, 42891, 1, 42892); (42893, 42893, 1, 613); (42896, 42898,
   2, 42897); (42902, 42920, 2, 42903); (42922, 42922, 1, 614); (42923,
   42923, 1, 604); (42924, 42924, 1, 609); (42925, 42925, 1, 620); (42926,
   42926, 1, 618); (42928, 42928, 1, 670); (42929, 42929, 1, 647); (42930,
   42930, 1, 669); (42931, 42931, 1, 43859); (42932, 42946, 2, 42933);
   (42948, 42948, 1, 42900); (42949, 42949, 1, 642); (42950, 42950, 1, 7566);
   (42951, 42953, 2, 42952); (42960, 42960, 1, 42961); (42966, 42968, 2,
   42967); (42997, 42997, 1, 42998); (65313, 65338, 1, 65345); (66560, 66599,
   1, 66600); (66736, 66771, 1, 66776); (66928, 66938, 1, 66967); (66940,
   66954, 1, 66979); (66956, 66962, 1, 66995); (66964, 66965, 1, 67003);
   (68736, 68786, 1, 68800); (71840, 71871, 1, 71872); (93760, 93791, 1,
   93792); (125184, 125217, 1, 125218)]%N.

(** The simple lower-case mapping: [(lo, hi, step, target)] sends
    [lo], [lo + step], ... up to [hi] to [target], [target + step], ... *)
Definition lower_runs : list (N * N * N * N) :=
  lower_runs_0 ++ lower_runs_1.

(** The code points whose lower case is more than one character. *)
Definition lower_special : list (N * list N) :=
  [(304, [105; 775])]%N.

Definition title_runs_0 : list (N * N * N * N) :=
  [(97, 122, 1, 65); (181, 181, 1, 924); (224, 246, 1, 192); (248, 254, 1,
   216); (255, 255, 1, 376); (257, 303, 2, 256); (305, 305, 1, 73); (307,
   311, 2, 306); (314, 328, 2, 313); (331, 375, 2, 330); (378, 382, 2, 377);
   (383, 383, 1, 83); (384, 384, 1, 579); (387, 389, 2, 386); (392, 392, 1,
   391); (396, 396, 1, 395); (402, 402, 1, 401); (405, 405, 1, 502); (409,
   409, 1, 408); (410, 410, 1, 573); (414, 414, 1, 544); (417, 421, 2, 416);
   (424, 424, 1, 423); (429, 429, 1, 428); (432, 432, 1, 431); (436, 438, 2,
   435); (441, 441, 1, 440); (445, 445, 1, 444); (447, 447, 1, 503); (452,
   452, 1, 453); (454, 454, 1, 453); (455, 455, 1, 456); (457, 457, 1, 456);
   (458, 458, 1, 459); (460, 476, 2, 459); (477, 477, 1, 398); (479, 495, 2,
   478); (497, 497, 1, 498); (499, 501, 2, 498); (505, 543, 2, 504); (547,
   563, 2, 546); (572, 572, 1, 571); (575, 576, 1, 11390); (578, 578, 1,
   577); (583, 591, 2, 582); (592, 592, 1, 11375); (593, 593, 1, 11373);
   (594, 594, 1, 11376); (595, 595, 1, 385); (596, 596, 1, 390); (598, 599,
   1, 393); (601, 601, 1, 399); (603, 603, 1, 400); (604, 604, 1, 42923);
   (608, 608, 1, 403); (609, 609, 1, 42924); (611, 611, 1, 404); (613, 613,
   1, 42893); (614, 614, 1, 42922); (616, 616, 1, 407); (617, 617, 1, 406);
   (618, 618, 1, 42926); (619, 619, 1, 11362); (620, 620, 1, 42925); (623,
   623, 1, 412); (625, 625, 1, 11374); (626, 626, 1, 413); (629, 629, 1,
   415); (637, 637, 1, 11364); (640, 640, 1, 422); (642, 642, 1, 42949);
   (643, 643, 1, 425); (647, 647, 1, 42929); (648, 648, 1, 430); (649, 649,
   1, 580); (650, 651, 1, 433); (652, 652, 1, 581); (658, 658, 1, 439); (669,
   669, 1, 42930); (670, 670, 1, 42928); (837, 837, 1, 921); (881, 883, 2,
   880); (887, 887, 1, 886); (891, 893, 1, 1021); (940, 940, 1, 902); (941,
   943, 1, 904); (945, 961, 1, 913); (962, 962, 1, 931); (963, 971, 1, 931);
   (972, 972, 1, 908); (973, 974, 1, 910); (976, 976, 1, 914); (977, 977, 1,
   920); (981, 981, 1, 934); (982, 982, 1, 928); (983, 983, 1, 975); (985,
   1007, 2, 984); (1008, 1008, 1, 922); (1009, 1009, 1, 929); (1010, 1010, 1,
   1017); (1011, 1011, 1, 895); (1013, 1013, 1, 917); (1016, 1016, 1, 1015);
   (1019, 1019, 1, 1018); (1072, 1103, 1, 1040); (1104, 1119, 1, 1024);
   (1121, 1153, 2, 1120); (1163, 1215, 2, 1162); (1218, 1230, 2, 1217);
   (1231, 1231, 1, 1216); (1233, 1327, 2, 1232); (1377, 1414, 1, 1329);
   (5112, 5117, 1, 5104); (7296, 7296, 1, 1042); (7297, 7297, 1, 1044);
   (7298, 7298, 1, 1054); (7299, 7300, 1, 1057); (7301, 7301, 1, 1058);
   (7302, 7302, 1, 1066); (7303, 7303, 1, 1122)]%N.

Definition title_runs_1 : list (N * N * N * N) :=
  [(7304, 7304, 1, 42570); (7545, 7545, 1, 42877); (7549, 7549, 1, 11363);
   (7566, 7566, 1, 42950); (7681, 7829, 2, 7680); (7835, 7835, 1, 7776);
   (7841, 7935, 2, 7840); (7936, 7943, 1, 7944); (7952, 7957, 1, 7960);
   (7968, 7975, 1, 7976); (7984, 7991, 1, 7992); (8000, 8005, 1, 8008);
   (8017, 8023, 2, 8025); (8032, 8039, 1, 8040); (8048, 8049, 1, 8122);
   (8050, 8053, 1, 8136); (8054, 8055, 1, 8154); (8056, 8057, 1, 8184);
   (8058, 8059, 1, 8170); (8060, 8061, 1, 8186); (8064, 8071, 1, 8072);
   (8080, 8087, 1, 8088); (8096, 8103, 1, 8104); (8112, 8113, 1, 8120);
   (8115, 8115, 1, 8124); (8126, 8126, 1, 921); (8131, 8131, 1, 8140); (8144,
   8145, 1, 8152); (8160, 8161, 1, 8168); (8165, 8165, 1, 8172); (8179, 8179,
   1, 8188); (8526, 8526, 1, 8498); (8560, 8575, 1, 8544); (8580, 8580, 1,
   8579); (9424, 9449, 1, 9398); (11312, 11359, 1, 11264); (11361, 11361, 1,
   11360); (11365, 11365, 1, 570); (11366, 11366, 1, 574); (11368, 11372, 2,
   11367); (11379, 11379, 1, 11378); (11382, 11382, 1, 11381); (11393, 11491,
   2, 11392); (11500, 11502, 2, 11499); (11507, 11507, 1, 11506); (11520,
   11557, 1, 4256); (11559, 11559, 1, 4295); (11565, 11565, 1, 4301); (42561,
   42605, 2, 42560); (42625, 42651, 2, 42624); (42787, 42799, 2, 42786);
   (42803, 42863, 2, 42802); (42874, 42876, 2, 42873); (42879, 42887, 2,
   42878); (42892, 42892, 1, 42891); (42897, 42899, 2, 42896); (42900, 42900,
   1, 42948); (42903, 42921, 2, 42902); (42933, 42947, 2, 42932); (42952,
   42954, 2, 42951); (42961, 42961, 1, 42960); (42967, 42969, 2, 42966);
   (42998, 42998, 1, 42997); (43859, 43859, 1, 42931); (43888, 43967, 1,
   5024); (65345, 65370, 1, 65313); (66600, 66639, 1, 66560); (66776, 66811,
   1, 66736); (66967, 66977, 1, 66928); (66979, 66993, 1, 66940); (66995,
   67001, 1, 66956); (67003, 67004, 1, 66964); (68800, 68850, 1, 68736);
   (71872, 71903, 1, 71840); (93792, 93823, 1, 93760); (125218, 125251, 1,
   125184)]%N.

(** The simple title-case mapping, in the same format. *)
Definition title_runs : list (N * N * N * N) :=
  title_runs_0 ++ title_runs_1.

(** The code points whose title case is more than one character. *)
Definition title_special : list (N * list N) :=
  [(223, [83; 115]); (329, [700; 78]); (496, [74; 780]); (912, [921; 776;
   769]); (944, [933; 776; 769]); (1415, [1333; 1410]); (7830, [72; 817]);
   (7831, [84; 776]); (7832, [87; 778]); (7833, [89; 778]); (7834, [65;
   702]); (8016, [933; 787]); (8018, [933; 787; 768]); (8020, [933; 787;
   769]); (8022, [933; 787; 834]); (8114, [8122; 837]); (8116, [902; 837]);
   (8118, [913; 834]); (8119, [913; 834; 837]); (8130, [8138; 837]); (8132,
   [905; 837]); (8134, [919; 834]); (8135, [919; 834; 837]); (8146, [921;
   776; 768]); (8147, [921; 776; 769]); (8150, [921; 834]); (8151, [921; 776;
   834]); (8162, [933; 776; 768]); (8163, [933; 776; 769]); (8164, [929;
   787]); (8166, [933; 834]); (8167, [933; 776; 834]); (8178, [8186; 837]);
   (8180, [911; 837]); (8182, [937; 834]); (8183, [937; 834; 837]); (64256,
   [70; 102]); (64257, [70; 105]); (64258, [70; 108]); (64259, [70; 102;
   105]); (64260, [70; 102; 108]); (64261, [83; 116]); (64262, [83; 116]);
   (64275, [1348; 1398]); (64276, [1348; 1381]); (64277, [1348; 1387]);
   (64278, [1358; 1398]); (64279, [1348; 1389])]%N.

(** Membership in a table of ranges. *)
Fixpoint in_ranges (rs : list (N * N)) (c : N) : bool :=
  match rs with
  | [] => false
  | (lo, hi) :: r =>
      if (c <? lo)%N then false
      else if (c <=? hi)%N then true
      else in_ranges r c
  end.

Fixpoint find_run (rs : list (N * N * N * N)) (c : N) : option N :=
  match rs with
  | [] => None
  | (lo, hi, step, target) :: r =>
      if (c <? lo)%N then None
      else if ((c <=? hi) && ((c - lo) mod step =? 0))%N
           then Some (target + (c - lo))%N
           else find_run r c
  end.

Fixpoint find_special (l : list (N * list N)) (c : N) : option (list N) :=
  match l with
  | [] => None
  | (x, t) :: r => if (c =? x)%N then Some t else find_special r c
  end.

(** The full lower-case and title-case mappings of one character. *)
Definition lower_full (c : N) : str :=
  match find_special lower_special c with
  | Some t => t
  | None =>
      match find_run lower_runs c with
      | Some t => [t]
      | None => [c]
      end
  end.

Definition title_full (c : N) : str :=
  match find_special title_special c with
  | Some t => t
  | None =>
      match find_run title_runs c with
      | Some t => [t]
      | None => [c]
      end
  end.

(** The properties Case_Ignorable and Cased.  [cased] is consulted only
    for a character that is not case-ignorable, and its table lists the
    cased characters among those. *)
Definition case_ignorable (c : N) : bool := in_ranges case_ignorable_ranges c.
Definition cased (c : N) : bool := in_ranges cased_ranges c.

(** Whether a capital sigma is in final position: looking back over
    case-ignorable characters there is a cased letter, and looking
    ahead over case-ignorable characters there is none.  [before] is the
    text before the sigma, nearest character first. *)
Definition final_sigma (before after : str) : bool :=
  match drop_while case_ignorable before with
  | [] => false
  | x :: _ => cased x
  end
  && match drop_while case_ignorable after with
     | [] => true
     | y :: _ => negb (cased y)
     end.

(** Lowering of the text [s] that follows [before] (nearest character
    first): every character by the full mapping, a capital sigma to the
    final or the medial small sigma by its context. *)
Fixpoint lower_from (before : str) (s : str) : str :=
  match s with
  | [] => []
  | c :: r =>
      (if (c =? 931)%N
       then [if final_sigma before r then 962%N else 963%N]
       else lower_full c)
      ++ lower_from (c :: before) r
  end.

(** [str.lower] *)
Definition lower (s : str) : str := lower_from [] s.

(** [str.capitalize]: the first character in title case, the rest
    lowered. *)
Definition capitalize (s : str) : str :=
  match s with
  | [] => []
  | c :: r => title_full c ++ lower_from [c] r
  end.

(** [str.isspace] on one character, which is also the regex class
    [\s] of a [str] pattern. *)
Definition isspace (c : N) : bool :=
  (((9 <=? c) && (c <=? 13)) || ((28 <=? c) && (c <=? 32))
   || (c =? 133) || (c =? 160) || (c =? 5760)
   || ((8192 <=? c) && (c <=? 8202))
   || (c =? 8232) || (c =? 8233) || (c =? 8239) || (c =? 8287)
   || (c =? 12288))%N.

(** The regex class [\w] of a [str] pattern: the alphanumeric characters
    and the underscore. *)
Definition is_word (c : N) : bool := in_ranges word_ranges c.

Definition lstrip (s : str) : str := drop_while isspace s.
(** [str.rstrip()]: the text up to its last character that is not white
    space. *)
Fixpoint rstrip (s : str) : str :=
  match s with
  | [] => []
  | c :: r =>
      match rstrip r with
      | [] => if isspace c then [] else [c]
      | r' => c :: r'
      end
  end.
(** [str.strip()] *)
Definition strip (s : str) : str := rstrip (lstrip s).

(** [s.startswith(p)] *)
Fixpoint startswith (s p : str) : bool :=
  match p with
  | [] => true
  | a :: p' =>
      match s with
      | [] => false
      | b :: s' => (a =? b)%N && startswith s' p'
      end
  end.

(** [sub in s] *)
Fixpoint contains (sub s : str) : bool :=
  startswith s sub ||
  match s with
  | [] => false
  | _ :: r => contains sub r
  end.

(** [any(kw in s for kw in kws)] *)
Definition any_in (kws : list str) (s : str) : bool :=
  existsb (fun kw => contains kw s) kws.

(** [s.split('\n\n')]: cut at every non-overlapping blank line, scanning
    from the left.  The result is never empty; its head is the piece
    being read. *)
Fixpoint split_nn (s : str) : list str :=
  match s with
  | [] => [[]]
  | a :: tl =>
      match tl with
      | b :: rest =>
          if ((a =? 10) && (b =? 10))%N then [] :: split_nn rest
          else
            match split_nn tl with
            | piece :: pieces => (a :: piece) :: pieces
            | [] => [[a]]
            end
      | [] => [[a]]
      end
  end.

(** The part of [s] before the last occurrence of the character [c]. *)
Fixpoint before_last (c : N) (s : str) : option str :=
  match s with
  | [] => None
  | x :: r =>
      match before_last c r with
      | Some h => Some (x :: h)
      | None => if (x =? c)%N then Some [] else None
      end
  end.

(** [s.rsplit(c, 1)[0]]: everything before the last [c], or the whole of
    [s] when [c] does not occur. *)
Definition rsplit1_head (c : N) (s : str) : str :=
  match before_last c s with
  | Some h => h
  | None => s
  end.

(** [s[:n]], negative [n] counting from the end. *)
Definition slice_to {A} (n : Z) (l : list A) : list A :=
  if n <? 0 then take (length l - Z.to_nat (- n)) l
  else take (Z.to_nat n) l.

(** [l[start:]], negative [start] counting from the end. *)
Definition slice_from {A} (start : Z) (l : list A) : list A :=
  if start <? 0 then drop (Z.to_nat (Z.max 0 (Z.of_nat (length l) + start))) l
  else drop (Z.to_nat start) l.

(** [sep.join(parts)] *)
Fixpoint join (sep : str) (parts : list str) : str :=
  match parts with
  | [] => []
  | [p] => p
  | p :: r => p ++ sep ++ join sep r
  end.

(** [str(i)] for a non-negative integer. *)
Definition of_nat (n : nat) : str := lit (pretty n).

End PyStr.

Import PyStr.

(** ** Python values, exceptions and configuration *)

(** The values a caller can pass where the source expects a string
    (a header, a JSON field): [None], a string, an integer, or a JSON
    array, which is the unhashable case. *)
Inductive pyval : Type :=
  | PNone
  | PStr (s : str)
  | PInt (n : Z)
  | PList (items : list str).

(** Truth value of a Python object, as [not v] tests it. *)
Definition truthy (v : pyval) : bool :=
  match v with
  | PNone => false
  | PStr s => negb (bool_decide (s = []))
  | PInt n => negb (n =? 0)
  | PList l => negb (bool_decide (l = []))
  end.

Inductive exn : Type :=
  | TypeError
  | KeyError
  | OverflowError.

Inductive result (A : Type) : Type :=
  | Ok (a : A)
  | Raise (e : exn).

Arguments Ok {A} a.
Arguments Raise {A} e.

Definition bind {A B} (r : result A) (f : A -> result B) : result B :=
  match r with
  | Ok a => f a
  | Raise e => Raise e
  end.

Notation "'let!' x ':=' r 'in' k" := (bind r (fun x => k))
  (at level 10, x name, r at level 100, k at level 200).

(** Hashable values, the keys a dictionary can hold. *)
Inductive hkey : Type :=
  | HNone
  | HStr (s : str)
  | HInt (n : Z).

#[global] Instance hkey_eq_dec : EqDecision hkey.
Proof. solve_decision. Defined.

#[global] Instance hkey_countable : Countable hkey.
Proof.
  refine (inj_countable'
    (fun k => match k with
              | HNone => inl ()
              | HStr s => inr (inl s)
              | HInt n => inr (inr n)
              end)
    (fun x => match x with
              | inl _ => HNone
              | inr (inl s) => HStr s
              | inr (inr n) => HInt n
              end) _).
  intros []; reflexivity.
Defined.

(** [hash(v)], which every dictionary access performs first: a list
    raises [TypeError: unhashable type]. *)
Definition hash_key (v : pyval) : result hkey :=
  match v with
  | PNone => Ok HNone
  | PStr s => Ok (HStr s)
  | PInt n => Ok (HInt n)
  | PList _ => Raise TypeError
  end.

(** [class Config] *)
Record Config : Type := {
  GOOGLE_API_KEY : str;
  MAX_HISTORY_ENTRIES : Z;
  API_TIMEOUT : Z;
  SESSION_TIMEOUT_HOURS : Z;
  RATE_LIMIT_PER_MINUTE : Z;
  MAX_MESSAGE_LENGTH : Z
}.

(** The defaults of the dataclass, with the API key read from the
    environment. *)
Definition default_config (api_key : str) : Config := {|
  GOOGLE_API_KEY := api_key;
  MAX_HISTORY_ENTRIES := 1000;
  API_TIMEOUT := 10;
  SESSION_TIMEOUT_HOURS := 24;
  RATE_LIMIT_PER_MINUTE := 60;
  MAX_MESSAGE_LENGTH := 2000
|}.

(** A configuration with small bounds, for the worked examples. *)
Definition small_config : Config := {|
  GOOGLE_API_KEY := [];
  MAX_HISTORY_ENTRIES := 3;
  API_TIMEOUT := 10;
  SESSION_TIMEOUT_HOURS := 24;
  RATE_LIMIT_PER_MINUTE := 2;
  MAX_MESSAGE_LENGTH := 2000
|}.

(** [timedelta(minutes=m)] and [timedelta(hours=h)] in microseconds. *)
Definition minutes (m : Z) : Z := m * 60000000.
Definition hours (h : Z) : Z := h * 3600000000.

(** The range of [datetime]: [datetime.min] is 0001-01-01T00:00:00, 719162
    days before the epoch, and [datetime.max] is
    9999-12-31T23:59:59.999999, one microsecond less than 2932897 days
    after it. *)
Definition datetime_min : Z := - (719162 * 86400000000).
Definition datetime_max : Z := 2932897 * 86400000000 - 1.

(** The constructor [timedelta(hours=h)] normalises its argument to days,
    seconds and microseconds and raises [OverflowError] when the days
    exceed 999999999 in magnitude. *)
Definition timedelta_hours (h : Z) : result Z :=
  let days := hours h / 86400000000 in
  if (-999999999 <=? days) && (days <=? 999999999) then Ok (hours h)
  else Raise OverflowError.

(** [d - td] for a datetime [d] and a timedelta [td]: [OverflowError]
    ("date value out of range") when the result is no datetime. *)
Definition datetime_sub (d td : Z) : result Z :=
  let r := d - td in
  if (datetime_min <=? r) && (r <=? datetime_max) then Ok r
  else Raise OverflowError.

(** ** RateLimiter *)

Module RateLimiter.

(** The body of the [try] block of [is_rate_limited].  [tracker] is
    [rate_limit_tracker]; the result carries the updated dictionary. *)
Definition is_rate_limited_try (cfg : Config) (client_ip : pyval) (now : Z)
    (tracker : gmap hkey (list Z)) : result (bool * gmap hkey (list Z)) :=
  let current_time := now in
  let cutoff_time := current_time - minutes 1 in
  let! k := hash_key client_ip in
  let tracker1 :=
    match tracker !! k with
    | None => <[k := []]> tracker
    | Some _ => tracker
    end in
  let window :=
    List.filter (fun timestamp => cutoff_time <? timestamp)
                (default [] (tracker1 !! k)) in
  let tracker2 := <[k := window]> tracker1 in
  if len window >=? RATE_LIMIT_PER_MINUTE cfg then Ok (true, tracker2)
  else Ok (false, <[k := window ++ [current_time]]> tracker2).

(** [RateLimiter.is_rate_limited]: [True] means the request is denied.
    The handler logs and returns [False]. *)
Definition is_rate_limited (cfg : Config) (client_ip : pyval) (now : Z)
    (tracker : gmap hkey (list Z)) : bool * gmap hkey (list Z) :=
  match is_rate_limited_try cfg client_ip now tracker with
  | Ok r => r
  | Raise _ => (false, tracker)
  end.

(** A run of admission checks for one key at the given clock readings;
    returns the answers in order and the final tracker. *)
Fixpoint checks (cfg : Config) (client_ip : pyval) (times : list Z)
    (tracker : gmap hkey (list Z)) : list bool * gmap hkey (list Z) :=
  match times with
  | [] => ([], tracker)
  | t :: ts =>
      let '(b, tracker') := is_rate_limited cfg client_ip t tracker in
      let '(bs, tracker'') := checks cfg client_ip ts tracker' in
      (b :: bs, tracker'')
  end.

(** The timestamps of key [k] that a check at [now] keeps. *)
Definition kept (k : hkey) (now : Z) (tracker : gmap hkey (list Z))
    : list Z :=
  List.filter (fun t => now - minutes 1 <? t) (default [] (tracker !! k)).

(** Number of admitted checks among the answers of a run. *)
Definition admitted (answers : list bool) : Z :=
  len (List.filter negb answers).

End RateLimiter.

(** ** SessionManager *)

(** The dictionary stored under a session id in [active_sessions].  The
    two times are kept as clock readings: the source stores
    [isoformat()] text and reads it back with [fromisoformat], which
    returns the same [datetime]. *)
Record Session : Type := {
  created : Z;
  last_activity : Z;
  user_ip : pyval;
  message_count : Z
}.

(** One element of a context's [conversation_history]. *)
Record Exchange : Type := {
  ex_user : str;
  ex_bot : str;
  ex_timestamp : Z;
  ex_mood : str
}.

(** The dictionary stored under a session id in [user_contexts]. *)
Record Context : Type := {
  conversation_history : list Exchange;
  user_name : option str;
  topics_discussed : list str;
  mood : str;
  preferences : list (str * str);
  last_topic : option str;
  interaction_count : Z
}.

Definition empty_context : Context := {|
  conversation_history := [];
  user_name := None;
  topics_discussed := [];
  mood := lit "neutral";
  preferences := [];
  last_topic := None;
  interaction_count := 0
|}.

Module SessionManager.

(** [create_session]: [uuid] is the text of [uuid.uuid4()]. *)
Definition create_session (uuid : str) (now : Z) (ip : pyval)
    (active_sessions : gmap str Session) (user_contexts : gmap str Context)
    : str * gmap str Session * gmap str Context :=
  let session_id := uuid in
  let current_time := now in
  (session_id,
   <[session_id := {| created := current_time;
                      last_activity := current_time;
                      user_ip := ip;
                      message_count := 0 |}]> active_sessions,
   <[session_id := empty_context]> user_contexts).

(** [update_session] *)
Definition update_session (session_id : str) (now : Z)
    (active_sessions : gmap str Session) : bool * gmap str Session :=
  match active_sessions !! session_id with
  | Some s =>
      (true,
       <[session_id := {| created := created s;
                          last_activity := now;
                          user_ip := user_ip s;
                          message_count := message_count s + 1 |}]>
         active_sessions)
  | None => (false, active_sessions)
  end.

(** [datetime.now() - timedelta(hours=config.SESSION_TIMEOUT_HOURS)],
    the right-hand side of the assignment to [cutoff_time]: either step
    can raise [OverflowError]. *)
Definition cutoff (cfg : Config) (now : Z) : result Z :=
  let! delta := timedelta_hours (SESSION_TIMEOUT_HOURS cfg) in
  datetime_sub now delta.

(** The body of the [try] block of [is_valid_session].  The keys of
    [active_sessions] are strings, so [None] and integers are simply
    absent, and a list raises on the membership test.  The cutoff is
    computed after the lookup, so an unknown id is answered before any
    date arithmetic. *)
Definition is_valid_session_try (cfg : Config) (session_id : pyval)
    (now : Z) (active_sessions : gmap str Session) : result bool :=
  if negb (truthy session_id) then Ok false
  else
    let! k := hash_key session_id in
    match k with
    | HStr s =>
        match active_sessions !! s with
        | None => Ok false
        | Some session_data =>
            let! cutoff_time := cutoff cfg now in
            Ok (cutoff_time <? last_activity session_data)
        end
    | _ => Ok false
    end.

(** [SessionManager.is_valid_session]: the handler answers [False] for
    every exception, the [OverflowError] of the cutoff included. *)
Definition is_valid_session (cfg : Config) (session_id : pyval) (now : Z)
    (active_sessions : gmap str Session) : bool :=
  match is_valid_session_try cfg session_id now active_sessions with
  | Ok b => b
  | Raise _ => false
  end.

End SessionManager.

(** ** HistoryManager *)

(** An entry of [conversation_history].  [h_timestamp] is the clock
    reading cut to whole seconds, from which the source prints the
    [timestamp], [date] and [time] fields; [h_response_time] is the text
    of the elapsed time. *)
Record HistoryEntry : Type := {
  h_id : str;
  h_timestamp : Z;
  h_user : str;
  h_bot : str;
  h_session_id : str;
  h_input_method : str;
  h_response_time : str
}.

(** The arguments of one [add_conversation] call, with the two values it
    reads from the environment. *)
Record HistoryCall : Type := {
  c_uuid : str;
  c_now : Z;
  c_user_msg : str;
  c_bot_reply : str;
  c_session_id : str;
  c_input_method : str;
  c_response_time : str
}.

Module HistoryManager.

Definition make_entry (c : HistoryCall) : HistoryEntry := {|
  h_id := c_uuid c;
  h_timestamp := c_now c / 1000000;
  h_user := strip (c_user_msg c);
  h_bot := strip (c_bot_reply c);
  h_session_id := c_session_id c;
  h_input_method := c_input_method c;
  h_response_time := c_response_time c
|}.

(** [list.pop(0)] on a non-empty list. *)
Definition pop0 {A} (l : list A) : list A := tail l.

(** [add_conversation]: returns the entry and the updated log. *)
Definition add_conversation (cfg : Config) (c : HistoryCall)
    (history : list HistoryEntry) : HistoryEntry * list HistoryEntry :=
  let entry := make_entry c in
  let history1 := history ++ [entry] in
  let history2 :=
    if len history1 >? MAX_HISTORY_ENTRIES cfg then pop0 history1
    else history1 in
  (entry, history2).

(** [get_recent_conversations] *)
Definition get_recent_conversations (limit : Z)
    (history : list HistoryEntry) : list HistoryEntry :=
  let recent_conversations :=
    match history with
    | [] => []
    | _ => slice_from (- limit) history
    end in
  rev recent_conversations.

(** [clear_history] *)
Definition clear_history (history : list HistoryEntry)
    : bool * list HistoryEntry :=
  (true, []).

(** The route [/api/history]: [limit_arg] is the parsed query argument,
    absent when missing or not an integer.  Returns the [history] and
    [count] fields of the reply. *)
Definition get_history (limit_arg : option Z) (history : list HistoryEntry)
    : list HistoryEntry * Z :=
  let limit := default 100 limit_arg in
  let limit := Z.min limit 500 in
  let conversations := get_recent_conversations limit history in
  (conversations, len conversations).

(** A run of appends. *)
Definition add_all (cfg : Config) (calls : list HistoryCall)
    (history : list HistoryEntry) : list HistoryEntry :=
  fold_left (fun h c => snd (add_conversation cfg c h)) calls history.

End HistoryManager.

(** ** ConversationEnhancer *)

Module ConversationEnhancer.

(** [mood_keywords], in the insertion order the loop visits. *)
Definition mood_keywords : list (str * list str) :=
  [ (lit "positive",
     [lit "great"; lit "awesome"; lit "love"; lit "excited"; lit "happy"]);
    (lit "negative",
     [lit "sad"; lit "angry"; lit "frustrated"; lit "disappointed"]);
    (lit "neutral", [lit "okay"; lit "fine"; lit "alright"]) ].

Fixpoint detect_mood (table : list (str * list str)) (user_lower : str)
    : str :=
  match table with
  | [] => lit "neutral"
  | (m, keywords) :: rest =>
      if any_in keywords user_lower then m else detect_mood rest user_lower
  end.

(** The alternatives of the name pattern
    [(?:my name is|call me|i am|i'm)\s+(\w+)], in the order written. *)
Definition name_phrases : list str :=
  [lit "my name is"; lit "call me"; lit "i am"; lit "i'm"].

(** [\s+(\w+)] at the head of [s]: the captured group.  Both runs are
    greedy; the two classes are disjoint, so giving back white space
    never enables a match. *)
Definition space_then_word (s : str) : option str :=
  match take_while isspace s with
  | [] => None
  | _ :: _ =>
      match take_while is_word (drop_while isspace s) with
      | [] => None
      | w => Some w
      end
  end.

(** The whole pattern anchored at the head of [s], alternatives tried
    in order. *)
Fixpoint match_at (phrases : list str) (s : str) : option str :=
  match phrases with
  | [] => None
  | p :: rest =>
      match
        (if startswith s p then space_then_word (drop (length p) s)
         else None)
      with
      | Some w => Some w
      | None => match_at rest s
      end
  end.

(** [re.search]: the match at the leftmost position where the pattern
    matches; returns [group(1)]. *)
Fixpoint name_search (s : str) : option str :=
  match match_at name_phrases s with
  | Some w => Some w
  | None =>
      match s with
      | [] => None
      | _ :: r => name_search r
      end
  end.

(** Name extraction as the specification words it: the phrases are
    applied one after the other, each searched over the whole text, and
    the first phrase that matches anywhere gives the name. *)
Fixpoint phrase_search (p : str) (s : str) : option str :=
  match match_at [p] s with
  | Some w => Some w
  | None =>
      match s with
      | [] => None
      | _ :: r => phrase_search p r
      end
  end.

Fixpoint first_phrase_search (phrases : list str) (s : str) : option str :=
  match phrases with
  | [] => None
  | p :: rest =>
      match phrase_search p s with
      | Some w => Some w
      | None => first_phrase_search rest s
      end
  end.

Definition name_as_specified (user_msg : str) : option str :=
  capitalize <$> first_phrase_search name_phrases (lower user_msg).

(** [update_context] *)
Definition update_context (session_id : str) (user_msg bot_reply : str)
    (now : Z) (user_contexts : gmap str Context) : gmap str Context :=
  let context := default empty_context (user_contexts !! session_id) in
  let count := interaction_count context + 1 in
  let user_lower := lower user_msg in
  let detected_mood := detect_mood mood_keywords user_lower in
  let history :=
    conversation_history context ++
    [ {| ex_user := user_msg; ex_bot := bot_reply;
         ex_timestamp := now; ex_mood := detected_mood |} ] in
  let history :=
    if len history >? 10 then slice_from (-10) history else history in
  let name :=
    match name_search (lower user_msg) with
    | Some w => Some (capitalize w)
    | None => user_name context
    end in
  <[session_id := {| conversation_history := history;
                     user_name := name;
                     topics_discussed := topics_discussed context;
                     mood := detected_mood;
                     preferences := preferences context;
                     last_topic := last_topic context;
                     interaction_count := count |}]> user_contexts.

Definition render_exchange (e : Exchange) : str :=
  lit "User: " ++ slice_to 100 (ex_user e) ++ NL ++
  lit "Assistant: " ++ slice_to 100 (ex_bot e) ++ NL.

(** [get_enhanced_prompt] *)
Definition get_enhanced_prompt (session_id : str) (user_msg : str)
    (user_contexts : gmap str Context) : str :=
  match user_contexts !! session_id with
  | None => user_msg
  | Some context =>
      let p1 :=
        [lit "You are a helpful and friendly AI assistant. Be conversational and engaging."] in
      let p2 :=
        match user_name context with
        | Some n =>
            if bool_decide (n = []) then []
            else [lit "The user's name is " ++ n ++ lit "."]
        | None => []
        end in
      let p3 :=
        match conversation_history context with
        | [] => []
        | h =>
            [lit "Recent conversation:" ++ NL ++
             concat (map render_exchange (slice_from (-3) h))]
        end in
      let p4 :=
        [NL ++ lit "Current message: " ++ user_msg;
         NL ++ lit "Respond naturally and helpfully."] in
      join NL (p1 ++ p2 ++ p3 ++ p4)
  end.

End ConversationEnhancer.

(** ** WikipediaService *)

(** A fetched page: the two attributes the formatter reads. *)
Record Page : Type := {
  title : str;
  content : str
}.

(** The outcomes of [wikipedia.page]. *)
Inductive PageResult : Type :=
  | PageFound (p : Page)
  | DisambiguationError (options : list str)
  | PageError.

(** The [wikipedia] package, an external collaborator: a failed
    [summary] or [search] call is [None]. *)
Record Wikipedia : Type := {
  page : str -> PageResult;
  summary : str -> option str;
  search : str -> option (list str)
}.

Module WikipediaService.

Definition question_words : list str :=
  [lit "what is"; lit "who is"; lit "tell me about"; lit "explain";
   lit "describe"; lit "define"].

Fixpoint strip_question (words : list str) (clean_query : str) : str :=
  match words with
  | [] => clean_query
  | word :: rest =>
      if startswith (lower clean_query) word
      then strip (drop (length word) clean_query)
      else strip_question rest clean_query
  end.

(** [_clean_query] *)
Definition _clean_query (query : str) : str :=
  strip_question question_words (strip query).

(** The paragraph filter of the formatter. *)
Definition qualifies (p : str) : bool :=
  negb (bool_decide (p = [])) && (len p >? 100)
  && negb (startswith p (lit "==")).

Definition paragraphs_of (content : str) : list str :=
  List.filter qualifies (map strip (split_nn content)).

Definition heading (t : str) : str :=
  lit "📚 **" ++ t ++ lit "**" ++ NL ++ NL.

Definition footer : str := lit "🔗 *Source: Wikipedia*".

(** The [for para in paragraphs] loop: the parts it appends, given the
    running [current_length]. *)
Fixpoint format_loop (paragraphs : list str) (current_length : Z)
    : list str :=
  match paragraphs with
  | [] => []
  | para :: rest =>
      if current_length + len para >? 4000 then
        if current_length <? 3000 then
          let remaining := 4000 - current_length - 50 in
          let truncated :=
            rsplit1_head 46%N (slice_to remaining para) ++ lit "." in
          [truncated ++ NL ++ NL]
        else []
      else
        let current_length' := current_length + len para + 2 in
        (para ++ NL ++ NL) ::
        (if current_length' >=? 3500 then []
         else format_loop rest current_length')
  end.

(** [_format_comprehensive_response] *)
Definition _format_comprehensive_response (p : Page) : option str :=
  match paragraphs_of (content p) with
  | [] => None
  | paragraphs =>
      let first := heading (title p) in
      Some (concat (first :: format_loop paragraphs (len first) ++ [footer]))
  end.

(** One numbered line of a listing, with its summary when it can be
    fetched. *)
Definition listing_item (w : Wikipedia) (i : nat) (name : str) : str :=
  match summary w name with
  | Some text =>
      lit "**" ++ of_nat i ++ lit ". " ++ name ++ lit "**" ++ NL ++
      text ++ NL ++ NL
  | None =>
      lit "**" ++ of_nat i ++ lit ". " ++ name ++ lit "**" ++ NL ++ NL
  end.

Fixpoint listing (w : Wikipedia) (i : nat) (names : list str) : list str :=
  match names with
  | [] => []
  | n :: rest => listing_item w i n :: listing w (S i) rest
  end.

(** [_handle_disambiguation] *)
Definition _handle_disambiguation (w : Wikipedia) (query : str)
    (options : list str) : str :=
  concat
    ((lit "🔍 I found multiple topics for '" ++ query ++
      lit "'. Here are the main ones:" ++ NL ++ NL)
     :: listing w 1 (take 5 options)
     ++ [lit "💡 Please be more specific!"]).

(** [_get_search_suggestions] *)
Definition _get_search_suggestions (w : Wikipedia) (query : str) : str :=
  match search w query with
  | None => lit "I encountered an issue searching for '" ++ query ++ lit "'."
  | Some [] =>
      lit "I couldn't find any Wikipedia articles about '" ++ query ++
      lit "'."
  | Some search_results =>
      concat
        ((lit "🔎 I found these Wikipedia articles related to '" ++ query ++
          lit "':" ++ NL ++ NL)
         :: listing w 1 search_results)
  end.

(** [_get_comprehensive_content] *)
Definition _get_comprehensive_content (w : Wikipedia) (query : str)
    : option str :=
  match page w query with
  | PageFound p => _format_comprehensive_response p
  | DisambiguationError options =>
      match options with
      | first :: _ =>
          match page w first with
          | PageFound p => _format_comprehensive_response p
          | _ => Some (_handle_disambiguation w query (take 5 options))
          end
      | [] => Some (_handle_disambiguation w query (take 5 options))
      end
  | PageError => None
  end.

(** [search_wikipedia] *)
Definition search_wikipedia (w : Wikipedia) (query : str) : str :=
  let clean_query := _clean_query query in
  match _get_comprehensive_content w clean_query with
  | Some r =>
      if bool_decide (r = []) then _get_search_suggestions w clean_query
      else r
  | None => _get_search_suggestions w clean_query
  end.

(** A pattern [\b(p1|p2|...)\b] searched over [s].  Every phrase begins
    and ends with a word character, so the boundaries hold when the
    character before is not a word character (or the match is at the
    start) and the one after is not either (or the match is at the
    end). *)
Definition boundary_after (s : str) : bool :=
  match s with
  | [] => true
  | c :: _ => negb (is_word c)
  end.

Fixpoint bounded_search (phrases : list str) (prev_is_word : bool)
    (s : str) : bool :=
  (negb prev_is_word &&
   existsb (fun p => startswith s p && boundary_after (drop (length p) s))
           phrases)
  || match s with
     | [] => false
     | c :: r => bounded_search phrases (is_word c) r
     end.

Definition wiki_patterns : list (list str) :=
  [ [lit "what is"; lit "who is"; lit "tell me about"; lit "explain";
     lit "describe"; lit "define"];
    [lit "wikipedia"; lit "facts about"; lit "information about"] ].

(** [is_wikipedia_query] *)
Definition is_wikipedia_query (message : str) : bool :=
  existsb (fun pattern => bounded_search pattern false (lower message))
          wiki_patterns.

End WikipediaService.

(** ** AIService *)

(** The [source] tag of a reply. *)
Inductive Source : Type :=
  | src_wikipedia
  | src_gemini
  | src_gemini_code
  | src_fallback
  | src_error.

(** The dictionary every responder returns. *)
Record Envelope : Type := {
  text : str;
  source : Source;
  emoji : str
}.

(** What [model.generate_content(prompt)] can do: raise, return a falsy
    response, return a response without a [text] attribute, or return a
    response with text. *)
Inductive GenOutcome : Type :=
  | GenRaises
  | GenNoResponse
  | GenNoText
  | GenText (t : str).

(** The optional generative provider: the import flag and the call. *)
Record GenAI : Type := {
  GENAI_AVAILABLE : bool;
  generate_content : str -> GenOutcome
}.

Module AIService.

Definition code_keywords : list str :=
  [lit "write code"; lit "generate code"; lit "python code";
   lit "javascript code"].

Definition is_code_request (message : str) : bool :=
  any_in code_keywords (lower message).

(** [not GENAI_AVAILABLE or not config.GOOGLE_API_KEY] *)
Definition unavailable (cfg : Config) (g : GenAI) : bool :=
  negb (GENAI_AVAILABLE g) || bool_decide (GOOGLE_API_KEY cfg = []).

(** The name the fallback responder knows for a session: the stored
    [user_name], or the empty string when there is none. *)
Definition known_name (session_id : str)
    (user_contexts : gmap str Context) : str :=
  match user_contexts !! session_id with
  | Some context => default [] (user_name context)
  | None => []
  end.

(** The greeting slot of a reply: a space and the name, or nothing. *)
Definition name_slot (name : str) : str :=
  match name with
  | [] => []
  | _ :: _ => lit " " ++ name
  end.

(** [_get_fallback_response] *)
Definition _get_fallback_response (message : str) (session_id : str)
    (user_contexts : gmap str Context) : Envelope :=
  let message_lower := lower message in
  let user_name :=
    match user_contexts !! session_id with
    | Some context => user_name context
    | None => Some []
    end in
  let name_greeting :=
    match user_name with
    | Some (c :: n) => lit " " ++ (c :: n)
    | _ => []
    end in
  if any_in [lit "hello"; lit "hi"; lit "hey"; lit "good morning";
             lit "good evening"] message_lower then
    {| text := lit "👋 Hello" ++ name_greeting ++
               lit "! I'm your AI assistant. How can I help you today?";
       source := src_fallback;
       emoji := lit "👋" |}
  else if any_in [lit "how are you"; lit "how r u"] message_lower then
    {| text := lit "I'm doing great" ++ name_greeting ++
               lit "! Ready to help. What would you like to know?";
       source := src_fallback;
       emoji := lit "😊" |}
  else if any_in [lit "help"; lit "what can you do"] message_lower then
    {| text := lit "I can help you with:" ++ NL ++ NL ++
               lit "📚 Search Wikipedia for information" ++ NL ++
               lit "💬 Answer questions" ++ NL ++
               lit "🤔 General conversation" ++ NL ++ NL ++
               lit "What would you like to explore?";
       source := src_fallback;
       emoji := lit "💡" |}
  else if any_in [lit "thank"; lit "thanks"] message_lower then
    {| text := lit "You're welcome" ++ name_greeting ++
               lit "! Happy to help anytime! 😊";
       source := src_fallback;
       emoji := lit "😊" |}
  else if contains (lit "?") message then
    {| text := lit "That's an interesting question! Try asking about specific topics and I'll search Wikipedia for accurate information.";
       source := src_fallback;
       emoji := lit "🤔" |}
  else
    {| text := lit "I understand" ++ name_greeting ++
               lit "! Feel free to ask me anything, especially factual topics I can research for you.";
       source := src_fallback;
       emoji := lit "💬" |}.

(** [_get_gemini_response] *)
Definition _get_gemini_response (cfg : Config) (g : GenAI) (message : str)
    (session_id : str) (user_contexts : gmap str Context) : Envelope :=
  if unavailable cfg g then
    _get_fallback_response message session_id user_contexts
  else
    let enhanced_message :=
      ConversationEnhancer.get_enhanced_prompt session_id message
        user_contexts in
    match generate_content g enhanced_message with
    | GenText (c :: t) =>
        {| text := c :: t; source := src_gemini; emoji := lit "🤖" |}
    | GenText [] | GenNoResponse | GenNoText | GenRaises =>
        _get_fallback_response message session_id user_contexts
    end.

Definition code_prompt (message : str) : str :=
  lit "Generate clean, well-commented code for: " ++ message ++ NL ++ NL ++
  lit "Please provide:" ++ NL ++
  lit "1. Complete, functional code" ++ NL ++
  lit "2. Clear comments" ++ NL ++
  lit "3. Example usage" ++ NL ++ NL ++
  lit "Format with markdown code blocks.".

(** [_get_gemini_code_response] *)
Definition _get_gemini_code_response (cfg : Config) (g : GenAI)
    (message : str) (session_id : str) : Envelope :=
  if unavailable cfg g then
    {| text := lit "Code generation requires AI setup.";
       source := src_error;
       emoji := lit "💻" |}
  else
    let enhanced_prompt := code_prompt message in
    let response_text :=
      match generate_content g enhanced_prompt with
      | GenText t => t
      | GenNoResponse | GenNoText => lit "Couldn't generate code."
      | GenRaises => lit "I couldn't generate code at this time."
      end in
    {| text := lit "**Code Generated**" ++ NL ++ NL ++ response_text;
       source := src_gemini_code;
       emoji := lit "💻" |}.

(** [get_response] *)
Definition get_response (cfg : Config) (w : Wikipedia) (g : GenAI)
    (message : str) (session_id : str) (user_contexts : gmap str Context)
    : Envelope :=
  if WikipediaService.is_wikipedia_query message then
    {| text := WikipediaService.search_wikipedia w message;
       source := src_wikipedia;
       emoji := lit "🔍" |}
  else if is_code_request message then
    _get_gemini_code_response cfg g message session_id
  else
    _get_gemini_response cfg g message session_id user_contexts.

End AIService.

(** ** The chat route *)

(** The four module-level stores. *)
Record Stores : Type := {
  st_history : list HistoryEntry;
  st_sessions : gmap str Session;
  st_tracker : gmap hkey (list Z);
  st_contexts : gmap str Context
}.

(** The JSON body of a chat request as [request.get_json()] delivers it:
    the call raises or the body is a value without [get]; the body is
    falsy ([None], an empty object); or it is an object, of which the
    route reads three fields (absent fields are [None] here).  The
    message and the session id may hold any JSON value; the input method
    is a string when present. *)
Inductive ChatBody : Type :=
  | JsonFault
  | JsonEmpty
  | JsonObject (message : option pyval) (session_id : option pyval)
               (input_method : option str).

Record ChatRequest : Type := {
  rq_options : bool;
  rq_forwarded_for : option str;
  rq_remote_addr : option str;
  rq_json : ChatBody
}.

(** What one request reads from its environment: the clock, once in each
    place the source calls [datetime.now()], the two fresh identifiers,
    the printed elapsed time, and the two providers. *)
Record ChatEnv : Type := {
  t_rate : Z;
  t_valid : Z;
  t_session : Z;
  t_context : Z;
  t_history : Z;
  t_reply : Z;
  uuid_session : str;
  uuid_entry : str;
  elapsed_text : str;
  env_wikipedia : Wikipedia;
  env_genai : GenAI
}.

(** The replies of the route: the pre-flight answer, a failure with its
    status code and error text, or the success object. *)
Inductive ChatReply : Type :=
  | ReplyOptions
  | ReplyError (status : Z) (error : str)
  | ReplyOk (response : str) (session_id : str) (timestamp : Z)
            (response_time : str) (src : Source) (emoji_tag : str).

Module ChatRoute.

(** The client address: the forwarded header if present, else the remote
    address; of a comma-separated list the first element, stripped. *)
Definition client_ip_of (rq : ChatRequest) : pyval :=
  match
    match rq_forwarded_for rq with
    | Some h => Some h
    | None => rq_remote_addr rq
    end
  with
  | None => PNone
  | Some ip =>
      if negb (bool_decide (ip = [])) && contains (lit ",") ip
      then PStr (strip (take_while (fun c => negb (c =? 44)%N) ip))
      else PStr ip
  end.

Definition with_tracker (st : Stores) (tracker : gmap hkey (list Z))
    : Stores := {|
  st_history := st_history st;
  st_sessions := st_sessions st;
  st_tracker := tracker;
  st_contexts := st_contexts st
|}.

(** Session management of the route.  A session id that passes the
    validity check is a string ([is_valid_session] answers [False] for
    every other value), so the update branch is written for strings. *)
Definition resolve_session (cfg : Config) (env : ChatEnv) (client_ip : pyval)
    (session_id : pyval) (sessions : gmap str Session)
    (contexts : gmap str Context)
    : str * gmap str Session * gmap str Context :=
  let fresh :=
    negb (truthy session_id)
    || negb (SessionManager.is_valid_session cfg session_id (t_valid env)
               sessions) in
  match session_id, fresh with
  | PStr s, false =>
      (s, snd (SessionManager.update_session s (t_session env) sessions),
       contexts)
  | _, _ =>
      SessionManager.create_session (uuid_session env) (t_session env)
        client_ip sessions contexts
  end.

(** [chat]: the reply and the stores after the request.  The handler of
    the outer [try] answers 500; what was written before the fault
    stays written. *)
Definition chat (cfg : Config) (env : ChatEnv) (rq : ChatRequest)
    (st : Stores) : ChatReply * Stores :=
  if rq_options rq then (ReplyOptions, st)
  else
    let client_ip := client_ip_of rq in
    let '(limited, tracker) :=
      RateLimiter.is_rate_limited cfg client_ip (t_rate env) (st_tracker st) in
    let st1 := with_tracker st tracker in
    if limited then
      (ReplyError 429 (lit "Too many requests. Please wait a minute."), st1)
    else
      match rq_json rq with
      | JsonFault =>
          (ReplyError 500 (lit "Something went wrong. Please try again."), st1)
      | JsonEmpty => (ReplyError 400 (lit "No data received"), st1)
      | JsonObject message session_id input_method =>
          match default (PStr []) message with
          | PStr m =>
              let user_message := strip m in
              if bool_decide (user_message = []) then
                (ReplyError 400 (lit "Message cannot be empty"), st1)
              else if len user_message >? MAX_MESSAGE_LENGTH cfg then
                (ReplyError 400
                   (lit "Message too long. Maximum "
                    ++ lit (pretty (MAX_MESSAGE_LENGTH cfg))
                    ++ lit " characters"), st1)
              else
                let '(sid, sessions, contexts) :=
                  resolve_session cfg env client_ip
                    (default (PStr []) session_id)
                    (st_sessions st1) (st_contexts st1) in
                let response_data :=
                  AIService.get_response cfg (env_wikipedia env)
                    (env_genai env) user_message sid contexts in
                let bot_response := text response_data in
                let contexts' :=
                  ConversationEnhancer.update_context sid user_message
                    bot_response (t_context env) contexts in
                let '(_, history) :=
                  HistoryManager.add_conversation cfg
                    {| c_uuid := uuid_entry env;
                       c_now := t_history env;
                       c_user_msg := user_message;
                       c_bot_reply := bot_response;
                       c_session_id := sid;
                       c_input_method := default (lit "text") input_method;
                       c_response_time := elapsed_text env |}
                    (st_history st1) in
                (ReplyOk bot_response sid (t_reply env) (elapsed_text env)
                   (source response_data) (emoji response_data),
                 {| st_history := history;
                    st_sessions := sessions;
                    st_tracker := tracker;
                    st_contexts := contexts' |})
          | _ =>
              (ReplyError 500 (lit "Something went wrong. Please try again."),
               st1)
          end
      end.

End ChatRoute.

(** ** Accounts *)

(** A row of the [User] table; [u_id] is its primary key [id]. *)
Record User : Type := {
  u_id : Z;
  username : str;
  email : str;
  password : str
}.

(** The Flask cookie session, of which the code uses two keys. *)
Record WebSession : Type := {
  ws_user_id : option str;
  ws_logged_in : bool
}.

(** The JSON body of [signup] and [login]: [get_json()] raises or gives
    a value without [get], or gives an object whose fields, when
    present, are strings. *)
Inductive AuthBody : Type :=
  | AuthFault
  | AuthObject (username email password : option str).

Inductive Method : Type :=
  | GET
  | POST.

Inductive AuthReply : Type :=
  | Template (name : str)
  | Redirect (target : str)
  | AuthOk (status : Z) (redirect_url : str)
  | AuthError (status : Z) (message : str).

Module Accounts.

(** [User.set_password] *)
Definition set_password (u : User) (p : str) : User := {|
  u_id := u_id u;
  username := username u;
  email := email u;
  password := p
|}.

(** [User.check_password] *)
Definition check_password (u : User) (p : str) : bool :=
  bool_decide (password u = p).

(** [User.query.filter_by(username=name).first()] over the rows in
    insertion order. *)
Definition by_username (name : str) (db : list User) : option User :=
  List.find (fun u => bool_decide (username u = name)) db.

(** [User.query.filter_by(email=e).first()] *)
Definition by_email (e : str) (db : list User) : option User :=
  List.find (fun u => bool_decide (email u = e)) db.

(** [signup].  No row is ever deleted, so the key of a new row is the
    number of rows plus one.  On a fault the transaction is rolled back
    and the table is as before. *)
Definition signup (m : Method) (body : AuthBody) (db : list User)
    : AuthReply * list User :=
  match m with
  | GET => (Template (lit "signup.html"), db)
  | POST =>
      match body with
      | AuthFault =>
          (AuthError 500 (lit "An error occurred during signup"), db)
      | AuthObject u e p =>
          let username := strip (default [] u) in
          let email := strip (default [] e) in
          let password := strip (default [] p) in
          if bool_decide (username = []) || (len username <? 3) then
            (AuthError 400 (lit "Username must be at least 3 characters"), db)
          else if bool_decide (is_Some (by_username username db)) then
            (AuthError 409 (lit "Username already exists"), db)
          else if bool_decide (is_Some (by_email email db)) then
            (AuthError 409 (lit "Email already exists"), db)
          else
            let new_user :=
              set_password {| u_id := len db + 1; username := username;
                              email := email; password := [] |} password in
            (AuthOk 201 (lit "/login"), db ++ [new_user])
      end
  end.

(** [login]: the reply and the cookie session after it. *)
Definition login (m : Method) (body : AuthBody) (db : list User)
    (ws : WebSession) : AuthReply * WebSession :=
  match m with
  | GET => (Template (lit "login.html"), ws)
  | POST =>
      match body with
      | AuthFault => (AuthError 500 (lit "Login failed. Please try again."), ws)
      | AuthObject u _ p =>
          let username := strip (default [] u) in
          let password := strip (default [] p) in
          match by_username username db with
          | Some user =>
              if check_password user password then
                (AuthOk 200 (lit "/welcome"),
                 {| ws_user_id := Some username; ws_logged_in := true |})
              else (AuthError 401 (lit "Invalid username or password"), ws)
          | None => (AuthError 401 (lit "Invalid username or password"), ws)
          end
      end
  end.

(** [logout] *)
Definition logout (ws : WebSession) : AuthReply * WebSession :=
  (Redirect (lit "/"), {| ws_user_id := None; ws_logged_in := false |}).

(** [login_required]: the reply that replaces the view when the visitor
    is not logged in, [None] when the view runs. *)
Definition login_required (is_json : bool) (ws : WebSession)
    : option AuthReply :=
  if negb (ws_logged_in ws) then
    if is_json then Some (AuthError 401 (lit "Authentication required"))
    else Some (Redirect (lit "/login"))
  else None.

End Accounts.

(** ** Worked inputs *)

Module Examples.

(** The [n]-th call of a run of appends. *)
Definition call (n : nat) : HistoryCall := {|
  c_uuid := lit "id-" ++ of_nat n;
  c_now := Z.of_nat n * 1000000;
  c_user_msg := lit "question " ++ of_nat n;
  c_bot_reply := lit "answer " ++ of_nat n;
  c_session_id := lit "s1";
  c_input_method := lit "text";
  c_response_time := lit "0.01s"
|}.

(** A paragraph of 4199 characters without a full stop: the word
    [abcdefg] over and over, separated by single spaces. *)
Definition long_paragraph : str :=
  strip (concat (replicate 525 (lit "abcdefg "))).

Definition long_page : Page := {|
  title := lit "T";
  content := long_paragraph
|}.

(** A page whose content is a section header and two short lines. *)
Definition short_page : Page := {|
  title := lit "Stub";
  content := lit "== History ==" ++ NL ++ NL ++ lit "A short line." ++
             NL ++ NL ++ lit "Another short line."
|}.

(** A provider that knows [short_page] under the title "stub" and finds
    two related articles, only the first with a summary. *)
Definition stub_wikipedia : Wikipedia := {|
  page := fun q =>
    if bool_decide (q = lit "stub") then PageFound short_page
    else PageError;
  summary := fun t =>
    if bool_decide (t = lit "Stub (electronics)")
    then Some (lit "A stub is a length of transmission line.")
    else None;
  search := fun q => Some [lit "Stub (electronics)"; lit "Stub (stock)"]
|}.

(** A configured provider whose call raises. *)
Definition failing_genai : GenAI := {|
  GENAI_AVAILABLE := true;
  generate_content := fun _ => GenRaises
|}.

(** No provider installed. *)
Definition no_genai : GenAI := {|
  GENAI_AVAILABLE := false;
  generate_content := fun _ => GenRaises
|}.

(** The context of session [s1] after the user introduced herself. *)
Definition ada_contexts : gmap str Context :=
  ConversationEnhancer.update_context (lit "s1") (lit "my name is Ada")
    (lit "I understand!") 0 ∅.

End Examples.

(** ** Runs and further inputs *)

Module Runs.

(** A run of context updates for one session: each element is the user
    text, the reply and the clock reading of one exchange. *)
Definition update_all (session_id : str) (exchanges : list (str * str * Z))
    (user_contexts : gmap str Context) : gmap str Context :=
  fold_left
    (fun ctxs x =>
       ConversationEnhancer.update_context session_id (x.1.1) (x.1.2) (x.2)
         ctxs)
    exchanges user_contexts.

(** The exchange [update_context] stores for one element of a run. *)
Definition exchange_of (x : str * str * Z) : Exchange := {|
  ex_user := x.1.1;
  ex_bot := x.1.2;
  ex_timestamp := x.2;
  ex_mood :=
    ConversationEnhancer.detect_mood ConversationEnhancer.mood_keywords
      (lower (x.1.1))
|}.

(** The last [n] elements of a list. *)
Definition last_n {A} (n : nat) (l : list A) : list A :=
  drop (length l - n) l.

(** A run of signups, all [POST]. *)
Definition signup_all (bodies : list AuthBody) (db : list User) : list User :=
  fold_left (fun d b => snd (Accounts.signup POST b d)) bodies db.

End Runs.

Module MoreExamples.

(** A page with one paragraph of 260 characters. *)
Definition lorem_page : Page := {|
  title := lit "Lorem";
  content := concat (replicate 20 (lit "lorem ipsum. "))
|}.

Definition entries (n : nat) : list HistoryEntry :=
  map (fun i => HistoryManager.make_entry (Examples.call i)) (seq 1 n).

Definition session_at (t : Z) : Session := {|
  created := t; last_activity := t; user_ip := PNone; message_count := 0
|}.

Definition mercury_options : list str :=
  [lit "Mercury (planet)"; lit "Mercury (element)";
   lit "Mercury (mythology)"; lit "Mercury Records";
   lit "Mercury (programming language)"; lit "Mercury, Nevada"].

(** A provider whose title "mercury" is ambiguous and whose candidates
    cannot be fetched. *)
Definition ambiguous_wikipedia : Wikipedia := {|
  page := fun q =>
    if bool_decide (q = lit "mercury")
    then DisambiguationError mercury_options
    else PageError;
  summary := fun _ => None;
  search := fun _ => Some []
|}.

Definition env0 : ChatEnv := {|
  t_rate := 1000; t_valid := 1001; t_session := 1002; t_context := 1003;
  t_history := 1004; t_reply := 1005;
  uuid_session := lit "5d3c1a52-7c0e-4f5e-8a29-1f2e3d4c5b6a";
  uuid_entry := lit "0a1b2c3d-4e5f-4a6b-8c7d-9e0f1a2b3c4d";
  elapsed_text := lit "0.00s";
  env_wikipedia := Examples.stub_wikipedia;
  env_genai := Examples.no_genai
|}.

Definition empty_stores : Stores := {|
  st_history := []; st_sessions := ∅; st_tracker := ∅; st_contexts := ∅
|}.

Definition hello_request : ChatRequest := {|
  rq_options := false;
  rq_forwarded_for := Some (lit "203.0.113.7, 10.0.0.1");
  rq_remote_addr := Some (lit "10.0.0.1");
  rq_json := JsonObject (Some (PStr (lit "  hello there  "))) None None
|}.

Definition blank_request : ChatRequest := {|
  rq_options := false;
  rq_forwarded_for := None;
  rq_remote_addr := Some (lit "10.0.0.1");
  rq_json := JsonObject (Some (PStr (lit "   "))) None None
|}.

(** The reply to [hello_request] when no provider is configured. *)
Definition hello_reply : ChatReply :=
  ReplyOk (lit "👋 Hello! I'm your AI assistant. How can I help you today?")
    (uuid_session env0) 1005 (lit "0.00s") src_fallback (lit "👋").

Definition ada_signup : AuthBody :=
  AuthObject (Some (lit " ada ")) (Some (lit "ada@example.org"))
             (Some (lit "s3cret ")).

(** The provider of [Examples.stub_wikipedia] when the search call
    raises (no network, say): pages are still served. *)
Definition unsearchable_wikipedia : Wikipedia := {|
  page := page Examples.stub_wikipedia;
  summary := summary Examples.stub_wikipedia;
  search := fun _ => None
|}.

End MoreExamples.

(** * Properties *)

Example lit_book : lit "📚 **" = [128218; 32; 42; 42]%N.
Proof. reflexivity. Qed.

Example split_nn_ex :
  split_nn (lit "ab" ++ NL ++ NL ++ NL ++ lit "c") = [lit "ab"; NL ++ lit "c"].
Proof. reflexivity. Qed.

Example rsplit_ex : rsplit1_head 46%N (lit "a.b.c") = lit "a.b".
Proof. reflexivity. Qed.

Example of_nat_ex : of_nat 12 = lit "12".
Proof. vm_compute. reflexivity. Qed.

Example name_search_ex :
  ConversationEnhancer.name_search (lit "well, i'm   bob_1 ok") = Some (lit "bob_1").
Proof. vm_compute. reflexivity. Qed.

Example wiki_query_ex :
  WikipediaService.is_wikipedia_query (lit "What is photosynthesis") = true
  /\ WikipediaService.is_wikipedia_query (lit "write code to sort a list") = false
  /\ WikipediaService.is_wikipedia_query (lit "unexplained") = false.
Proof. vm_compute. auto. Qed.

(** ** The rate limiter *)

Section RateLimiterFacts.

Import RateLimiter.

Variable cfg : Config.
Variable client_ip : pyval.
Variable k : hkey.
Hypothesis Hkey : hash_key client_ip = Ok k.

Abbreviation kept := (RateLimiter.kept k).

Lemma is_rate_limited_step now tracker :
  is_rate_limited cfg client_ip now tracker =
    if len (kept now tracker) >=? RATE_LIMIT_PER_MINUTE cfg
    then (true, <[k := kept now tracker]> tracker)
    else (false, <[k := kept now tracker ++ [now]]> tracker).
Proof.
  unfold is_rate_limited, is_rate_limited_try, kept.
  rewrite Hkey. cbn [bind].
  destruct (tracker !! k) as [l|] eqn:E.
  - rewrite E. cbn [default].
    destruct (_ >=? _); [reflexivity|].
    now rewrite insert_insert_eq.
  - rewrite lookup_insert_eq. cbn [default List.filter].
    destruct (_ >=? _); now rewrite !insert_insert_eq.
Qed.

Lemma kept_after_deny now tracker :
  default [] (<[k := kept now tracker]> tracker !! k) = kept now tracker.
Proof. now rewrite lookup_insert_eq. Qed.

Lemma filter_keep_all {A} (P : A -> bool) (l : list A) :
  (forall x, In x l -> P x = true) -> List.filter P l = l.
Proof.
  induction l as [|a l IH]; intros H; cbn; [reflexivity|].
  rewrite (H a (or_introl eq_refl)). f_equal. apply IH.
  intros x Hx. apply H. now right.
Qed.

Lemma filter_drop_all {A} (P : A -> bool) (l : list A) :
  (forall x, In x l -> P x = false) -> List.filter P l = [].
Proof.
  induction l as [|a l IH]; intros H; cbn; [reflexivity|].
  rewrite (H a (or_introl eq_refl)). apply IH.
  intros x Hx. apply H. now right.
Qed.

(** The invariant of a burst: the window of the key is some surviving
    older timestamps followed by every timestamp admitted in the
    burst so far. *)
Lemma checks_bound times : forall tracker old adm,
  default [] (tracker !! k) = old ++ adm ->
  (forall a t, In a adm -> In t times -> t - minutes 1 < a) ->
  (forall t t', In t times -> In t' times -> t' - minutes 1 < t) ->
  forall i, fst (checks cfg client_ip times tracker) !! i = Some false ->
    len adm + admitted (take i (fst (checks cfg client_ip times tracker)))
    < RATE_LIMIT_PER_MINUTE cfg.
Proof.
  induction times as [|t ts IH]; intros tracker old adm Hw Hadm Hpair i Hi.
  - cbn in Hi. now rewrite lookup_nil in Hi.
  - cbn [checks] in *. rewrite is_rate_limited_step in *.
    assert (Hkept : kept t tracker
                    = List.filter (fun x => t - minutes 1 <? x) old ++ adm).
    { unfold kept. rewrite Hw, List.filter_app. f_equal.
      apply filter_keep_all. intros a Ha.
      apply Z.ltb_lt, Hadm; [assumption | now left]. }
    destruct (len (kept t tracker) >=? RATE_LIMIT_PER_MINUTE cfg) eqn:Hc.
    + destruct (checks cfg client_ip ts (<[k:=kept t tracker]> tracker))
        as [bs tr'] eqn:Hrec.
      cbn [fst] in *.
      destruct i as [|j]; [discriminate Hi|].
      cbn in Hi. cbn [take List.filter negb].
      specialize (IH (<[k:=kept t tracker]> tracker)
                     (List.filter (fun x => t - minutes 1 <? x) old) adm).
      rewrite Hrec in IH. cbn [fst] in IH. apply IH; auto.
      * now rewrite lookup_insert_eq.
      * intros a t' Ha Ht'. apply Hadm; [assumption | now right].
      * intros a b Ha Hb. apply Hpair; now right.
    + destruct (checks cfg client_ip ts
                  (<[k:=kept t tracker ++ [t]]> tracker))
        as [bs tr'] eqn:Hrec.
      cbn [fst] in *.
      assert (Hlen : len adm < RATE_LIMIT_PER_MINUTE cfg).
      { rewrite Z.geb_leb in Hc. apply Z.leb_gt in Hc.
        rewrite Hkept in Hc. unfold len in *.
        rewrite length_app in Hc. lia. }
      destruct i as [|j].
      * cbn. unfold admitted, len in *. cbn. lia.
      * cbn in Hi. cbn [take List.filter negb].
        specialize (IH (<[k:=kept t tracker ++ [t]]> tracker)
                       (List.filter (fun x => t - minutes 1 <? x) old)
                       (adm ++ [t])).
        rewrite Hrec in IH. cbn [fst] in IH.
        assert (Hgoal : len (adm ++ [t]) + admitted (take j bs)
                        < RATE_LIMIT_PER_MINUTE cfg).
        { apply IH; auto.
          - rewrite lookup_insert_eq. cbn [default].
            now rewrite Hkept, app_assoc.
          - intros a t' Ha Ht'. apply in_app_or in Ha as [Ha|[<-|[]]].
            + apply Hadm; [assumption | now right].
            + apply Hpair; [now left | now right].
          - intros a b Ha Hb. apply Hpair; now right. }
        unfold admitted, len in *. rewrite length_app in Hgoal.
        cbn in *. lia.
Qed.

(** From a key with no recorded timestamps, the answers of a burst are
    known exactly: check number [i] (from 0) is denied exactly when
    [i] reaches the threshold. *)
Lemma checks_exact times : forall tracker adm,
  default [] (tracker !! k) = adm ->
  (forall a t, In a adm -> In t times -> t - minutes 1 < a) ->
  (forall t t', In t times -> In t' times -> t' - minutes 1 < t) ->
  forall i, (i < length times)%nat ->
    fst (checks cfg client_ip times tracker) !! i
    = Some (len adm + Z.of_nat i >=? RATE_LIMIT_PER_MINUTE cfg).
Proof.
  induction times as [|t ts IH]; intros tracker adm Hw Hadm Hpair i Hi.
  - cbn in Hi. lia.
  - cbn [checks]. rewrite is_rate_limited_step.
    assert (Hkept : kept t tracker = adm).
    { unfold kept. rewrite Hw. apply filter_keep_all. intros a Ha.
      apply Z.ltb_lt, Hadm; [assumption | now left]. }
    rewrite Hkept.
    destruct (len adm >=? RATE_LIMIT_PER_MINUTE cfg) eqn:Hc.
    + destruct (checks cfg client_ip ts (<[k:=adm]> tracker))
        as [bs tr'] eqn:Hrec.
      cbn [fst]. destruct i as [|j].
      * cbn. now rewrite Z.add_0_r, Hc.
      * cbn. specialize (IH (<[k:=adm]> tracker) adm).
        rewrite Hrec in IH. cbn [fst] in IH. rewrite IH.
        -- f_equal. rewrite !Z.geb_leb in *. apply Z.leb_le in Hc.
           transitivity true; [|symmetry]; apply Z.leb_le; lia.
        -- now rewrite lookup_insert_eq.
        -- intros a t' Ha Ht'. apply Hadm; [assumption | now right].
        -- intros a b Ha Hb. apply Hpair; now right.
        -- cbn in Hi. lia.
    + destruct (checks cfg client_ip ts (<[k:=adm ++ [t]]> tracker))
        as [bs tr'] eqn:Hrec.
      cbn [fst]. destruct i as [|j].
      * cbn. now rewrite Z.add_0_r, Hc.
      * cbn. specialize (IH (<[k:=adm ++ [t]]> tracker) (adm ++ [t])).
        rewrite Hrec in IH. cbn [fst] in IH. rewrite IH.
        -- f_equal. unfold len. rewrite length_app. cbn. f_equal. lia.
        -- now rewrite lookup_insert_eq.
        -- intros a t' Ha Ht'. apply in_app_or in Ha as [Ha|[<-|[]]].
           ++ apply Hadm; [assumption | now right].
           ++ apply Hpair; [now left | now right].
        -- intros a b Ha Hb. apply Hpair; now right.
        -- cbn in Hi. lia.
Qed.

Lemma is_rate_limited_resumes now tracker :
  0 < RATE_LIMIT_PER_MINUTE cfg ->
  (forall t, In t (default [] (tracker !! k)) -> t + minutes 1 <= now) ->
  is_rate_limited cfg client_ip now tracker = (false, <[k := [now]]> tracker).
Proof.
  intros Hpos Hold. rewrite is_rate_limited_step.
  assert (Hk : kept now tracker = []).
  { unfold kept. apply filter_drop_all. intros x Hx.
    apply Z.ltb_ge. specialize (Hold x Hx). lia. }
  rewrite Hk. change (len (@nil Z)) with 0. cbn [app].
  destruct (0 >=? RATE_LIMIT_PER_MINUTE cfg) eqn:Hc; [|reflexivity].
  rewrite Z.geb_leb in Hc. apply Z.leb_le in Hc. lia.
Qed.

End RateLimiterFacts.

(** C1.  Each admission check prunes the key's timestamps to those newer
    than [now - 60s]; if at least [RATE_LIMIT_PER_MINUTE] remain it denies
    and records nothing, otherwise it records [now] and allows.  Hence,
    for checks of one key that all fall within one 60-second window, a
    check is admitted only while fewer than the threshold were admitted
    before it (from a key without history: check number [i] is denied
    exactly when [i] reaches the threshold), and once every recorded
    timestamp is at least 60 seconds old the next check is admitted. *)
Theorem is_rate_limited_sliding_window
    (cfg : Config) (client_ip : pyval) (k : hkey) :
  hash_key client_ip = Ok k ->
  (forall now tracker,
      RateLimiter.is_rate_limited cfg client_ip now tracker =
        if len (RateLimiter.kept k now tracker) >=? RATE_LIMIT_PER_MINUTE cfg
        then (true, <[k := RateLimiter.kept k now tracker]> tracker)
        else (false, <[k := RateLimiter.kept k now tracker ++ [now]]> tracker))
  /\ (forall now tracker t,
         In t (RateLimiter.kept k now tracker) <->
         In t (default [] (tracker !! k)) /\ now - minutes 1 < t)
  /\ (forall times tracker,
         (forall t t', In t times -> In t' times -> t' - minutes 1 < t) ->
         forall i,
           fst (RateLimiter.checks cfg client_ip times tracker) !! i
           = Some false ->
           RateLimiter.admitted
             (take i (fst (RateLimiter.checks cfg client_ip times tracker)))
           < RATE_LIMIT_PER_MINUTE cfg)
  /\ (forall times tracker,
         tracker !! k = None ->
         (forall t t', In t times -> In t' times -> t' - minutes 1 < t) ->
         forall i, (i < length times)%nat ->
           fst (RateLimiter.checks cfg client_ip times tracker) !! i
           = Some (Z.of_nat i >=? RATE_LIMIT_PER_MINUTE cfg))
  /\ (forall now tracker,
         0 < RATE_LIMIT_PER_MINUTE cfg ->
         (forall t, In t (default [] (tracker !! k)) -> t + minutes 1 <= now) ->
         fst (RateLimiter.is_rate_limited cfg client_ip now tracker) = false).
Proof.
  intros Hk. split; [|split; [|split; [|split]]].
  - intros now tracker. now apply is_rate_limited_step.
  - intros now tracker t. unfold RateLimiter.kept. rewrite List.filter_In.
    now rewrite Z.ltb_lt.
  - intros times tracker Hwin i Hi.
    pose proof (checks_bound cfg client_ip k Hk times tracker
                  (default [] (tracker !! k)) [] (eq_sym (app_nil_r _)))
      as H.
    specialize (H (fun a t (Ha : In a []) _ => match Ha with end) Hwin i Hi).
    now rewrite Z.add_0_l in H.
  - intros times tracker Hnone Hwin i Hi.
    pose proof (checks_exact cfg client_ip k Hk times tracker []) as H.
    rewrite Hnone in H.
    now apply (H eq_refl (fun a t (Ha : In a []) _ => match Ha with end)
                 Hwin i Hi).
  - intros now tracker Hpos Hold.
    now rewrite (is_rate_limited_resumes cfg client_ip k Hk now tracker).
Qed.

(** A burst of four checks within four microseconds against a limiter
    admitting two requests a minute, and a fifth check a minute later. *)
Lemma is_rate_limited_sliding_window_witness :
  let ip := PStr (lit "10.0.0.1") in
  let burst := RateLimiter.checks small_config ip [0; 1; 2; 3] ∅ in
  (forall i, (i < 4)%nat -> fst burst !! i = Some (Z.of_nat i >=? 2))
  /\ fst (RateLimiter.is_rate_limited small_config ip 60000001 (snd burst))
     = false.
Proof.
  intros ip burst.
  destruct (is_rate_limited_sliding_window small_config ip
              (HStr (lit "10.0.0.1")) eq_refl)
    as (_ & _ & _ & Hexact & Hresume).
  split.
  - intros i Hi. apply (Hexact [0; 1; 2; 3] ∅).
    + apply lookup_empty.
    + cbn. unfold minutes. intros t t' Ht Ht'. lia.
    + exact Hi.
  - apply Hresume.
    + cbn. lia.
    + intros t Ht. vm_compute in Ht. unfold minutes.
      destruct Ht as [<-|[<-|[]]]; lia.
Defined.

(** C5.  A fault inside an admission check never reaches the caller: when
    the body of the check raises, which in this model happens exactly
    when the key cannot be hashed, the call answers "not limited" and
    leaves the tracker as it was. *)
Theorem is_rate_limited_fails_open
    (cfg : Config) (client_ip : pyval) (now : Z)
    (tracker : gmap hkey (list Z)) (e : exn) :
  RateLimiter.is_rate_limited_try cfg client_ip now tracker = Raise e ->
  RateLimiter.is_rate_limited cfg client_ip now tracker = (false, tracker)
  /\ hash_key client_ip = Raise e.
Proof.
  intros H. unfold RateLimiter.is_rate_limited. rewrite H. split; [reflexivity|].
  unfold RateLimiter.is_rate_limited_try in H.
  destruct (hash_key client_ip) as [k|e'] eqn:Hk; cbn [bind] in H.
  - destruct (_ >=? _) in H; discriminate H.
  - now inversion H.
Qed.

(** A JSON array in place of the client address. *)
Lemma is_rate_limited_fails_open_witness :
  RateLimiter.is_rate_limited small_config (PList [lit "10.0.0.1"]) 5 ∅
  = (false, ∅).
Proof.
  apply (is_rate_limited_fails_open small_config (PList [lit "10.0.0.1"]) 5 ∅
           TypeError).
  reflexivity.
Defined.

(** ** Sessions *)

Lemma cutoff_ok (cfg : Config) (now c : Z) :
  SessionManager.cutoff cfg now = Ok c <->
  c = now - hours (SESSION_TIMEOUT_HOURS cfg)
  /\ -999999999 <= SESSION_TIMEOUT_HOURS cfg / 24 <= 999999999
  /\ datetime_min <= c <= datetime_max.
Proof.
  unfold SessionManager.cutoff, timedelta_hours, datetime_sub.
  assert (Hd : hours (SESSION_TIMEOUT_HOURS cfg) / 86400000000
               = SESSION_TIMEOUT_HOURS cfg / 24).
  { unfold hours. change 86400000000 with (3600000000 * 24).
    rewrite Z.mul_comm, Z.div_mul_cancel_l by lia. reflexivity. }
  cbv zeta. rewrite Hd.
  destruct (-999999999 <=? SESSION_TIMEOUT_HOURS cfg / 24) eqn:E1;
    destruct (SESSION_TIMEOUT_HOURS cfg / 24 <=? 999999999) eqn:E2; cbn;
    try (split; [discriminate | lia]).
  destruct (datetime_min <=? now - hours (SESSION_TIMEOUT_HOURS cfg))
    eqn:E3;
    destruct (now - hours (SESSION_TIMEOUT_HOURS cfg) <=? datetime_max)
      eqn:E4; cbn;
    try (split; [discriminate | lia]).
  split.
  - intros H. injection H as H. lia.
  - intros (-> & _). reflexivity.
Qed.

Lemma cutoff_raises (cfg : Config) (now : Z) :
  (forall c, SessionManager.cutoff cfg now <> Ok c) ->
  SessionManager.cutoff cfg now = Raise OverflowError.
Proof.
  unfold SessionManager.cutoff, timedelta_hours, datetime_sub. cbv zeta.
  intros H.
  destruct (_ && _); cbn in *; [|reflexivity].
  destruct (_ && _); cbn in *; [|reflexivity].
  now destruct (H _ eq_refl).
Qed.

Lemma is_valid_session_true (cfg : Config) (sid : pyval) (now : Z)
    (sessions : gmap str Session) :
  SessionManager.is_valid_session cfg sid now sessions = true <->
  exists s session_data c,
    sid = PStr s /\ s <> [] /\ sessions !! s = Some session_data
    /\ SessionManager.cutoff cfg now = Ok c
    /\ c < last_activity session_data.
Proof.
  unfold SessionManager.is_valid_session, SessionManager.is_valid_session_try.
  split.
  - destruct sid as [|s|n|l]; cbn.
    + discriminate.
    + case_bool_decide as Hs; cbn; [discriminate|].
      destruct (sessions !! s) as [d|] eqn:E; [|discriminate].
      destruct (SessionManager.cutoff cfg now) as [c|e]; cbn;
        [|discriminate].
      intros H. apply Z.ltb_lt in H. exists s, d, c. auto.
    + destruct (n =? 0); cbn; discriminate.
    + case_bool_decide; cbn; discriminate.
  - intros (s & d & c & -> & Hs & E & Hc & Ht). cbn.
    rewrite bool_decide_eq_false_2 by assumption. cbn. rewrite E, Hc. cbn.
    now apply Z.ltb_lt.
Qed.

Lemma is_valid_session_created (cfg : Config) (uuid : str)
    (session_data : Session) (sessions : gmap str Session) (now : Z) :
  uuid <> [] ->
  SessionManager.is_valid_session cfg (PStr uuid) now
    (<[uuid := session_data]> sessions)
  = match SessionManager.cutoff cfg now with
    | Ok c => c <? last_activity session_data
    | Raise _ => false
    end.
Proof.
  intros Hne.
  unfold SessionManager.is_valid_session,
    SessionManager.is_valid_session_try. cbn.
  rewrite bool_decide_eq_false_2 by assumption. cbn.
  rewrite lookup_insert_eq.
  now destruct (SessionManager.cutoff cfg now).
Qed.

(** C4 (as the code has it).  The validity check never raises.  It
    answers [True] exactly for a non-empty string id that is known, when
    the cutoff [now - timeout] is a datetime and the last activity is
    later than it, that is, less than the timeout ago: a session is
    already invalid when exactly the timeout has elapsed.  The cutoff is
    a datetime when the timeout is a [timedelta] (at most 999999999 days
    in magnitude) and the difference lies between [datetime.min] and
    [datetime.max]; otherwise the subtraction raises [OverflowError] and
    the check answers [False] for every id.  With a cutoff that is a
    datetime, an id returned by [create_session] is valid at the moment
    of creation when the timeout is positive and stays valid while less
    than the timeout has elapsed; in every case it is invalid from the
    timeout horizon on if it is not touched. *)
Theorem is_valid_session_spec (cfg : Config) :
  (forall sid now sessions,
      SessionManager.is_valid_session cfg sid now sessions = true <->
      exists s session_data,
        sid = PStr s /\ s <> [] /\ sessions !! s = Some session_data
        /\ -999999999 <= SESSION_TIMEOUT_HOURS cfg / 24 <= 999999999
        /\ datetime_min <= now - hours (SESSION_TIMEOUT_HOURS cfg)
           <= datetime_max
        /\ now - last_activity session_data
           < hours (SESSION_TIMEOUT_HOURS cfg))
  /\ (forall sid now sessions,
         ~ (-999999999 <= SESSION_TIMEOUT_HOURS cfg / 24 <= 999999999
            /\ datetime_min <= now - hours (SESSION_TIMEOUT_HOURS cfg)
               <= datetime_max) ->
         SessionManager.cutoff cfg now = Raise OverflowError
         /\ SessionManager.is_valid_session cfg sid now sessions = false)
  /\ (forall uuid t0 ip sessions contexts now,
         uuid <> [] ->
         -999999999 <= SESSION_TIMEOUT_HOURS cfg / 24 <= 999999999 ->
         datetime_min <= now - hours (SESSION_TIMEOUT_HOURS cfg)
           <= datetime_max ->
         let '(session_id, sessions', _) :=
           SessionManager.create_session uuid t0 ip sessions contexts in
         SessionManager.is_valid_session cfg (PStr session_id) now sessions'
         = bool_decide (now - t0 < hours (SESSION_TIMEOUT_HOURS cfg)))
  /\ (forall uuid t0 ip sessions contexts,
         uuid <> [] -> 0 < SESSION_TIMEOUT_HOURS cfg ->
         -999999999 <= SESSION_TIMEOUT_HOURS cfg / 24 <= 999999999 ->
         datetime_min <= t0 - hours (SESSION_TIMEOUT_HOURS cfg)
           <= datetime_max ->
         let '(session_id, sessions', _) :=
           SessionManager.create_session uuid t0 ip sessions contexts in
         SessionManager.is_valid_session cfg (PStr session_id) t0 sessions'
         = true)
  /\ (forall uuid t0 ip sessions contexts now,
         t0 + hours (SESSION_TIMEOUT_HOURS cfg) <= now ->
         let '(session_id, sessions', _) :=
           SessionManager.create_session uuid t0 ip sessions contexts in
         SessionManager.is_valid_session cfg (PStr session_id) now sessions'
         = false).
Proof.
  split; [|split; [|split; [|split]]].
  - intros sid now sessions. rewrite is_valid_session_true. split.
    + intros (s & d & c & -> & Hs & E & Hc & Hlt).
      apply cutoff_ok in Hc as (-> & Hd & Hr).
      exists s, d. repeat split; auto; lia.
    + intros (s & d & -> & Hs & E & Hd & Hr & Hlt).
      exists s, d, (now - hours (SESSION_TIMEOUT_HOURS cfg)).
      repeat split; auto; try lia. apply cutoff_ok. repeat split; lia.
  - intros sid now sessions Hno.
    assert (Hc : SessionManager.cutoff cfg now = Raise OverflowError).
    { apply cutoff_raises. intros c Hc. apply cutoff_ok in Hc. apply Hno.
      destruct Hc as (-> & Hd & Hr). split; assumption. }
    split; [exact Hc|].
    destruct (SessionManager.is_valid_session cfg sid now sessions) eqn:Ev;
      [|reflexivity].
    apply is_valid_session_true in Ev
      as (s & d & c & _ & _ & _ & Hc' & _).
    rewrite Hc in Hc'. discriminate.
  - intros uuid t0 ip sessions contexts now Hne Hd Hr. cbn.
    rewrite is_valid_session_created by assumption.
    assert (Hc : SessionManager.cutoff cfg now
                 = Ok (now - hours (SESSION_TIMEOUT_HOURS cfg))).
    { apply cutoff_ok. repeat split; lia. }
    rewrite Hc. cbn [last_activity].
    case_bool_decide; [apply Z.ltb_lt | apply Z.ltb_ge]; lia.
  - intros uuid t0 ip sessions contexts Hne Hpos Hd Hr. cbn.
    rewrite is_valid_session_created by assumption.
    assert (Hc : SessionManager.cutoff cfg t0
                 = Ok (t0 - hours (SESSION_TIMEOUT_HOURS cfg))).
    { apply cutoff_ok. repeat split; lia. }
    rewrite Hc. cbn [last_activity]. apply Z.ltb_lt. unfold hours. lia.
  - intros uuid t0 ip sessions contexts now Hlate. cbn.
    destruct (decide (uuid = [])) as [->|Hne].
    + reflexivity.
    + rewrite is_valid_session_created by assumption.
      destruct (SessionManager.cutoff cfg now) as [c|e] eqn:Hc;
        [|reflexivity].
      apply cutoff_ok in Hc as (-> & _). cbn [last_activity].
      apply Z.ltb_ge. lia.
Qed.

Lemma is_valid_session_spec_witness :
  let cfg := default_config [] in
  let uuid := lit "3f2b8c1e-6d4a-4e0b-9a57-0c1d2e3f4a5b" in
  let t0 := 1762214400000000 in
  let '(session_id, sessions', _) :=
    SessionManager.create_session uuid t0 PNone ∅ ∅ in
  SessionManager.is_valid_session cfg (PStr session_id) t0 sessions' = true
  /\ SessionManager.is_valid_session cfg (PStr session_id)
       (t0 + hours 24) sessions' = false.
Proof.
  destruct (is_valid_session_spec (default_config []))
    as (_ & _ & _ & Hnow & Hlate).
  split.
  - apply (Hnow (lit "3f2b8c1e-6d4a-4e0b-9a57-0c1d2e3f4a5b")
             1762214400000000 PNone ∅ ∅).
    + discriminate.
    + cbn. lia.
    + vm_compute. split; discriminate.
    + vm_compute. split; discriminate.
  - apply (Hlate (lit "3f2b8c1e-6d4a-4e0b-9a57-0c1d2e3f4a5b")
             1762214400000000 PNone ∅ ∅).
    cbn. lia.
Defined.

(** C4, the boundary.  A known session whose last activity is exactly
    the timeout ago: the elapsed time does not exceed the timeout, and
    the check answers [False]. *)
Lemma is_valid_session_boundary :
  let cfg := default_config [] in
  let session_data :=
    {| created := 0; last_activity := 0; user_ip := PNone;
       message_count := 0 |} in
  let sessions : gmap str Session := {[ lit "s1" := session_data ]} in
  let now := hours 24 in
  sessions !! lit "s1" = Some session_data
  /\ ~ (now - last_activity session_data > hours (SESSION_TIMEOUT_HOURS cfg))
  /\ SessionManager.is_valid_session cfg (PStr (lit "s1")) now sessions
     = false.
Proof.
  cbn zeta. split; [apply lookup_singleton_eq|]. split.
  - cbn. lia.
  - vm_compute. reflexivity.
Qed.

(** A timeout of 20 million hours is a [timedelta], but the cutoff
    falls before year 1: the subtraction raises and a session is
    reported invalid in the very microsecond of its creation. *)
Example is_valid_session_overflow :
  let cfg := {| GOOGLE_API_KEY := []; MAX_HISTORY_ENTRIES := 1000;
                API_TIMEOUT := 10; SESSION_TIMEOUT_HOURS := 20000000;
                RATE_LIMIT_PER_MINUTE := 60; MAX_MESSAGE_LENGTH := 2000 |} in
  let t0 := 1762214400000000 in
  let '(session_id, sessions', _) :=
    SessionManager.create_session (lit "s1") t0 PNone ∅ ∅ in
  timedelta_hours (SESSION_TIMEOUT_HOURS cfg) = Ok (hours 20000000)
  /\ SessionManager.cutoff cfg t0 = Raise OverflowError
  /\ SessionManager.is_valid_session cfg (PStr session_id) t0 sessions'
     = false.
Proof. vm_compute. split; [|split]; reflexivity. Qed.

(** ** The history log *)

Section HistoryFacts.

Import HistoryManager.

Variable cfg : Config.
Hypothesis Hcap : 0 <= MAX_HISTORY_ENTRIES cfg.

Abbreviation cap := (Z.to_nat (MAX_HISTORY_ENTRIES cfg)).

Lemma add_conversation_log c history :
  (length history <= cap)%nat ->
  snd (add_conversation cfg c history)
  = drop (length (history ++ [make_entry c]) - cap)
         (history ++ [make_entry c]).
Proof.
  intros Hlen. unfold add_conversation, len, pop0. cbn [snd].
  rewrite length_app. cbn [length].
  destruct (_ >? _) eqn:Hgt.
  - apply Z.gtb_lt in Hgt.
    replace (length history + 1 - cap)%nat with 1%nat by lia.
    now destruct history.
  - rewrite Z.gtb_ltb in Hgt. apply Z.ltb_ge in Hgt.
    replace (length history + 1 - cap)%nat with 0%nat by lia.
    reflexivity.
Qed.

Lemma add_all_log calls : forall history,
  (length history <= cap)%nat ->
  add_all cfg calls history
  = drop (length (history ++ map make_entry calls) - cap)
         (history ++ map make_entry calls).
Proof.
  induction calls as [|c calls IH]; intros history Hlen.
  - cbn. rewrite app_nil_r.
    replace (length history - cap)%nat with 0%nat by lia. reflexivity.
  - cbn [add_all fold_left map].
    change (fold_left _ calls ?h) with (add_all cfg calls h).
    rewrite add_conversation_log by assumption.
    rewrite IH.
    + assert (Heq : history ++ make_entry c :: map make_entry calls
                    = (history ++ [make_entry c]) ++ map make_entry calls)
        by now rewrite <- app_assoc.
      rewrite Heq. clear Heq.
      set (L := history ++ [make_entry c]).
      assert (HL : length L = S (length history))
        by (unfold L; rewrite length_app; cbn; lia).
      rewrite <- (drop_app_le L (map make_entry calls) (length L - cap))
        by lia.
      rewrite drop_drop. f_equal.
      rewrite length_drop, !length_app. cbn [length]. lia.
    + rewrite length_drop, length_app. cbn [length]. lia.
Qed.

End HistoryFacts.

(** C2.  The log never holds more than [MAX_HISTORY_ENTRIES] entries:
    after any run of appends to an empty log its length is at most the
    capacity, and after [capacity + k] appends exactly [capacity] entries
    remain, the most recent ones in insertion order, the oldest [k]
    having been removed from the head. *)
Theorem add_conversation_fifo
    (cfg : Config) (calls : list HistoryCall) (k : nat) :
  0 <= MAX_HISTORY_ENTRIES cfg ->
  len calls = MAX_HISTORY_ENTRIES cfg + Z.of_nat k ->
  (forall calls', len (HistoryManager.add_all cfg calls' [])
                  <= MAX_HISTORY_ENTRIES cfg)
  /\ len (HistoryManager.add_all cfg calls []) = MAX_HISTORY_ENTRIES cfg
  /\ HistoryManager.add_all cfg calls []
     = drop k (map HistoryManager.make_entry calls).
Proof.
  intros Hcap Hlen. unfold len in *.
  split; [|split].
  - intros calls'. rewrite add_all_log by (cbn; lia). cbn [app].
    rewrite length_drop, length_map. lia.
  - rewrite add_all_log by (cbn; lia). cbn [app].
    rewrite length_drop, length_map. lia.
  - rewrite add_all_log by (cbn; lia). cbn [app]. f_equal.
    rewrite length_map. lia.
Qed.

Lemma add_conversation_fifo_witness :
  let calls := map Examples.call [1; 2; 3; 4; 5]%nat in
  len (HistoryManager.add_all small_config calls []) = 3
  /\ HistoryManager.add_all small_config calls []
     = map HistoryManager.make_entry (map Examples.call [3; 4; 5]%nat).
Proof.
  intros calls.
  destruct (add_conversation_fifo small_config calls 2) as (_ & Hlen & Hlog).
  - cbn. lia.
  - reflexivity.
  - split; [exact Hlen | exact Hlog].
Defined.

Lemma slice_from_last {A} (n : Z) (l : list A) :
  0 < n -> slice_from (- n) l = drop (length l - Z.to_nat n) l.
Proof.
  intros Hn. unfold slice_from.
  destruct (- n <? 0) eqn:E; [|apply Z.ltb_ge in E; lia].
  f_equal. lia.
Qed.

(** For a positive limit the read is the last [limit] entries, newest
    first. *)
Lemma get_recent_conversations_positive (limit : Z)
    (history : list HistoryEntry) :
  0 < limit ->
  HistoryManager.get_recent_conversations limit history
  = rev (drop (length history - Z.to_nat limit) history).
Proof.
  intros Hpos. unfold HistoryManager.get_recent_conversations.
  destruct history as [|e history]; [reflexivity|].
  now rewrite slice_from_last.
Qed.

Lemma get_history_positive (limit : Z) (history : list HistoryEntry) :
  0 < limit ->
  snd (HistoryManager.get_history (Some limit) history) <= Z.min limit 500.
Proof.
  intros Hpos. unfold HistoryManager.get_history.
  cbv beta zeta. cbn [default snd]. unfold id.
  rewrite get_recent_conversations_positive by lia.
  unfold len. rewrite length_rev, length_drop. lia.
Qed.

Lemma get_recent_after_clear (limit : Z) (history : list HistoryEntry) :
  HistoryManager.get_recent_conversations limit
    (snd (HistoryManager.clear_history history)) = [].
Proof. reflexivity. Qed.

(** C8 at [limit = 0].  The slice [history[-0:]] is the whole list, so a
    read with limit 0 returns every entry of the log, newest first: with
    two entries in the log the reply counts 2, not at most
    [min(0, 500) = 0]. *)
Theorem get_history_limit_zero :
  (forall history,
      HistoryManager.get_history (Some 0) history
      = (rev history, len history))
  /\ (let history :=
        map HistoryManager.make_entry (map Examples.call [1; 2]%nat) in
      snd (HistoryManager.get_history (Some 0) history) = 2
      /\ ~ (snd (HistoryManager.get_history (Some 0) history) <= Z.min 0 500)).
Proof.
  assert (H : forall history,
             HistoryManager.get_history (Some 0) history
             = (rev history, len history)).
  { intros history. unfold HistoryManager.get_history,
      HistoryManager.get_recent_conversations. cbv beta zeta. cbn [default].
    unfold id.
    destruct history as [|e history]; [reflexivity|].
    change (slice_from (- Z.min 0 500) (e :: history)) with (e :: history).
    unfold len. now rewrite length_rev. }
  split; [exact H|].
  cbn zeta. rewrite H. cbn [snd]. split; [reflexivity|].
  change (~ (2 <= 0)). lia.
Qed.

(** ** The knowledge formatter *)

Section FormatterFacts.

Import WikipediaService.

Lemma before_last_shorter c s : forall h,
  before_last c s = Some h -> (length h < length s)%nat.
Proof.
  induction s as [|x r IH]; intros h; cbn; [discriminate|].
  destruct (before_last c r) as [h'|].
  - intros [= <-]. specialize (IH h' eq_refl). cbn. lia.
  - destruct (x =? c)%N; [|discriminate]. intros [= <-]. cbn. lia.
Qed.

Lemma rsplit1_head_length c s : len (rsplit1_head c s) <= len s.
Proof.
  unfold rsplit1_head, len.
  destruct (before_last c s) as [h|] eqn:E; [|lia].
  apply before_last_shorter in E. lia.
Qed.

Lemma slice_to_length (n : Z) (s : str) :
  0 <= n -> len (slice_to n s) <= n.
Proof.
  intros Hn. unfold slice_to, len.
  destruct (n <? 0) eqn:E; [apply Z.ltb_lt in E; lia|].
  rewrite length_take. lia.
Qed.

Lemma len_app (a b : str) : len (a ++ b) = len a + len b.
Proof. unfold len. rewrite length_app. lia. Qed.

(** The running length never passes 4002 once the loop has appended
    anything. *)
Lemma format_loop_length paragraphs : forall current_length,
  current_length + len (concat (format_loop paragraphs current_length))
  <= Z.max current_length 4002.
Proof.
  induction paragraphs as [|para rest IH]; intros cl.
  - cbn. unfold len. cbn. lia.
  - cbn [format_loop].
    destruct (cl + len para >? 4000) eqn:Hcap.
    + destruct (cl <? 3000) eqn:Hmin.
      * apply Z.ltb_lt in Hmin. cbn [concat].
        rewrite app_nil_r, !len_app.
        pose proof (rsplit1_head_length 46%N
                      (slice_to (4000 - cl - 50) para)) as H1.
        pose proof (slice_to_length (4000 - cl - 50) para) as H2.
        change (len (lit ".")) with 1. change (len NL) with 1. lia.
      * cbn. unfold len. cbn. lia.
    + rewrite Z.gtb_ltb in Hcap. apply Z.ltb_ge in Hcap.
      destruct (cl + len para + 2 >=? 3500) eqn:Htarget.
      * cbn [concat]. rewrite app_nil_r, !len_app.
        change (len NL) with 1. lia.
      * rewrite Z.geb_leb in Htarget. apply Z.leb_gt in Htarget.
        cbn [concat]. rewrite !len_app. change (len NL) with 1.
        specialize (IH (cl + len para + 2)). lia.
Qed.

(** The reply is never longer than the hard cap plus the heading and
    the footer. *)
Lemma format_length (p : Page) (r : str) :
  _format_comprehensive_response p = Some r ->
  len r <= 4000 + len (heading (title p)) + len footer.
Proof.
  unfold _format_comprehensive_response.
  destruct (paragraphs_of (content p)) as [|para rest]; [discriminate|].
  intros H. apply (inj Some) in H. subst r.
  rewrite concat_cons, concat_app, !len_app.
  cbn [concat]. rewrite app_nil_r.
  pose proof (format_loop_length (para :: rest) (len (heading (title p)))).
  assert (8 <= len (heading (title p))).
  { unfold heading. rewrite !len_app.
    change (len (lit "📚 **")) with 4. change (len (lit "**")) with 2.
    change (len NL) with 1. unfold len. lia. }
  lia.
Qed.

Lemma paragraphs_of_none (content : str) :
  (forall para, In para (split_nn content) ->
     startswith (strip para) (lit "==") = false -> len (strip para) <= 100) ->
  paragraphs_of content = [].
Proof.
  intros H. unfold paragraphs_of. apply filter_drop_all.
  intros q Hq. apply in_map_iff in Hq as (para & <- & Hin).
  specialize (H para Hin). unfold qualifies.
  destruct (startswith (strip para) (lit "==")) eqn:Hs.
  - now rewrite andb_false_r.
  - specialize (H eq_refl).
    replace (len (strip para) >? 100) with false.
    + now rewrite andb_false_r.
    + symmetry. rewrite Z.gtb_ltb. apply Z.ltb_ge. lia.
Qed.

End FormatterFacts.

(** C7 on a paragraph without a full stop.  The page [long_page] has one
    qualifying paragraph of 4199 characters, more than the cap; the
    formatter keeps its first 3941 characters and appends a full stop, so
    the reply breaks off inside a word: the last character kept and the
    first one dropped are both letters of [abcdefg]. *)
Theorem format_cuts_inside_word :
  let para := Examples.long_paragraph in
  len para = 4199
  /\ contains (lit ".") para = false
  /\ WikipediaService._format_comprehensive_response Examples.long_page
     = Some (WikipediaService.heading (lit "T") ++ take 3941 para ++ lit "."
             ++ NL ++ NL ++ WikipediaService.footer)
  /\ (is_word <$> para !! 3940%nat) = Some true
  /\ (is_word <$> para !! 3941%nat) = Some true.
Proof.
  cbv zeta. split; [|split; [|split; [|split]]]; vm_compute; reflexivity.
Qed.

(** ** The knowledge lookup *)

(** C10 (as the code has it).  When the page fetch succeeds (directly,
    or through the first candidate of an ambiguous title) but no
    paragraph of the page is longer than 100 characters once section
    headers are excluded, the formatter returns nothing and the lookup
    answers with whatever the search-suggestion routine produces for the
    cleaned query: the numbered listing when the search finds articles,
    the not-found apology when it finds none, and a third text, the
    search-failure apology, when the search call itself raises. *)
Theorem search_wikipedia_short_page
    (w : Wikipedia) (query : str) (p : Page) :
  (page w (WikipediaService._clean_query query) = PageFound p
   \/ exists first rest,
        page w (WikipediaService._clean_query query)
        = DisambiguationError (first :: rest)
        /\ page w first = PageFound p) ->
  (forall para, In para (split_nn (content p)) ->
     startswith (strip para) (lit "==") = false -> len (strip para) <= 100) ->
  let clean_query := WikipediaService._clean_query query in
  WikipediaService._format_comprehensive_response p = None
  /\ WikipediaService.search_wikipedia w query
     = WikipediaService._get_search_suggestions w clean_query
  /\ (search w clean_query = Some [] ->
      WikipediaService.search_wikipedia w query
      = lit "I couldn't find any Wikipedia articles about '" ++ clean_query
        ++ lit "'.")
  /\ (forall r rs, search w clean_query = Some (r :: rs) ->
      WikipediaService.search_wikipedia w query
      = concat
          ((lit "🔎 I found these Wikipedia articles related to '"
            ++ clean_query ++ lit "':" ++ NL ++ NL)
           :: WikipediaService.listing w 1 (r :: rs)))
  /\ (search w clean_query = None ->
      WikipediaService.search_wikipedia w query
      = lit "I encountered an issue searching for '" ++ clean_query
        ++ lit "'.").
Proof.
  intros Hfetch Hshort clean_query.
  assert (Hnone : WikipediaService._format_comprehensive_response p = None).
  { unfold WikipediaService._format_comprehensive_response.
    now rewrite paragraphs_of_none. }
  assert (Hlookup : WikipediaService.search_wikipedia w query
                    = WikipediaService._get_search_suggestions w clean_query).
  { unfold WikipediaService.search_wikipedia,
      WikipediaService._get_comprehensive_content.
    fold clean_query.
    destruct Hfetch as [Hp | (first & rest & Hd & Hp)].
    - fold clean_query in Hp. now rewrite Hp, Hnone.
    - fold clean_query in Hd. now rewrite Hd, Hp, Hnone. }
  split; [exact Hnone|]. split; [exact Hlookup|]. split.
  - intros Hs. rewrite Hlookup.
    unfold WikipediaService._get_search_suggestions. now rewrite Hs.
  - split.
    + intros r rs Hs. rewrite Hlookup.
      unfold WikipediaService._get_search_suggestions. now rewrite Hs.
    + intros Hs. rewrite Hlookup.
      unfold WikipediaService._get_search_suggestions. now rewrite Hs.
Qed.

Lemma search_wikipedia_short_page_witness :
  WikipediaService._clean_query (lit "What is stub") = lit "stub"
  /\ WikipediaService._format_comprehensive_response Examples.short_page
     = None
  /\ WikipediaService.search_wikipedia Examples.stub_wikipedia
       (lit "What is stub")
     = lit "🔎 I found these Wikipedia articles related to 'stub':" ++ NL ++ NL
       ++ lit "**1. Stub (electronics)**" ++ NL
       ++ lit "A stub is a length of transmission line." ++ NL ++ NL
       ++ lit "**2. Stub (stock)**" ++ NL ++ NL.
Proof.
  destruct (search_wikipedia_short_page Examples.stub_wikipedia
              (lit "What is stub") Examples.short_page)
    as (Hnone & _ & _ & Hlist & _).
  - left. vm_compute. reflexivity.
  - intros para Hin _. vm_compute in Hin.
    destruct Hin as [<-|[<-|[<-|[]]]]; vm_compute; discriminate.
  - split; [vm_compute; reflexivity|]. split; [exact Hnone|].
    rewrite (Hlist (lit "Stub (electronics)") [lit "Stub (stock)"]).
    + vm_compute. reflexivity.
    + vm_compute. reflexivity.
Defined.

(** C10, the third answer.  The page "stub" is fetched and has no
    paragraph of more than 100 characters, and the search call raises:
    the lookup answers with the search-failure apology, which is neither
    a listing of articles nor the not-found apology. *)
Lemma search_wikipedia_search_failure :
  let w := MoreExamples.unsearchable_wikipedia in
  let query := lit "What is stub" in
  let clean_query := WikipediaService._clean_query query in
  page w clean_query = PageFound Examples.short_page
  /\ WikipediaService._format_comprehensive_response Examples.short_page
     = None
  /\ WikipediaService.search_wikipedia w query
     = lit "I encountered an issue searching for 'stub'."
  /\ WikipediaService.search_wikipedia w query
     <> lit "I couldn't find any Wikipedia articles about '" ++ clean_query
        ++ lit "'."
  /\ (forall names,
        WikipediaService.search_wikipedia w query
        <> concat
             ((lit "🔎 I found these Wikipedia articles related to '"
               ++ clean_query ++ lit "':" ++ NL ++ NL)
              :: WikipediaService.listing w 1 names)).
Proof.
  cbv zeta. split; [|split; [|split; [|split]]].
  - vm_compute. reflexivity.
  - vm_compute. reflexivity.
  - vm_compute. reflexivity.
  - vm_compute. discriminate.
  - intros names H. apply (f_equal (hd 0%N)) in H.
    vm_compute in H. discriminate H.
Qed.

(** ** Routing *)

(** C3 (as the code has it).  A message that is not a knowledge query and
    contains a code keyword is answered by the code responder alone:
    without a generative provider the reply is a [source=error] envelope
    saying that code generation requires AI setup; with a provider whose
    call raises, the reply is a [source=gemini-code] envelope whose text
    is the "Code Generated" heading followed by an apology; in no case is
    the fallback responder used. *)
Theorem code_request_routing
    (cfg : Config) (w : Wikipedia) (g : GenAI) (message session_id : str)
    (user_contexts : gmap str Context) :
  WikipediaService.is_wikipedia_query message = false ->
  AIService.is_code_request message = true ->
  let r := AIService.get_response cfg w g message session_id user_contexts in
  r = AIService._get_gemini_code_response cfg g message session_id
  /\ (AIService.unavailable cfg g = true ->
      r = {| text := lit "Code generation requires AI setup.";
             source := src_error;
             emoji := lit "💻" |})
  /\ (AIService.unavailable cfg g = false ->
      generate_content g (AIService.code_prompt message) = GenRaises ->
      r = {| text := lit "**Code Generated**" ++ NL ++ NL
                     ++ lit "I couldn't generate code at this time.";
             source := src_gemini_code;
             emoji := lit "💻" |})
  /\ source r <> src_fallback.
Proof.
  intros Hwiki Hcode r.
  assert (Hr : r = AIService._get_gemini_code_response cfg g message
                     session_id).
  { unfold r, AIService.get_response. now rewrite Hwiki, Hcode. }
  split; [exact Hr|]. rewrite Hr.
  unfold AIService._get_gemini_code_response.
  split; [|split].
  - intros Hu. now rewrite Hu.
  - intros Hu Hraise. now rewrite Hu, Hraise.
  - destruct (AIService.unavailable cfg g); discriminate.
Qed.

Lemma code_request_routing_witness :
  AIService.get_response (default_config []) Examples.stub_wikipedia
    Examples.no_genai (lit "write code to sort a list") (lit "s1") ∅
  = {| text := lit "Code generation requires AI setup.";
       source := src_error;
       emoji := lit "💻" |}.
Proof.
  destruct (code_request_routing (default_config []) Examples.stub_wikipedia
              Examples.no_genai (lit "write code to sort a list")
              (lit "s1") ∅) as (_ & Herr & _).
  - vm_compute. reflexivity.
  - vm_compute. reflexivity.
  - apply Herr. vm_compute. reflexivity.
Defined.

(** C3, the failing call.  With a provider configured and its call
    raising, the code request "write code to sort a list" is answered
    with [source=gemini-code], not [source=error]. *)
Lemma code_request_failure_tagged_gemini_code :
  let cfg := default_config (lit "secret-key") in
  let message := lit "write code to sort a list" in
  WikipediaService.is_wikipedia_query message = false
  /\ AIService.is_code_request message = true
  /\ AIService.unavailable cfg Examples.failing_genai = false
  /\ generate_content Examples.failing_genai (AIService.code_prompt message)
     = GenRaises
  /\ source (AIService.get_response cfg Examples.stub_wikipedia
               Examples.failing_genai message (lit "s1") ∅)
     <> src_error.
Proof.
  cbv zeta. split; [|split; [|split; [|split]]];
    try (vm_compute; reflexivity).
  vm_compute. discriminate.
Qed.

(** ** The fallback responder *)

Lemma name_slot_known (session_id : str) (user_contexts : gmap str Context) :
  match
    match user_contexts !! session_id with
    | Some context => user_name context
    | None => Some []
    end
  with
  | Some (c :: n) => lit " " ++ c :: n
  | _ => []
  end = AIService.name_slot (AIService.known_name session_id user_contexts).
Proof.
  unfold AIService.known_name, AIService.name_slot.
  destruct (user_contexts !! session_id) as [ctx|]; [|reflexivity].
  destruct (user_name ctx) as [[|c n]|]; reflexivity.
Qed.

Lemma update_context_name (session_id user_msg bot_reply : str) (now : Z)
    (user_contexts : gmap str Context) (w : str) :
  ConversationEnhancer.name_search (lower user_msg) = Some w ->
  AIService.known_name session_id
    (ConversationEnhancer.update_context session_id user_msg bot_reply now
       user_contexts)
  = capitalize w.
Proof.
  intros Hw. unfold AIService.known_name,
    ConversationEnhancer.update_context.
  rewrite lookup_insert_eq. cbn [user_name]. now rewrite Hw.
Qed.

(** C9 (as the code has it).  The fallback reply is a function of the
    message and the known user name only, always tagged
    [source=fallback].  The greeting, status, thanks and default replies
    carry the name in their greeting slot (nothing when no name is
    known); the capability listing and the question prompt are fixed
    texts without a slot.  After "my name is Ada" has been processed for
    a session, the greeting reply of that session contains "Ada". *)
Theorem fallback_response_spec
    (message session_id : str) (user_contexts : gmap str Context) :
  let name := AIService.known_name session_id user_contexts in
  let slot := AIService.name_slot name in
  let r := AIService._get_fallback_response message session_id user_contexts in
  source r = src_fallback
  /\ (text r = lit "👋 Hello" ++ slot
               ++ lit "! I'm your AI assistant. How can I help you today?"
      \/ text r = lit "I'm doing great" ++ slot
               ++ lit "! Ready to help. What would you like to know?"
      \/ text r = lit "I can help you with:" ++ NL ++ NL
               ++ lit "📚 Search Wikipedia for information" ++ NL
               ++ lit "💬 Answer questions" ++ NL
               ++ lit "🤔 General conversation" ++ NL ++ NL
               ++ lit "What would you like to explore?"
      \/ text r = lit "You're welcome" ++ slot
               ++ lit "! Happy to help anytime! 😊"
      \/ text r = lit "That's an interesting question! Try asking about specific topics and I'll search Wikipedia for accurate information."
      \/ text r = lit "I understand" ++ slot
               ++ lit "! Feel free to ask me anything, especially factual topics I can research for you.")
  /\ (forall session_id' user_contexts',
         AIService.known_name session_id' user_contexts' = name ->
         AIService._get_fallback_response message session_id' user_contexts'
         = r)
  /\ (forall bot_reply now,
         contains (lit "Ada")
           (text (AIService._get_fallback_response (lit "hello") session_id
                    (ConversationEnhancer.update_context session_id
                       (lit "my name is Ada") bot_reply now user_contexts)))
         = true).
Proof.
  cbv zeta. unfold AIService._get_fallback_response.
  rewrite name_slot_known.
  split; [|split; [|split]].
  - repeat match goal with
           | |- context [if ?c then _ else _] => destruct c
           end; reflexivity.
  - destruct (any_in _ _); [left; reflexivity|].
    destruct (any_in _ _); [right; left; reflexivity|].
    destruct (any_in _ _); [do 2 right; left; reflexivity|].
    destruct (any_in _ _); [do 3 right; left; reflexivity|].
    destruct (contains _ _); [do 4 right; left; reflexivity|].
    do 5 right. reflexivity.
  - intros session_id' user_contexts' Hname.
    now rewrite name_slot_known, Hname.
  - intros bot_reply now. rewrite name_slot_known.
    rewrite (update_context_name _ _ _ _ _ (lit "ada"))
      by (vm_compute; reflexivity).
    vm_compute. reflexivity.
Qed.

(** Two sessions that know the same name get the same reply. *)
Lemma fallback_response_spec_witness :
  AIService._get_fallback_response (lit "thanks") (lit "s2")
    (ConversationEnhancer.update_context (lit "s2") (lit "I'm Ada")
       (lit "ok") 5 ∅)
  = AIService._get_fallback_response (lit "thanks") (lit "s1")
      Examples.ada_contexts.
Proof.
  destruct (fallback_response_spec (lit "thanks") (lit "s1")
              Examples.ada_contexts) as (_ & _ & Hpure & _).
  apply Hpure. vm_compute. reflexivity.
Defined.

(** C9, the replies without a slot.  With the name Ada known for the
    session, the capability listing does not mention it and is the same
    text as for a session without a name. *)
Lemma fallback_help_has_no_name :
  AIService.known_name (lit "s1") Examples.ada_contexts = lit "Ada"
  /\ contains (lit "Ada")
       (text (AIService._get_fallback_response (lit "help") (lit "s1")
                Examples.ada_contexts))
     = false
  /\ AIService._get_fallback_response (lit "help") (lit "s1")
       Examples.ada_contexts
     = AIService._get_fallback_response (lit "help") (lit "s1") ∅.
Proof.
  split; [|split]; vm_compute; reflexivity.
Qed.

(** ** Name extraction *)

Section NameFacts.

Import ConversationEnhancer.

Lemma take_drop_while (p : N -> bool) (s : str) :
  s = take_while p s ++ drop_while p s.
Proof.
  induction s as [|c r IH]; [reflexivity|].
  cbn. destruct (p c); [|reflexivity]. cbn. now f_equal.
Qed.

Lemma take_while_all (p : N -> bool) (s : str) :
  Forall (fun c => p c = true) (take_while p s).
Proof.
  induction s as [|c r IH]; cbn; [constructor|].
  destruct (p c) eqn:E; constructor; assumption.
Qed.

Lemma drop_while_head (p : N -> bool) (s : str) :
  match drop_while p s with
  | [] => True
  | c :: _ => p c = false
  end.
Proof.
  induction s as [|c r IH]; cbn; [exact I|].
  destruct (p c) eqn:E; [exact IH | exact E].
Qed.

Lemma startswith_prefix (s p : str) :
  startswith s p = true -> s = p ++ drop (length p) s.
Proof.
  revert s. induction p as [|a p IH]; intros s H; [reflexivity|].
  destruct s as [|b s]; [discriminate|].
  cbn in H. apply andb_true_iff in H as [Hab Hs].
  apply N.eqb_eq in Hab. subst b. cbn. f_equal. now apply IH.
Qed.

Lemma startswith_app (p r : str) : startswith (p ++ r) p = true.
Proof.
  induction p as [|a p IH]; [now destruct r|].
  cbn. now rewrite N.eqb_refl, IH.
Qed.

(** The classes [\s] and [\w] are disjoint: none of the 29 white space
    characters is alphanumeric or the underscore. *)
Lemma word_not_space (c : N) : is_word c = true -> isspace c = false.
Proof.
  intros Hw. destruct (isspace c) eqn:E; [|reflexivity].
  assert (Hc : In c [9; 10; 11; 12; 13; 28; 29; 30; 31; 32; 133; 160; 5760;
                     8192; 8193; 8194; 8195; 8196; 8197; 8198; 8199; 8200;
                     8201; 8202; 8232; 8233; 8239; 8287; 12288]%N).
  { unfold isspace in E.
    rewrite !orb_true_iff, !andb_true_iff, !N.leb_le, !N.eqb_eq in E.
    cbn [In]. lia. }
  cbn [In] in Hc.
  repeat (destruct Hc as [<-|Hc]; [vm_compute in Hw; discriminate Hw|]).
  destruct Hc.
Qed.

Lemma take_while_app (p : N -> bool) (a r : str) :
  Forall (fun c => p c = true) a ->
  match r with [] => True | c :: _ => p c = false end ->
  take_while p (a ++ r) = a /\ drop_while p (a ++ r) = r.
Proof.
  intros Ha Hr. induction Ha as [|c a Hc Ha IH]; cbn.
  - destruct r as [|c r]; cbn; [now split|]. now rewrite Hr.
  - rewrite Hc. destruct IH as [-> ->]. now split.
Qed.

(** What a successful [\s+(\w+)] says about the text: a non-empty run
    of white space, then the captured non-empty run of word characters,
    which stops at the end of the text or before a character that is
    not a word character. *)
Lemma space_then_word_sound (t w : str) :
  space_then_word t = Some w ->
  exists ws rest,
    t = ws ++ w ++ rest
    /\ ws <> [] /\ Forall (fun c => isspace c = true) ws
    /\ w <> [] /\ Forall (fun c => is_word c = true) w
    /\ match rest with [] => True | c :: _ => is_word c = false end.
Proof.
  unfold space_then_word. intros H.
  destruct (take_while isspace t) as [|c0 ws0] eqn:Ews; [discriminate|].
  destruct (take_while is_word (drop_while isspace t)) as [|c1 w1] eqn:Ew;
    [discriminate|].
  apply (inj Some) in H. subst w.
  exists (c0 :: ws0), (drop_while is_word (drop_while isspace t)).
  split; [|split; [|split; [|split; [|split]]]].
  - rewrite <- Ew, <- Ews, <- (take_drop_while is_word).
    apply take_drop_while.
  - discriminate.
  - rewrite <- Ews. apply take_while_all.
  - discriminate.
  - rewrite <- Ew. apply take_while_all.
  - apply drop_while_head.
Qed.

(** Conversely every such text matches, and captures that token. *)
Lemma space_then_word_complete (ws w rest : str) :
  ws <> [] -> Forall (fun c => isspace c = true) ws ->
  w <> [] -> Forall (fun c => is_word c = true) w ->
  match rest with [] => True | c :: _ => is_word c = false end ->
  space_then_word (ws ++ w ++ rest) = Some w.
Proof.
  intros Hws Hspace Hw Hword Hrest. unfold space_then_word.
  destruct (take_while_app isspace ws (w ++ rest) Hspace) as [-> ->].
  - destruct w as [|c w]; [contradiction|].
    apply word_not_space. now inversion Hword.
  - destruct ws as [|c0 ws]; [contradiction|].
    destruct (take_while_app is_word w rest Hword Hrest) as [-> _].
    destruct w; [contradiction | reflexivity].
Qed.

(** No text begins with two of the four phrases. *)
Lemma name_phrases_exclusive (t p q : str) :
  In p name_phrases -> In q name_phrases ->
  startswith t p = true -> startswith t q = true -> p = q.
Proof.
  assert (E : name_phrases
              = [[109; 121; 32; 110; 97; 109; 101; 32; 105; 115];
                 [99; 97; 108; 108; 32; 109; 101];
                 [105; 32; 97; 109];
                 [105; 39; 109]]%N) by (vm_compute; reflexivity).
  rewrite E. clear E. cbn [In].
  intros Hp Hq Sp Sq.
  apply startswith_prefix in Sp. apply startswith_prefix in Sq.
  pose proof (eq_trans (eq_sym Sp) Sq) as H. clear Sp Sq.
  destruct Hp as [<-|[<-|[<-|[<-|[]]]]];
    destruct Hq as [<-|[<-|[<-|[<-|[]]]]];
    try reflexivity; cbn [app] in H; discriminate H.
Qed.

Lemma match_at_complete (phrases : list str) (t p w : str) :
  (forall q, In q phrases -> startswith t q = true -> q = p) ->
  In p phrases -> startswith t p = true ->
  space_then_word (drop (length p) t) = Some w ->
  match_at phrases t = Some w.
Proof.
  intros Hex Hin Hp Hw. induction phrases as [|q rest IH]; [destruct Hin|].
  cbn [match_at]. destruct (startswith t q) eqn:Hq.
  - rewrite (Hex q (or_introl eq_refl) Hq), Hw. reflexivity.
  - apply IH.
    + intros q' Hq'. apply Hex. now right.
    + destruct Hin as [->|Hin]; [congruence | exact Hin].
Qed.

Lemma match_at_sound (phrases : list str) (t w : str) :
  match_at phrases t = Some w ->
  exists p, In p phrases /\ startswith t p = true
            /\ space_then_word (drop (length p) t) = Some w.
Proof.
  induction phrases as [|p rest IH]; cbn [match_at]; [discriminate|].
  destruct (startswith t p) eqn:Hp.
  - destruct (space_then_word (drop (length p) t)) as [w'|] eqn:Hw.
    + intros H. exists p. split; [now left|]. split; [exact Hp|].
      now rewrite Hw.
    + intros H. destruct (IH H) as (q & Hq & Hs).
      exists q. split; [now right | exact Hs].
  - intros H. destruct (IH H) as (q & Hq & Hs).
    exists q. split; [now right | exact Hs].
Qed.

Lemma name_search_unfold (s : str) :
  name_search s =
    match match_at name_phrases s with
    | Some w => Some w
    | None =>
        match s with
        | [] => None
        | _ :: r => name_search r
        end
    end.
Proof. destruct s; reflexivity. Qed.

(** [re.search] returns the match at the leftmost position where the
    pattern matches. *)
Lemma name_search_leftmost (s w : str) :
  name_search s = Some w <->
  exists i : nat,
    match_at name_phrases (drop i s) = Some w
    /\ forall j : nat, (j < i)%nat -> match_at name_phrases (drop j s) = None.
Proof.
  revert w. induction s as [|c r IH]; intros w.
  - rewrite name_search_unfold. split.
    + intros H. exists 0%nat. split; [|intros j Hj; lia].
      rewrite drop_0. destruct (match_at name_phrases []); congruence.
    + intros (i & Hi & _). rewrite drop_nil in Hi. now rewrite Hi.
  - rewrite name_search_unfold. split.
    + destruct (match_at name_phrases (c :: r)) as [w'|] eqn:E.
      * intros H. exists 0%nat. split; [|intros j Hj; lia].
        rewrite drop_0. congruence.
      * intros H. apply IH in H as (i & Hi & Hbefore).
        exists (S i). split; [exact Hi|].
        intros [|j] Hj; [now rewrite drop_0|].
        apply Hbefore. lia.
    + intros ([|i] & Hi & Hbefore).
      * rewrite drop_0 in Hi. now rewrite Hi.
      * specialize (Hbefore 0%nat ltac:(lia)) as H0.
        rewrite drop_0 in H0. rewrite H0.
        apply IH. exists i. split; [exact Hi|].
        intros j Hj. apply (Hbefore (S j)). lia.
Qed.

End NameFacts.

(** C6 (as the code has it).  Name extraction is one search of the
    lower-cased user text for the pattern
    [(?:my name is|call me|i am|i'm)\s+(\w+)]: the match at the leftmost
    position of the text wins, whichever of the four phrases it starts
    with.  The pattern matches at a position, capturing [w], exactly
    when the text from there on is one of the phrases, a non-empty run
    of white space and the token [w] of word characters, which ends at
    the end of the text or before a character that is no word
    character; the token is stored capitalized, overwriting any previous
    name, and without a match the stored name is left as it was. *)
Theorem update_context_name_leftmost
    (session_id user_msg bot_reply : str) (now : Z)
    (user_contexts : gmap str Context) :
  let s := lower user_msg in
  let before := default empty_context (user_contexts !! session_id) in
  let after :=
    ConversationEnhancer.update_context session_id user_msg bot_reply now
      user_contexts !! session_id in
  (forall w,
      ConversationEnhancer.name_search s = Some w <->
      exists i : nat,
        ConversationEnhancer.match_at ConversationEnhancer.name_phrases
          (drop i s) = Some w
        /\ forall j : nat, (j < i)%nat ->
             ConversationEnhancer.match_at ConversationEnhancer.name_phrases
               (drop j s) = None)
  /\ (forall t w,
         ConversationEnhancer.match_at ConversationEnhancer.name_phrases t
         = Some w <->
         exists p ws rest,
           In p ConversationEnhancer.name_phrases
           /\ t = p ++ ws ++ w ++ rest
           /\ ws <> [] /\ Forall (fun c => isspace c = true) ws
           /\ w <> [] /\ Forall (fun c => is_word c = true) w
           /\ match rest with [] => True | c :: _ => is_word c = false end)
  /\ (forall w,
         ConversationEnhancer.name_search s = Some w ->
         user_name <$> after = Some (Some (capitalize w)))
  /\ (ConversationEnhancer.name_search s = None ->
      user_name <$> after = Some (user_name before)).
Proof.
  cbv zeta. split; [|split; [|split]].
  - intros w. apply name_search_leftmost.
  - intros t w. split.
    + intros H.
      apply match_at_sound in H as (p & Hp & Hstart & Hword).
      apply space_then_word_sound in Hword
        as (ws & rest & Hsplit & Hws & Hspace & Hw & Hwordc & Hrest).
      exists p, ws, rest. split; [exact Hp|]. split.
      * rewrite (startswith_prefix t p Hstart) at 1. now rewrite Hsplit.
      * auto.
    + intros (p & ws & rest & Hp & -> & Hws & Hspace & Hw & Hwordc & Hrest).
      apply (match_at_complete _ _ p).
      * intros q Hq Hstart.
        apply (name_phrases_exclusive (p ++ ws ++ w ++ rest)); auto.
        apply startswith_app.
      * exact Hp.
      * apply startswith_app.
      * rewrite drop_app_length.
        now apply space_then_word_complete.
  - intros w Hw. unfold ConversationEnhancer.update_context.
    rewrite lookup_insert_eq. cbn [fmap option_fmap option_map user_name].
    now rewrite Hw.
  - intros Hnone. unfold ConversationEnhancer.update_context.
    rewrite lookup_insert_eq. cbn [fmap option_fmap option_map user_name].
    now rewrite Hnone.
Qed.

Lemma update_context_name_leftmost_witness :
  let msg := lit "Call me Al, my name is Bob" in
  user_name <$>
    (ConversationEnhancer.update_context (lit "s1") msg (lit "ok") 0
       Examples.ada_contexts !! lit "s1")
  = Some (Some (lit "Al")).
Proof.
  destruct (update_context_name_leftmost (lit "s1")
              (lit "Call me Al, my name is Bob") (lit "ok") 0
              Examples.ada_contexts) as (_ & _ & Hname & _).
  apply (Hname (lit "al")). vm_compute. reflexivity.
Defined.

(** C6, two phrases in one message.  In "call me al, my name is bob" the
    phrase "call me" comes first in the text and "my name is" first in
    the pattern: the name stored is "Al", while trying the phrases in
    the order of the list would give "Bob". *)
Lemma name_is_leftmost_not_first_phrase :
  let msg := lit "call me al, my name is bob" in
  ConversationEnhancer.name_as_specified msg = Some (lit "Bob")
  /\ user_name <$>
       (ConversationEnhancer.update_context (lit "s1") msg (lit "ok") 0 ∅
          !! lit "s1")
     = Some (Some (lit "Al"))
  /\ user_name <$>
       (ConversationEnhancer.update_context (lit "s1") msg (lit "ok") 0 ∅
          !! lit "s1")
     <> Some (ConversationEnhancer.name_as_specified msg).
Proof.
  cbv zeta. split; [|split].
  - vm_compute. reflexivity.
  - vm_compute. reflexivity.
  - vm_compute. discriminate.
Qed.

(** Letters outside ASCII are word characters and have case: the names
    of "My name is José" and "call me Émile, i am tired" are stored
    whole, and "ÉMILE" is lowered before it is capitalized. *)
Example update_context_name_unicode :
  user_name <$>
    (ConversationEnhancer.update_context (lit "s1") (lit "My name is José")
       (lit "ok") 0 ∅ !! lit "s1")
  = Some (Some (lit "José"))
  /\ user_name <$>
       (ConversationEnhancer.update_context (lit "s1")
          (lit "call me ÉMILE, i am tired") (lit "ok") 0 ∅ !! lit "s1")
     = Some (Some (lit "Émile")).
Proof. split; vm_compute; reflexivity. Qed.

(** * Further properties of the code *)

(** ** The formatter *)

Lemma before_last_prefix (c : N) (s h : str) :
  before_last c s = Some h -> h = take (length h) s.
Proof.
  revert h. induction s as [|x r IH]; intros h; cbn [before_last];
    [discriminate|].
  destruct (before_last c r) as [h'|].
  - intros H. apply (inj Some) in H. subst h. cbn. f_equal. now apply IH.
  - destruct (x =? c)%N; [|discriminate].
    intros H. apply (inj Some) in H. now subst h.
Qed.

Lemma rsplit1_head_prefix (c : N) (s : str) :
  exists m : nat, rsplit1_head c s = take m s.
Proof.
  unfold rsplit1_head. destruct (before_last c s) as [h|] eqn:E.
  - exists (length h). now apply (before_last_prefix c).
  - exists (length s). now rewrite take_ge.
Qed.

Lemma slice_to_prefix {A} (n : Z) (l : list A) :
  exists m : nat, slice_to n l = take m l.
Proof. unfold slice_to. destruct (n <? 0); eauto. Qed.

(** The parts the loop appends: some of the leading paragraphs whole,
    each closed by a blank line, then possibly the beginning of the next
    one closed by a full stop. *)
Lemma format_loop_shape (paragraphs : list str) : forall current_length,
  exists (n : nat) (tail : str),
    concat (WikipediaService.format_loop paragraphs current_length)
    = concat (map (fun q => q ++ NL ++ NL) (take n paragraphs)) ++ tail
    /\ (tail = []
        \/ exists para (m : nat),
             paragraphs !! n = Some para
             /\ tail = take m para ++ lit "." ++ NL ++ NL).
Proof.
  induction paragraphs as [|para rest IH]; intros cl.
  - exists 0%nat, []. split; [reflexivity | now left].
  - cbn [WikipediaService.format_loop].
    destruct (cl + len para >? 4000).
    + destruct (cl <? 3000).
      * destruct (slice_to_prefix (4000 - cl - 50) para) as (m1 & H1).
        destruct (rsplit1_head_prefix 46%N (take m1 para)) as (m2 & H2).
        exists 0%nat, (take (m2 `min` m1) para ++ lit "." ++ NL ++ NL).
        split.
        -- cbn [concat take map app]. rewrite app_nil_r.
           rewrite H1, H2, take_take, <- !app_assoc. reflexivity.
        -- right. exists para, (m2 `min` m1)%nat. split; reflexivity.
      * exists 0%nat, []. split; [reflexivity | now left].
    + destruct (cl + len para + 2 >=? 3500).
      * exists 1%nat, []. split; [|now left].
        cbn [concat take map]. now rewrite !app_nil_r.
      * destruct (IH (cl + len para + 2)) as (n & tail & Heq & Htail).
        exists (S n), tail. split.
        -- cbn [concat take map]. rewrite Heq. now rewrite <- !app_assoc.
        -- exact Htail.
Qed.

(** X1.  A formatted page is the title heading, then leading qualifying
    paragraphs of the page in their order, each whole and followed by a
    blank line, then at most one further paragraph cut to a prefix and
    closed with a full stop, then the source footer. *)
Theorem format_response_shape (p : Page) (r : str) :
  WikipediaService._format_comprehensive_response p = Some r ->
  exists (n : nat) (tail : str),
    r = WikipediaService.heading (title p)
        ++ concat (map (fun q => q ++ NL ++ NL)
                       (take n (WikipediaService.paragraphs_of (content p))))
        ++ tail ++ WikipediaService.footer
    /\ (tail = []
        \/ exists para (m : nat),
             WikipediaService.paragraphs_of (content p) !! n = Some para
             /\ tail = take m para ++ lit "." ++ NL ++ NL).
Proof.
  unfold WikipediaService._format_comprehensive_response.
  destruct (WikipediaService.paragraphs_of (content p)) as [|q qs] eqn:E;
    [discriminate|].
  intros H. apply (inj Some) in H. subst r.
  destruct (format_loop_shape (q :: qs)
              (len (WikipediaService.heading (title p))))
    as (n & tail & Heq & Htail).
  exists n, tail. split; [|exact Htail].
  rewrite concat_cons, concat_app, Heq. cbn [concat].
  now rewrite app_nil_r, <- !app_assoc.
Qed.

Lemma format_response_shape_witness :
  exists r n tail,
    WikipediaService._format_comprehensive_response MoreExamples.lorem_page
    = Some r
    /\ r = WikipediaService.heading (lit "Lorem")
           ++ concat (map (fun q => q ++ NL ++ NL)
                (take n (WikipediaService.paragraphs_of
                           (content MoreExamples.lorem_page))))
           ++ tail ++ WikipediaService.footer.
Proof.
  eexists.
  assert (H : WikipediaService._format_comprehensive_response
                MoreExamples.lorem_page = Some _)
    by (vm_compute; reflexivity).
  destruct (format_response_shape _ _ H) as (n & tail & Hr & _).
  exists n, tail. split; [exact H | exact Hr].
Defined.

(** X2.  Whatever the page, a formatted reply is at most 4000 characters
    longer than its title heading and footer together. *)
Theorem format_response_length (p : Page) (r : str) :
  WikipediaService._format_comprehensive_response p = Some r ->
  len r <= 4000 + len (WikipediaService.heading (title p))
           + len WikipediaService.footer.
Proof. apply format_length. Qed.

Lemma format_response_length_witness :
  exists r,
    WikipediaService._format_comprehensive_response Examples.long_page
    = Some r
    /\ len r <= 4000 + 9 + 21.
Proof.
  eexists. split; [vm_compute; reflexivity|].
  apply (format_response_length Examples.long_page).
  vm_compute. reflexivity.
Defined.

(** ** Reading the history *)

(** X3.  With a positive limit (100 when the argument is missing) the
    history route returns the last [min(limit, 500)] entries of the log,
    newest first, or the whole log if it is shorter; [count] is their
    number. *)
Theorem get_history_recent (limit_arg : option Z)
    (history : list HistoryEntry) :
  0 < default 100 limit_arg ->
  let n := Z.min (default 100 limit_arg) 500 in
  HistoryManager.get_history limit_arg history
  = (rev (Runs.last_n (Z.to_nat n) history), Z.min n (len history)).
Proof.
  intros Hpos n. unfold HistoryManager.get_history.
  cbv beta zeta. fold n.
  rewrite get_recent_conversations_positive by lia.
  unfold Runs.last_n. f_equal.
  unfold len. rewrite length_rev, length_drop. lia.
Qed.

Lemma get_history_recent_witness :
  HistoryManager.get_history (Some 2) (MoreExamples.entries 5)
  = (rev (drop 3 (MoreExamples.entries 5)), 2)
  /\ snd (HistoryManager.get_history None (MoreExamples.entries 5)) = 5.
Proof.
  split.
  - rewrite (get_history_recent (Some 2) (MoreExamples.entries 5));
      [reflexivity | cbn; lia].
  - rewrite (get_history_recent None (MoreExamples.entries 5));
      [reflexivity | cbn; lia].
Defined.

(** X4.  A negative limit is not rejected: [history[-limit:]] then drops
    the oldest [|limit|] entries and the route returns all the others,
    newest first, however many they are. *)
Theorem get_history_negative_limit (limit : Z)
    (history : list HistoryEntry) :
  limit < 0 ->
  HistoryManager.get_history (Some limit) history
  = (rev (drop (Z.to_nat (- limit)) history),
     Z.max 0 (len history + limit)).
Proof.
  intros Hneg. unfold HistoryManager.get_history,
    HistoryManager.get_recent_conversations.
  cbv beta zeta. cbn [default]. unfold id.
  replace (Z.min limit 500) with limit by lia.
  assert (Hrec : match history with
                 | [] => []
                 | _ :: _ => slice_from (- limit) history
                 end = drop (Z.to_nat (- limit)) history).
  { destruct history as [|e h]; [now rewrite drop_nil|].
    unfold slice_from. destruct (- limit <? 0) eqn:E; [|reflexivity].
    apply Z.ltb_lt in E. lia. }
  rewrite Hrec. f_equal.
  unfold len. rewrite length_rev, length_drop. lia.
Qed.

Lemma get_history_negative_limit_witness :
  HistoryManager.get_history (Some (-1)) (MoreExamples.entries 5)
  = (rev (drop 1 (MoreExamples.entries 5)), 4).
Proof.
  rewrite (get_history_negative_limit (-1) (MoreExamples.entries 5));
    [reflexivity | lia].
Defined.

(** ** The context window *)

Lemma last_n_app_last_n {A} (n : nat) (l m : list A) :
  Runs.last_n n (Runs.last_n n l ++ m) = Runs.last_n n (l ++ m).
Proof.
  unfold Runs.last_n.
  rewrite <- (drop_app_le l m (length l - n)) by lia.
  rewrite drop_drop. f_equal.
  rewrite length_drop, !length_app. lia.
Qed.

Lemma last_n_length {A} (n : nat) (l : list A) :
  (length (Runs.last_n n l) <= n)%nat.
Proof. unfold Runs.last_n. rewrite length_drop. lia. Qed.

Lemma slice_last_ten {A} (h : list A) :
  (if len h >? 10 then slice_from (-10) h else h) = Runs.last_n 10 h.
Proof.
  unfold Runs.last_n, len. destruct (_ >? _) eqn:E.
  - apply Z.gtb_lt in E. unfold slice_from. cbn [Z.ltb Z.compare].
    f_equal. lia.
  - rewrite Z.gtb_ltb in E. apply Z.ltb_ge in E.
    replace (length h - 10)%nat with 0%nat by lia. reflexivity.
Qed.

Lemma update_context_lookup (session_id user_msg bot_reply : str) (now : Z)
    (user_contexts : gmap str Context) :
  let before := default empty_context (user_contexts !! session_id) in
  ConversationEnhancer.update_context session_id user_msg bot_reply now
    user_contexts !! session_id
  = Some {| conversation_history :=
              Runs.last_n 10
                (conversation_history before
                 ++ [Runs.exchange_of (user_msg, bot_reply, now)]);
            user_name :=
              match ConversationEnhancer.name_search (lower user_msg) with
              | Some w => Some (capitalize w)
              | None => user_name before
              end;
            topics_discussed := topics_discussed before;
            mood := ConversationEnhancer.detect_mood
                      ConversationEnhancer.mood_keywords (lower user_msg);
            preferences := preferences before;
            last_topic := last_topic before;
            interaction_count := interaction_count before + 1 |}.
Proof.
  cbv zeta. unfold ConversationEnhancer.update_context.
  rewrite lookup_insert_eq. cbv zeta. now rewrite slice_last_ten.
Qed.

Lemma update_context_other (session_id other user_msg bot_reply : str)
    (now : Z) (user_contexts : gmap str Context) :
  other <> session_id ->
  ConversationEnhancer.update_context session_id user_msg bot_reply now
    user_contexts !! other
  = user_contexts !! other.
Proof.
  intros Hne. unfold ConversationEnhancer.update_context.
  now rewrite lookup_insert_ne.
Qed.

(** X5.  After any non-empty run of exchanges of one session, its
    context holds the last ten exchanges of everything recorded for it
    (what was there before followed by the run, in order), so never more
    than ten; the interaction counter has grown by the length of the run;
    and the context of every other session is untouched. *)
Theorem update_context_window (session_id : str)
    (exchanges : list (str * str * Z)) (user_contexts : gmap str Context) :
  exchanges <> [] ->
  let before := default empty_context (user_contexts !! session_id) in
  let after := Runs.update_all session_id exchanges user_contexts in
  (exists context,
      after !! session_id = Some context
      /\ conversation_history context
         = Runs.last_n 10 (conversation_history before
                           ++ map Runs.exchange_of exchanges)
      /\ len (conversation_history context) <= 10
      /\ interaction_count context
         = interaction_count before + len exchanges)
  /\ (forall other, other <> session_id ->
        after !! other = user_contexts !! other).
Proof.
  revert user_contexts.
  induction exchanges as [|x xs IH]; intros user_contexts Hne;
    [congruence|].
  cbv zeta. unfold Runs.update_all. cbn [fold_left].
  change (fold_left _ xs ?c) with (Runs.update_all session_id xs c).
  set (ctxs1 := ConversationEnhancer.update_context session_id
                  x.1.1 x.1.2 x.2 user_contexts).
  assert (H1 := update_context_lookup session_id x.1.1 x.1.2 x.2
                  user_contexts).
  cbv zeta in H1. fold ctxs1 in H1.
  replace (x.1.1, x.1.2, x.2) with x in H1 by now destruct x as [[? ?] ?].
  destruct xs as [|y ys].
  - cbn [Runs.update_all fold_left map]. split.
    + eexists. split; [exact H1|]. cbn [conversation_history
        interaction_count]. split; [reflexivity|]. split.
      * pose proof (last_n_length 10
          (conversation_history
             (default empty_context (user_contexts !! session_id))
           ++ [Runs.exchange_of x])). unfold len. lia.
      * unfold len. cbn. lia.
    + intros other Ho. now apply update_context_other.
  - destruct (IH ctxs1 ltac:(discriminate))
      as ((context & Hc & Hhist & Hlen & Hcount) & Hother).
    rewrite H1 in Hhist, Hcount.
    cbn [default from_option id conversation_history interaction_count]
      in Hhist, Hcount.
    split.
    + exists context. split; [exact Hc|]. split; [|split].
      * rewrite Hhist, last_n_app_last_n, <- app_assoc. reflexivity.
      * exact Hlen.
      * rewrite Hcount. unfold len. cbn [length]. lia.
    + intros other Ho. rewrite Hother by assumption.
      now apply update_context_other.
Qed.

Lemma update_context_window_witness :
  let run :=
    map (fun i => (lit "message " ++ of_nat i, lit "reply", Z.of_nat i))
        (seq 1 12) in
  exists context,
    Runs.update_all (lit "s1") run ∅ !! lit "s1" = Some context
    /\ conversation_history context
       = map Runs.exchange_of (drop 2 run)
    /\ interaction_count context = 12.
Proof.
  intros run.
  destruct (update_context_window (lit "s1") run ∅)
    as ((context & Hc & Hhist & _ & Hcount) & _).
  - discriminate.
  - exists context. split; [exact Hc|]. split.
    + rewrite Hhist. reflexivity.
    + rewrite Hcount. reflexivity.
Defined.

(** ** Touching and creating sessions *)

Lemma is_valid_session_ext (cfg : Config) (sid : pyval) (now : Z)
    (m1 m2 : gmap str Session) :
  (forall s, sid = PStr s -> m1 !! s = m2 !! s) ->
  SessionManager.is_valid_session cfg sid now m1
  = SessionManager.is_valid_session cfg sid now m2.
Proof.
  intros H. unfold SessionManager.is_valid_session,
    SessionManager.is_valid_session_try.
  destruct sid as [|s|n|l]; try reflexivity.
  cbn. now rewrite (H s eq_refl).
Qed.

(** X6.  Touching a known session answers [True], stamps the touch time
    as its last activity, counts one more message and keeps its creation
    time; from then on its validity depends on the touch time alone: at
    a time whose cutoff is a datetime it is valid exactly when less than
    the timeout has passed since the touch, so a touch also brings an
    expired session back, and where the cutoff overflows it is invalid
    like every session.  Touching an unknown id answers [False] and
    creates nothing. *)
Theorem update_session_touch (cfg : Config) (s : str) (t : Z)
    (sessions : gmap str Session) :
  (forall d, sessions !! s = Some d ->
     SessionManager.update_session s t sessions
     = (true,
        <[s := {| created := created d; last_activity := t;
                  user_ip := user_ip d;
                  message_count := message_count d + 1 |}]> sessions)
     /\ (s <> [] ->
         forall now,
           (-999999999 <= SESSION_TIMEOUT_HOURS cfg / 24 <= 999999999 ->
            datetime_min <= now - hours (SESSION_TIMEOUT_HOURS cfg)
              <= datetime_max ->
            SessionManager.is_valid_session cfg (PStr s) now
              (snd (SessionManager.update_session s t sessions))
            = bool_decide (now - t < hours (SESSION_TIMEOUT_HOURS cfg)))
           /\ (~ (-999999999 <= SESSION_TIMEOUT_HOURS cfg / 24 <= 999999999
                  /\ datetime_min <= now - hours (SESSION_TIMEOUT_HOURS cfg)
                     <= datetime_max) ->
               SessionManager.is_valid_session cfg (PStr s) now
                 (snd (SessionManager.update_session s t sessions))
               = false)))
  /\ (sessions !! s = None ->
      SessionManager.update_session s t sessions = (false, sessions)).
Proof.
  split.
  - intros d Hd. unfold SessionManager.update_session. rewrite Hd.
    split; [reflexivity|]. intros Hs now. cbn [snd].
    rewrite is_valid_session_created by assumption. cbn [last_activity].
    split.
    + intros Hdays Hrange.
      assert (Hc : SessionManager.cutoff cfg now
                   = Ok (now - hours (SESSION_TIMEOUT_HOURS cfg))).
      { apply cutoff_ok. repeat split; lia. }
      rewrite Hc.
      case_bool_decide; [apply Z.ltb_lt | apply Z.ltb_ge]; lia.
    + intros Hno.
      destruct (SessionManager.cutoff cfg now) as [c|e] eqn:Hc;
        [|reflexivity].
      apply cutoff_ok in Hc as (-> & Hdays & Hrange).
      destruct Hno. split; assumption.
  - intros Hnone. unfold SessionManager.update_session. now rewrite Hnone.
Qed.

(** A session last active at 0 has expired at 25 hours; touched then, it
    is valid again. *)
Lemma update_session_touch_witness :
  let cfg := default_config [] in
  let sessions : gmap str Session :=
    {[ lit "s1" := MoreExamples.session_at 0 ]} in
  SessionManager.is_valid_session cfg (PStr (lit "s1")) (hours 25) sessions
  = false
  /\ SessionManager.is_valid_session cfg (PStr (lit "s1")) (hours 25)
       (snd (SessionManager.update_session (lit "s1") (hours 25) sessions))
     = true
  /\ SessionManager.update_session (lit "s2") (hours 25) sessions
     = (false, sessions).
Proof.
  intros cfg sessions.
  destruct (update_session_touch cfg (lit "s1") (hours 25) sessions)
    as (Hknown & _).
  destruct (update_session_touch cfg (lit "s2") (hours 25) sessions)
    as (_ & Hunknown).
  split; [vm_compute; reflexivity|]. split.
  - destruct (Hknown (MoreExamples.session_at 0)) as (_ & Hvalid).
    + apply lookup_singleton_eq.
    + destruct (Hvalid ltac:(discriminate) (hours 25)) as (Hin & _).
      rewrite Hin; vm_compute; [reflexivity | split; discriminate ..].
  - apply Hunknown. apply lookup_singleton_ne. discriminate.
Defined.

(** X7.  Creating or touching one session changes the validity of no
    other session id, and a created session starts with the empty
    context while the contexts of the other sessions stay as they are. *)
Theorem session_operations_isolated (cfg : Config) (uuid s : str) (t : Z)
    (ip other : pyval) (now : Z) (sessions : gmap str Session)
    (contexts : gmap str Context) :
  (other <> PStr s ->
   SessionManager.is_valid_session cfg other now
     (snd (SessionManager.update_session s t sessions))
   = SessionManager.is_valid_session cfg other now sessions)
  /\ (other <> PStr uuid ->
      SessionManager.is_valid_session cfg other now
        (SessionManager.create_session uuid t ip sessions contexts).1.2
      = SessionManager.is_valid_session cfg other now sessions)
  /\ (SessionManager.create_session uuid t ip sessions contexts).2 !! uuid
     = Some empty_context
  /\ (forall s', s' <> uuid ->
        (SessionManager.create_session uuid t ip sessions contexts).2 !! s'
        = contexts !! s').
Proof.
  split; [|split; [|split]].
  - intros Hne. apply is_valid_session_ext. intros s' ->.
    unfold SessionManager.update_session.
    destruct (sessions !! s); [|reflexivity]. cbn [snd].
    apply lookup_insert_ne. congruence.
  - intros Hne. apply is_valid_session_ext. intros s' ->. cbn.
    apply lookup_insert_ne. congruence.
  - cbn. apply lookup_insert_eq.
  - intros s' Hne. cbn. now apply lookup_insert_ne.
Qed.

Lemma session_operations_isolated_witness :
  let cfg := default_config [] in
  let sessions : gmap str Session :=
    {[ lit "s1" := MoreExamples.session_at 0 ]} in
  SessionManager.is_valid_session cfg (PStr (lit "s1")) 5
    (SessionManager.create_session (lit "s2") 5 PNone sessions ∅).1.2
  = true.
Proof.
  intros cfg sessions.
  destruct (session_operations_isolated cfg (lit "s2") (lit "s2") 5 PNone
              (PStr (lit "s1")) 5 sessions ∅) as (_ & Hcreate & _).
  rewrite Hcreate by discriminate. vm_compute. reflexivity.
Defined.

(** ** The rate windows *)

(** X8.  An admission check for one key leaves the windows of all other
    keys as they were, and after it every timestamp in the checked key's
    window is newer than 60 seconds before the check. *)
Theorem is_rate_limited_window_fresh (cfg : Config) (client_ip : pyval)
    (k : hkey) (now : Z) (tracker : gmap hkey (list Z)) :
  hash_key client_ip = Ok k ->
  let tracker' :=
    snd (RateLimiter.is_rate_limited cfg client_ip now tracker) in
  (forall k', k' <> k -> tracker' !! k' = tracker !! k')
  /\ (exists window, tracker' !! k = Some window
        /\ forall t, In t window -> now - minutes 1 < t).
Proof.
  intros Hk. cbv zeta.
  rewrite (is_rate_limited_step cfg client_ip k Hk).
  assert (Hkept : forall t, In t (RateLimiter.kept k now tracker) ->
                            now - minutes 1 < t).
  { intros t Ht. unfold RateLimiter.kept in Ht.
    apply List.filter_In in Ht as [_ Ht]. now apply Z.ltb_lt in Ht. }
  destruct (_ >=? _); cbn [snd]; split.
  - intros k' Hne. now apply lookup_insert_ne.
  - eexists. split; [apply lookup_insert_eq | exact Hkept].
  - intros k' Hne. now apply lookup_insert_ne.
  - eexists. split; [apply lookup_insert_eq|].
    intros t Ht. apply in_app_or in Ht as [Ht|[<-|[]]].
    + now apply Hkept.
    + unfold minutes. lia.
Qed.

Lemma is_rate_limited_window_fresh_witness :
  let tracker : gmap hkey (list Z) :=
    {[ HStr (lit "a") := [0; 1]; HStr (lit "b") := [2] ]} in
  snd (RateLimiter.is_rate_limited small_config (PStr (lit "a"))
         (minutes 1 + 1) tracker) !! HStr (lit "b")
  = Some [2].
Proof.
  intros tracker.
  destruct (is_rate_limited_window_fresh small_config (PStr (lit "a"))
              (HStr (lit "a")) (minutes 1 + 1) tracker eq_refl)
    as (Hother & _).
  rewrite Hother by discriminate. vm_compute. reflexivity.
Defined.

Lemma is_rate_limited_length (cfg : Config) (client_ip : pyval) (k : hkey)
    (now : Z) (tracker : gmap hkey (list Z)) (bound : Z) :
  hash_key client_ip = Ok k ->
  RATE_LIMIT_PER_MINUTE cfg <= bound ->
  len (default [] (tracker !! k)) <= bound ->
  len (default []
         (snd (RateLimiter.is_rate_limited cfg client_ip now tracker) !! k))
  <= bound.
Proof.
  intros Hk Hb Hlen.
  rewrite (is_rate_limited_step cfg client_ip k Hk).
  assert (Hkept : len (RateLimiter.kept k now tracker)
                  <= len (default [] (tracker !! k))).
  { unfold RateLimiter.kept, len.
    pose proof (List.filter_length_le
                  (fun t => now - minutes 1 <? t)
                  (default [] (tracker !! k))). lia. }
  destruct (_ >=? _) eqn:E; cbn [snd]; rewrite lookup_insert_eq;
    cbn [default from_option id].
  - lia.
  - rewrite Z.geb_leb in E. apply Z.leb_gt in E.
    unfold len in *. rewrite length_app. cbn [length]. lia.
Qed.

(** X9.  The window of a key never outgrows the threshold: started from
    a window of at most [RATE_LIMIT_PER_MINUTE] timestamps (in particular
    from a key never seen), any run of checks of that key, at any clock
    readings, leaves at most that many timestamps stored. *)
Theorem rate_window_bounded (cfg : Config) (client_ip : pyval) (k : hkey)
    (times : list Z) (tracker : gmap hkey (list Z)) :
  hash_key client_ip = Ok k ->
  0 <= RATE_LIMIT_PER_MINUTE cfg ->
  len (default [] (tracker !! k)) <= RATE_LIMIT_PER_MINUTE cfg ->
  len (default []
         (snd (RateLimiter.checks cfg client_ip times tracker) !! k))
  <= RATE_LIMIT_PER_MINUTE cfg.
Proof.
  intros Hk Hpos. revert tracker.
  induction times as [|t ts IH]; intros tracker Hlen; [exact Hlen|].
  cbn [RateLimiter.checks].
  pose proof (is_rate_limited_length cfg client_ip k t tracker
                (RATE_LIMIT_PER_MINUTE cfg) Hk (Z.le_refl _) Hlen) as H1.
  destruct (RateLimiter.is_rate_limited cfg client_ip t tracker)
    as [b tracker1].
  cbn [snd] in H1. specialize (IH tracker1 H1).
  destruct (RateLimiter.checks cfg client_ip ts tracker1) as [bs tracker2].
  exact IH.
Qed.

Lemma rate_window_bounded_witness :
  len (default []
         (snd (RateLimiter.checks small_config (PStr (lit "a"))
                 [0; 5; 7; minutes 2; minutes 2 + 1; minutes 2 + 2] ∅)
          !! HStr (lit "a")))
  <= 2.
Proof.
  apply (rate_window_bounded small_config (PStr (lit "a")) (HStr (lit "a"))).
  - reflexivity.
  - vm_compute. discriminate.
  - rewrite lookup_empty. vm_compute. discriminate.
Defined.

(** ** The enriched prompt *)

Lemma contains_app_l (sub a s : str) :
  contains sub s = true -> contains sub (a ++ s) = true.
Proof.
  intros H. induction a as [|x a IH]; [exact H|].
  cbn [app contains]. rewrite IH. apply orb_true_r.
Qed.

Lemma contains_middle (sub pre post : str) :
  contains sub (pre ++ sub ++ post) = true.
Proof.
  apply contains_app_l.
  destruct (sub ++ post) as [|x r] eqn:E.
  - destruct sub; [reflexivity | discriminate].
  - cbn [contains]. rewrite <- E, startswith_app. reflexivity.
Qed.

Lemma join_In (sep x : str) (parts : list str) :
  In x parts -> exists pre post, join sep parts = pre ++ x ++ post.
Proof.
  induction parts as [|p r IH]; intros Hin; [destruct Hin|].
  destruct Hin as [->|Hin].
  - destruct r as [|q r].
    + exists [], []. cbn. now rewrite app_nil_r.
    + exists [], (sep ++ join sep (q :: r)). reflexivity.
  - destruct (IH Hin) as (pre & post & Heq).
    destruct r as [|q r]; [destruct Hin|].
    exists (p ++ sep ++ pre), post.
    change (join sep (p :: q :: r)) with (p ++ sep ++ join sep (q :: r)).
    rewrite Heq. now rewrite <- !app_assoc.
Qed.

Lemma join_head (sep p : str) (r : list str) :
  exists post, join sep (p :: r) = p ++ post.
Proof.
  destruct r as [|q r].
  - exists []. cbn. now rewrite app_nil_r.
  - exists (sep ++ join sep (q :: r)). reflexivity.
Qed.

Lemma len_join (sep : str) (parts : list str) :
  len (join sep parts) <= len (concat parts) + len sep * len parts.
Proof.
  induction parts as [|p r IH].
  - unfold len. cbn. lia.
  - destruct r as [|q r].
    + cbn [join concat]. rewrite app_nil_r. unfold len. cbn [length]. nia.
    + change (join sep (p :: q :: r)) with (p ++ sep ++ join sep (q :: r)).
      rewrite concat_cons, !len_app.
      unfold len in *. cbn [length] in *. nia.
Qed.

Lemma len_concat_map {A} (f : A -> str) (b : Z) (l : list A) :
  (forall x, In x l -> len (f x) <= b) ->
  len (concat (map f l)) <= b * len l.
Proof.
  induction l as [|x l IH]; intros H.
  - unfold len. cbn. lia.
  - cbn [map]. rewrite concat_cons, len_app.
    specialize (H x (or_introl eq_refl)) as Hx.
    assert (IH' : len (concat (map f l)) <= b * len l).
    { apply IH. intros y Hy. apply H. now right. }
    unfold len in *. cbn [length]. nia.
Qed.

Lemma len_app_list {A} (a b : list A) : len (a ++ b) = len a + len b.
Proof. unfold len. rewrite length_app. lia. Qed.

Lemma render_exchange_length (e : Exchange) :
  len (ConversationEnhancer.render_exchange e) <= 219.
Proof.
  unfold ConversationEnhancer.render_exchange. rewrite !len_app.
  pose proof (slice_to_length 100 (ex_user e)).
  pose proof (slice_to_length 100 (ex_bot e)).
  change (len (lit "User: ")) with 6.
  change (len (lit "Assistant: ")) with 11.
  change (len NL) with 1. lia.
Qed.

Lemma slice_last_three {A} (h : list A) : len (slice_from (-3) h) <= 3.
Proof.
  unfold slice_from, len. cbn [Z.ltb Z.compare]. rewrite length_drop. lia.
Qed.

(** X10.  Without a context for the session the prompt is the user
    message itself.  With one, the prompt opens with the persona
    preamble, always contains the current message, and states the user's
    name when one is known. *)
Theorem get_enhanced_prompt_contents (session_id user_msg : str)
    (user_contexts : gmap str Context) :
  let prompt :=
    ConversationEnhancer.get_enhanced_prompt session_id user_msg
      user_contexts in
  (user_contexts !! session_id = None -> prompt = user_msg)
  /\ (forall context, user_contexts !! session_id = Some context ->
        startswith prompt
          (lit "You are a helpful and friendly AI assistant. Be conversational and engaging.")
        = true
        /\ contains (lit "Current message: " ++ user_msg) prompt = true
        /\ (forall n, user_name context = Some n -> n <> [] ->
              contains (lit "The user's name is " ++ n ++ lit ".") prompt
              = true)).
Proof.
  cbv zeta. unfold ConversationEnhancer.get_enhanced_prompt. split.
  - intros Hnone. now rewrite Hnone.
  - intros context Hc. rewrite Hc. cbv zeta.
    set (p2 := match user_name context with
               | Some n => _
               | None => _
               end).
    set (p3 := match conversation_history context with
               | [] => _
               | _ :: _ => _
               end).
    split; [|split].
    + cbn [app].
      destruct (join_head NL
        (lit "You are a helpful and friendly AI assistant. Be conversational and engaging.")
        (p2 ++ p3 ++
         [NL ++ lit "Current message: " ++ user_msg;
          NL ++ lit "Respond naturally and helpfully."])) as (post & Heq).
      rewrite Heq. apply startswith_app.
    + destruct (join_In NL (NL ++ lit "Current message: " ++ user_msg)
                  ([lit "You are a helpful and friendly AI assistant. Be conversational and engaging."]
                   ++ p2 ++ p3 ++
                   [NL ++ lit "Current message: " ++ user_msg;
                    NL ++ lit "Respond naturally and helpfully."]))
        as (pre & post & Heq).
      { rewrite !in_app_iff. do 3 right. now left. }
      rewrite Heq.
      replace (pre ++ (NL ++ lit "Current message: " ++ user_msg) ++ post)
        with ((pre ++ NL) ++ (lit "Current message: " ++ user_msg) ++ post)
        by now rewrite <- !app_assoc.
      apply contains_middle.
    + intros n Hn Hne.
      destruct (join_In NL (lit "The user's name is " ++ n ++ lit ".")
                  ([lit "You are a helpful and friendly AI assistant. Be conversational and engaging."]
                   ++ p2 ++ p3 ++
                   [NL ++ lit "Current message: " ++ user_msg;
                    NL ++ lit "Respond naturally and helpfully."]))
        as (pre & post & Heq).
      { rewrite !in_app_iff. right. left. unfold p2. rewrite Hn.
        rewrite bool_decide_eq_false_2 by assumption. now left. }
      rewrite Heq. apply contains_middle.
Qed.

Lemma get_enhanced_prompt_contents_witness :
  contains (lit "The user's name is Ada.")
    (ConversationEnhancer.get_enhanced_prompt (lit "s1") (lit "hello")
       Examples.ada_contexts) = true
  /\ ConversationEnhancer.get_enhanced_prompt (lit "s2") (lit "hello")
       Examples.ada_contexts = lit "hello".
Proof.
  destruct (get_enhanced_prompt_contents (lit "s1") (lit "hello")
              Examples.ada_contexts) as (_ & Hsome).
  destruct (get_enhanced_prompt_contents (lit "s2") (lit "hello")
              Examples.ada_contexts) as (Hnone & _).
  split.
  - assert (Hc : exists c, Examples.ada_contexts !! lit "s1" = Some c
                           /\ user_name c = Some (lit "Ada")).
    { eexists. split; vm_compute; reflexivity. }
    destruct Hc as (c & Hc & Hname).
    destruct (Hsome c Hc) as (_ & _ & Hn).
    apply (Hn (lit "Ada") Hname). discriminate.
  - apply Hnone. vm_compute. reflexivity.
Defined.

Lemma prompt_parts_length (pre a b : str) (p2 p3 : list str) :
  len (join NL ([pre] ++ p2 ++ p3 ++ [a; b]))
  <= len pre + (len (concat p2) + Z.of_nat (length p2))
     + (len (concat p3) + Z.of_nat (length p3)) + len a + len b + 3.
Proof.
  pose proof (len_join NL ([pre] ++ p2 ++ p3 ++ [a; b])) as Hj.
  rewrite !concat_app in Hj. cbn [concat] in Hj.
  rewrite !app_nil_r in Hj. rewrite !len_app in Hj.
  change (len NL) with 1 in Hj.
  unfold len in Hj at 7. rewrite !length_app in Hj. cbn [length] in Hj.
  lia.
Qed.

Lemma render_exchange_cut (e : Exchange) :
  ConversationEnhancer.render_exchange e
  = lit "User: " ++ take 100 (ex_user e) ++ NL ++
    lit "Assistant: " ++ take 100 (ex_bot e) ++ NL.
Proof. reflexivity. Qed.

Lemma join_prompt_parts (sep pre a b : str) (p2 p3 : list str) :
  (length p2 <= 1)%nat -> (length p3 <= 1)%nat ->
  join sep ([pre] ++ p2 ++ p3 ++ [a; b])
  = pre ++ concat (map (app sep) p2) ++ concat (map (app sep) p3)
    ++ sep ++ a ++ sep ++ b.
Proof.
  intros H2 H3.
  destruct p2 as [|x [|x' p2]]; [| |cbn in H2; lia];
    (destruct p3 as [|y [|y' p3]]; [| |cbn in H3; lia]);
    cbn [app join map concat]; rewrite ?app_nil_r, <- ?app_assoc;
    reflexivity.
Qed.

Lemma get_enhanced_prompt_text (session_id user_msg : str)
    (user_contexts : gmap str Context) (context : Context) :
  user_contexts !! session_id = Some context ->
  ConversationEnhancer.get_enhanced_prompt session_id user_msg user_contexts
  = lit "You are a helpful and friendly AI assistant. Be conversational and engaging."
    ++ match user_name context with
       | Some ((_ :: _) as n) =>
           NL ++ lit "The user's name is " ++ n ++ lit "."
       | _ => []
       end
    ++ match conversation_history context with
       | [] => []
       | _ :: _ =>
           NL ++ lit "Recent conversation:" ++ NL ++
           concat (map ConversationEnhancer.render_exchange
                     (Runs.last_n 3 (conversation_history context)))
       end
    ++ NL ++ NL ++ lit "Current message: " ++ user_msg
    ++ NL ++ NL ++ lit "Respond naturally and helpfully.".
Proof.
  intros Hc. unfold ConversationEnhancer.get_enhanced_prompt.
  rewrite Hc. cbv zeta.
  generalize (lit "You are a helpful and friendly AI assistant. Be conversational and engaging.").
  generalize (lit "Respond naturally and helpfully.").
  generalize (lit "Current message: ").
  generalize (lit "Recent conversation:").
  generalize (lit "The user's name is ").
  generalize (lit ".").
  generalize NL.
  intros sep dot nm rc cm rn pre.
  rewrite join_prompt_parts.
  - rewrite <- ?app_assoc. f_equal. f_equal; [|f_equal].
    + destruct (user_name context) as [[|c0 n0]|]; try reflexivity.
      rewrite bool_decide_eq_false_2 by discriminate.
      cbn [map concat]. now rewrite app_nil_r, <- ?app_assoc.
    + destruct (conversation_history context) as [|e h] eqn:Eh;
        [reflexivity|].
      rewrite (slice_from_last 3) by lia.
      cbn [map concat]. now rewrite app_nil_r, <- ?app_assoc.
  - destruct (user_name context) as [n|]; [|cbn; lia].
    case_bool_decide; cbn; lia.
  - destruct (conversation_history context); cbn; lia.
Qed.

(** X11.  With a context, the prompt is the persona preamble, the line
    with the user's name when one is known, the block of the recent
    conversation when there is one, the current message and the closing
    instruction.  The block renders the last three exchanges only, in
    order, and cuts the user text and the reply of each to their first
    100 characters; so the length of the prompt is bounded by a constant
    plus the lengths of the current message and of the known name,
    however long the conversation and its messages have been. *)
Theorem get_enhanced_prompt_length (session_id user_msg : str)
    (user_contexts : gmap str Context) (context : Context) :
  user_contexts !! session_id = Some context ->
  let prompt :=
    ConversationEnhancer.get_enhanced_prompt session_id user_msg
      user_contexts in
  let recent := Runs.last_n 3 (conversation_history context) in
  prompt
  = lit "You are a helpful and friendly AI assistant. Be conversational and engaging."
    ++ match user_name context with
       | Some ((_ :: _) as n) => NL ++ lit "The user's name is " ++ n ++ lit "."
       | _ => []
       end
    ++ match recent with
       | [] => []
       | _ :: _ =>
           NL ++ lit "Recent conversation:" ++ NL ++
           concat (map (fun e =>
                          lit "User: " ++ take 100 (ex_user e) ++ NL ++
                          lit "Assistant: " ++ take 100 (ex_bot e) ++ NL)
                     recent)
       end
    ++ NL ++ NL ++ lit "Current message: " ++ user_msg
    ++ NL ++ NL ++ lit "Respond naturally and helpfully."
  /\ (length recent <= 3)%nat
  /\ len prompt
     <= 830 + len (default [] (user_name context)) + len user_msg.
Proof.
  intros Hc. cbv zeta. split; [|split].
  - rewrite (get_enhanced_prompt_text _ _ _ _ Hc).
    do 2 f_equal.
    destruct (conversation_history context) as [|e h] eqn:Eh;
      [reflexivity|].
    destruct (Runs.last_n 3 (e :: h)) as [|e' h'] eqn:El.
    + apply (f_equal (@length Exchange)) in El.
      unfold Runs.last_n in El. rewrite length_drop in El.
      cbn [length] in El. lia.
    + rewrite (map_ext _ _ render_exchange_cut). reflexivity.
  - apply last_n_length.
  - unfold ConversationEnhancer.get_enhanced_prompt.
    rewrite Hc. cbv zeta.
    set (p2 := match user_name context with
               | Some n => _
               | None => _
               end).
    set (p3 := match conversation_history context with
               | [] => _
               | _ :: _ => _
               end).
    assert (H2 : len (concat p2) + Z.of_nat (@length str p2)
                 <= 21 + len (default [] (user_name context))).
    { unfold p2. destruct (user_name context) as [n|].
      - case_bool_decide.
        + unfold len. cbn. lia.
        + cbn [concat default from_option id]. rewrite app_nil_r, !len_app.
          change (len (lit "The user's name is ")) with 19.
          change (len (lit ".")) with 1. unfold len. cbn [length]. lia.
      - unfold len. cbn. lia. }
    assert (H3 : len (concat p3) + Z.of_nat (@length str p3) <= 679).
    { unfold p3. destruct (conversation_history context) as [|e h] eqn:Eh.
      - unfold len. cbn. lia.
      - cbn [concat]. rewrite app_nil_r, !len_app.
        change (len (lit "Recent conversation:")) with 20.
        change (len NL) with 1.
        pose proof (len_concat_map ConversationEnhancer.render_exchange 219
                      (slice_from (-3) (e :: h))
                      (fun x _ => render_exchange_length x)).
        pose proof (slice_last_three (e :: h)).
        unfold len in *. cbn [length]. nia. }
    etransitivity; [apply prompt_parts_length|].
    rewrite !len_app.
    change (len (lit "You are a helpful and friendly AI assistant. Be conversational and engaging.")) with 76.
    change (len (lit "Current message: ")) with 17.
    change (len (lit "Respond naturally and helpfully.")) with 32.
    change (len NL) with 1.
    clearbody p2 p3. lia.
Qed.

(** Five exchanges, the first four of 150 characters a side: the prompt
    shows the last three, cut to 100 characters. *)
Lemma get_enhanced_prompt_length_witness :
  let contexts :=
    Runs.update_all (lit "s1")
      [(replicate 150 97%N, replicate 150 98%N, 1);
       (replicate 150 99%N, replicate 150 100%N, 2);
       (replicate 150 101%N, replicate 150 102%N, 3);
       (replicate 150 103%N, replicate 150 104%N, 4);
       (lit "my name is Ada", lit "I understand!", 5)] ∅ in
  let prompt :=
    ConversationEnhancer.get_enhanced_prompt (lit "s1") (lit "how are you")
      contexts in
  prompt
  = lit "You are a helpful and friendly AI assistant. Be conversational and engaging."
    ++ NL ++ lit "The user's name is Ada."
    ++ NL ++ lit "Recent conversation:" ++ NL
    ++ lit "User: " ++ replicate 100 101%N ++ NL
    ++ lit "Assistant: " ++ replicate 100 102%N ++ NL
    ++ lit "User: " ++ replicate 100 103%N ++ NL
    ++ lit "Assistant: " ++ replicate 100 104%N ++ NL
    ++ lit "User: my name is Ada" ++ NL
    ++ lit "Assistant: I understand!" ++ NL
    ++ NL ++ NL ++ lit "Current message: how are you"
    ++ NL ++ NL ++ lit "Respond naturally and helpfully."
  /\ len prompt <= 830 + 3 + 11.
Proof.
  intros contexts prompt.
  assert (Hc : exists c, contexts !! lit "s1" = Some c
                         /\ user_name c = Some (lit "Ada")).
  { eexists. split; vm_compute; reflexivity. }
  destruct Hc as (c & Hc & Hname).
  destruct (get_enhanced_prompt_length (lit "s1") (lit "how are you")
              contexts c Hc) as (_ & _ & Hlen).
  split.
  - vm_compute. reflexivity.
  - rewrite Hname in Hlen. exact Hlen.
Defined.

(** ** Cleaning the query *)

Lemma rstrip_idempotent (s : str) : rstrip (rstrip s) = rstrip s.
Proof.
  induction s as [|c r IH]; [reflexivity|].
  cbn [rstrip]. destruct (rstrip r) as [|x r'] eqn:E.
  - destruct (isspace c) eqn:Ec; [reflexivity|].
    cbn [rstrip]. now rewrite Ec.
  - cbn [rstrip]. cbn [rstrip] in IH. now rewrite IH.
Qed.

Lemma rstrip_head (s : str) (c : N) (r : str) :
  rstrip s = c :: r -> exists r', s = c :: r'.
Proof.
  destruct s as [|x s']; cbn [rstrip]; [discriminate|].
  destruct (rstrip s').
  - destruct (isspace x); [discriminate|].
    intros H. apply (inj2 cons) in H as [-> _]. eauto.
  - intros H. apply (inj2 cons) in H as [-> _]. eauto.
Qed.

Lemma strip_idempotent (s : str) : strip (strip s) = strip s.
Proof.
  unfold strip.
  assert (Hl : lstrip (rstrip (lstrip s)) = rstrip (lstrip s)).
  { destruct (rstrip (lstrip s)) as [|c r] eqn:E; [reflexivity|].
    apply rstrip_head in E as (r' & E).
    pose proof (drop_while_head isspace s) as Hh.
    unfold lstrip in *. rewrite E in Hh. cbn [drop_while]. now rewrite Hh. }
  rewrite Hl. apply rstrip_idempotent.
Qed.

Lemma strip_question_stripped (words : list str) (q : str) :
  strip q = q ->
  strip (WikipediaService.strip_question words q)
  = WikipediaService.strip_question words q.
Proof.
  intros Hq. induction words as [|word rest IH]; [exact Hq|].
  cbn [WikipediaService.strip_question].
  destruct (startswith (lower q) word); [apply strip_idempotent | exact IH].
Qed.

Lemma strip_question_none (words : list str) (q : str) :
  (forall word, In word words -> startswith (lower q) word = false) ->
  WikipediaService.strip_question words q = q.
Proof.
  induction words as [|word rest IH]; intros H; [reflexivity|].
  cbn [WikipediaService.strip_question].
  rewrite (H word (or_introl eq_refl)). apply IH.
  intros w Hw. apply H. now right.
Qed.

(** X12.  The cleaned query never has white space at either end.  A
    query that, once stripped and lower-cased, begins with none of the
    six question phrases is only stripped; one that begins with "what
    is" loses exactly that phrase and the white space after it, whatever
    the case of its letters. *)
Theorem clean_query_stripped (query : str) :
  strip (WikipediaService._clean_query query)
  = WikipediaService._clean_query query
  /\ ((forall word, In word WikipediaService.question_words ->
         startswith (lower (strip query)) word = false) ->
      WikipediaService._clean_query query = strip query)
  /\ (startswith (lower (strip query)) (lit "what is") = true ->
      WikipediaService._clean_query query = strip (drop 7 (strip query))).
Proof.
  unfold WikipediaService._clean_query. split; [|split].
  - apply strip_question_stripped, strip_idempotent.
  - apply strip_question_none.
  - intros H. unfold WikipediaService.question_words.
    cbn [WikipediaService.strip_question]. now rewrite H.
Qed.

Lemma clean_query_stripped_witness :
  WikipediaService._clean_query (lit "  What IS   the Moon ? ")
  = lit "the Moon ?"
  /\ WikipediaService._clean_query (lit " moon phases ") = lit "moon phases".
Proof.
  destruct (clean_query_stripped (lit "  What IS   the Moon ? "))
    as (_ & _ & Hwhat).
  destruct (clean_query_stripped (lit " moon phases ")) as (_ & Hnone & _).
  split.
  - rewrite Hwhat; vm_compute; reflexivity.
  - rewrite Hnone; [vm_compute; reflexivity|].
    intros word Hin. vm_compute in Hin.
    repeat (destruct Hin as [<-|Hin]; [vm_compute; reflexivity|]).
    destruct Hin.
Defined.

(** ** Routing *)

Lemma fallback_source (message session_id : str)
    (user_contexts : gmap str Context) :
  source (AIService._get_fallback_response message session_id user_contexts)
  = src_fallback.
Proof.
  unfold AIService._get_fallback_response. cbv zeta.
  repeat match goal with
         | |- context [if ?c then _ else _] => destruct c
         end; reflexivity.
Qed.

(** X13.  The source tag of a reply tells which path produced it.  It is
    [wikipedia] exactly for knowledge queries, even when the message
    also contains a code keyword; [error] exactly for code requests
    without a usable provider; [gemini-code] exactly for code requests
    with one; [gemini] exactly when a general message reaches a provider
    that returns non-empty text, which is then the reply; and [fallback]
    in every remaining case. *)
Theorem get_response_sources (cfg : Config) (w : Wikipedia) (g : GenAI)
    (message session_id : str) (user_contexts : gmap str Context) :
  let r := AIService.get_response cfg w g message session_id user_contexts in
  let wiki := WikipediaService.is_wikipedia_query message in
  let code := AIService.is_code_request message in
  let off := AIService.unavailable cfg g in
  let answer :=
    generate_content g
      (ConversationEnhancer.get_enhanced_prompt session_id message
         user_contexts) in
  (source r = src_wikipedia <-> wiki = true)
  /\ (source r = src_error <-> wiki = false /\ code = true /\ off = true)
  /\ (source r = src_gemini_code <->
      wiki = false /\ code = true /\ off = false)
  /\ (source r = src_gemini <->
      wiki = false /\ code = false /\ off = false
      /\ exists c t, answer = GenText (c :: t))
  /\ (source r = src_gemini -> answer = GenText (text r))
  /\ (source r = src_fallback ->
      r = AIService._get_fallback_response message session_id user_contexts).
Proof.
  cbv zeta. unfold AIService.get_response,
    AIService._get_gemini_code_response, AIService._get_gemini_response.
  pose proof (fallback_source message session_id user_contexts) as Hf.
  destruct (WikipediaService.is_wikipedia_query message);
    [cbn [source]; intuition (try discriminate; auto)|].
  destruct (AIService.is_code_request message).
  - destruct (AIService.unavailable cfg g); cbn [source];
      intuition (try discriminate; auto); firstorder discriminate.
  - destruct (AIService.unavailable cfg g).
    + rewrite Hf. intuition (try discriminate; auto);
        firstorder discriminate.
    + destruct (generate_content g _) as [| | |[|c t]];
        rewrite ?Hf; cbn [source text];
        intuition (try discriminate; eauto);
        match goal with
        | H : exists _ _, _ |- _ => destruct H as (? & ? & ?); discriminate
        end.
Qed.

Lemma get_response_sources_witness :
  source (AIService.get_response (default_config []) Examples.stub_wikipedia
            Examples.no_genai (lit "explain this python code") (lit "s1") ∅)
  = src_wikipedia.
Proof.
  destruct (get_response_sources (default_config []) Examples.stub_wikipedia
              Examples.no_genai (lit "explain this python code")
              (lit "s1") ∅) as ([_ Hwiki] & _).
  apply Hwiki. vm_compute. reflexivity.
Defined.

(** ** Replies are never empty *)

Lemma suggestions_nonempty (w : Wikipedia) (query : str) :
  WikipediaService._get_search_suggestions w query <> [].
Proof.
  unfold WikipediaService._get_search_suggestions.
  destruct (search w query) as [[|r rs]|]; intros H;
    vm_compute in H; discriminate.
Qed.

Lemma disambiguation_nonempty (w : Wikipedia) (query : str)
    (options : list str) :
  WikipediaService._handle_disambiguation w query options <> [].
Proof.
  unfold WikipediaService._handle_disambiguation. intros H.
  rewrite concat_cons in H. apply app_eq_nil in H as [H _].
  vm_compute in H. discriminate.
Qed.

Lemma search_wikipedia_nonempty (w : Wikipedia) (query : str) :
  WikipediaService.search_wikipedia w query <> [].
Proof.
  unfold WikipediaService.search_wikipedia. cbv zeta.
  destruct (WikipediaService._get_comprehensive_content w _) as [r|].
  - case_bool_decide; [apply suggestions_nonempty | assumption].
  - apply suggestions_nonempty.
Qed.

Lemma fallback_nonempty (message session_id : str)
    (user_contexts : gmap str Context) :
  text (AIService._get_fallback_response message session_id user_contexts)
  <> [].
Proof.
  unfold AIService._get_fallback_response. cbv zeta.
  repeat match goal with
         | |- context [if ?c then _ else _] => destruct c
         end; cbn [text]; intros H;
    apply (f_equal (fun l => match l with [] => true | _ :: _ => false end))
      in H; vm_compute in H; discriminate.
Qed.

(** X14.  Whatever the message, the stored context and the behaviour of
    the two providers, the router's reply text is never empty. *)
Theorem get_response_never_empty (cfg : Config) (w : Wikipedia) (g : GenAI)
    (message session_id : str) (user_contexts : gmap str Context) :
  text (AIService.get_response cfg w g message session_id user_contexts)
  <> [].
Proof.
  unfold AIService.get_response.
  destruct (WikipediaService.is_wikipedia_query message).
  - cbn [text]. apply search_wikipedia_nonempty.
  - destruct (AIService.is_code_request message).
    + unfold AIService._get_gemini_code_response.
      destruct (AIService.unavailable cfg g); cbn [text]; intros H;
        apply (f_equal (fun l => match l with [] => true | _ => false end))
          in H; vm_compute in H; discriminate.
    + unfold AIService._get_gemini_response.
      destruct (AIService.unavailable cfg g);
        [apply fallback_nonempty|].
      destruct (generate_content g _) as [| | |[|c t]];
        try apply fallback_nonempty.
      cbn [text]. discriminate.
Qed.

(** ** Ambiguous and missing titles *)

(** X15.  A title the provider does not know is answered by the search
    suggestions.  An ambiguous title whose first candidate cannot be
    fetched (or that comes without candidates) is answered by the
    disambiguation listing, in which only the first five candidates
    count: two candidate lists that agree on their first five give the
    same reply. *)
Theorem search_wikipedia_degrades (w : Wikipedia) (query : str) :
  let clean_query := WikipediaService._clean_query query in
  (page w clean_query = PageError ->
   WikipediaService.search_wikipedia w query
   = WikipediaService._get_search_suggestions w clean_query)
  /\ (forall options,
        page w clean_query = DisambiguationError options ->
        (forall first rest p,
            options = first :: rest -> page w first <> PageFound p) ->
        WikipediaService.search_wikipedia w query
        = WikipediaService._handle_disambiguation w clean_query options)
  /\ (forall q options options',
        take 5 options' = take 5 options ->
        WikipediaService._handle_disambiguation w q options'
        = WikipediaService._handle_disambiguation w q options).
Proof.
  cbv zeta. split; [|split].
  - intros Hp. unfold WikipediaService.search_wikipedia,
      WikipediaService._get_comprehensive_content. cbv zeta.
    now rewrite Hp.
  - intros options Hd Hfirst.
    assert (Hsame : WikipediaService._handle_disambiguation w
                      (WikipediaService._clean_query query) (take 5 options)
                    = WikipediaService._handle_disambiguation w
                        (WikipediaService._clean_query query) options).
    { unfold WikipediaService._handle_disambiguation.
      now rewrite take_take. }
    unfold WikipediaService.search_wikipedia,
      WikipediaService._get_comprehensive_content. cbv zeta.
    rewrite Hd.
    destruct options as [|first rest].
    + rewrite bool_decide_eq_false_2
        by apply disambiguation_nonempty. exact Hsame.
    + destruct (page w first) as [p| |] eqn:Ep.
      * exfalso. exact (Hfirst first rest p eq_refl Ep).
      * rewrite bool_decide_eq_false_2
          by apply disambiguation_nonempty. exact Hsame.
      * rewrite bool_decide_eq_false_2
          by apply disambiguation_nonempty. exact Hsame.
  - intros q options options' Htake.
    unfold WikipediaService._handle_disambiguation. now rewrite Htake.
Qed.

Lemma search_wikipedia_degrades_witness :
  WikipediaService.search_wikipedia MoreExamples.ambiguous_wikipedia
    (lit "tell me about mercury")
  = lit "🔍 I found multiple topics for 'mercury'. Here are the main ones:"
    ++ NL ++ NL
    ++ lit "**1. Mercury (planet)**" ++ NL ++ NL
    ++ lit "**2. Mercury (element)**" ++ NL ++ NL
    ++ lit "**3. Mercury (mythology)**" ++ NL ++ NL
    ++ lit "**4. Mercury Records**" ++ NL ++ NL
    ++ lit "**5. Mercury (programming language)**" ++ NL ++ NL
    ++ lit "💡 Please be more specific!"
  /\ WikipediaService.search_wikipedia MoreExamples.ambiguous_wikipedia
       (lit "venus")
     = lit "I couldn't find any Wikipedia articles about 'venus'.".
Proof.
  destruct (search_wikipedia_degrades MoreExamples.ambiguous_wikipedia
              (lit "tell me about mercury")) as (_ & Hamb & _).
  destruct (search_wikipedia_degrades MoreExamples.ambiguous_wikipedia
              (lit "venus")) as (Hmiss & _).
  split.
  - rewrite (Hamb MoreExamples.mercury_options).
    + vm_compute. reflexivity.
    + vm_compute. reflexivity.
    + intros first rest p Ho. apply (inj2 cons) in Ho as [<- _].
      vm_compute. discriminate.
  - rewrite Hmiss; vm_compute; reflexivity.
Defined.

(** ** Recognising knowledge queries *)

Lemma bounded_search_contains (phrases : list str) (s : str) :
  forall prev,
    WikipediaService.bounded_search phrases prev s = true ->
    exists p, In p phrases /\ contains p s = true.
Proof.
  induction s as [|c r IH]; intros prev H.
  - cbn [WikipediaService.bounded_search] in H.
    rewrite orb_false_r in H.
    apply andb_true_iff in H as [_ H].
    apply existsb_exists in H as (p & Hp & Hs).
    apply andb_true_iff in Hs as [Hs _].
    exists p. split; [exact Hp|]. cbn [contains]. now rewrite Hs.
  - cbn [WikipediaService.bounded_search] in H.
    apply orb_true_iff in H as [H|H].
    + apply andb_true_iff in H as [_ H].
      apply existsb_exists in H as (p & Hp & Hs).
      apply andb_true_iff in Hs as [Hs _].
      exists p. split; [exact Hp|]. cbn [contains]. now rewrite Hs.
    + destruct (IH _ H) as (p & Hp & Hc).
      exists p. split; [exact Hp|]. cbn [contains]. rewrite Hc.
      apply orb_true_r.
Qed.

Lemma bounded_search_unfold (phrases : list str) (prev : bool) (s : str) :
  WikipediaService.bounded_search phrases prev s
  = (negb prev &&
     existsb (fun p => startswith s p
                       && WikipediaService.boundary_after
                            (drop (length p) s))
             phrases)
    || match s with
       | [] => false
       | c :: r => WikipediaService.bounded_search phrases (is_word c) r
       end.
Proof. destruct s; reflexivity. Qed.

(** [\b(p1|p2|...)\b] finds a match exactly when one of the phrases
    occurs with no word character directly before it and none directly
    after it. *)
Lemma bounded_search_spec (phrases : list str) (s : str) (prev : bool) :
  WikipediaService.bounded_search phrases prev s = true <->
  exists p pre post,
    In p phrases /\ s = pre ++ p ++ post
    /\ match last pre with
       | None => prev = false
       | Some c => is_word c = false
       end
    /\ match post with [] => True | c :: _ => is_word c = false end.
Proof.
  split.
  - revert prev. induction s as [|c r IH]; intros prev H;
      rewrite bounded_search_unfold in H;
      apply orb_true_iff in H as [H|H]; try discriminate H.
    + apply andb_true_iff in H as [Hprev H].
      apply existsb_exists in H as (p & Hp & Hs).
      apply andb_true_iff in Hs as [Hs Hb].
      exists p, [], (drop (length p) []).
      split; [exact Hp|]. split; [now apply startswith_prefix|].
      split; [now destruct prev|].
      unfold WikipediaService.boundary_after in Hb.
      destruct (drop (length p) []); [exact I | now apply negb_true_iff].
    + apply andb_true_iff in H as [Hprev H].
      apply existsb_exists in H as (p & Hp & Hs).
      apply andb_true_iff in Hs as [Hs Hb].
      exists p, [], (drop (length p) (c :: r)).
      split; [exact Hp|]. split; [now apply startswith_prefix|].
      split; [now destruct prev|].
      unfold WikipediaService.boundary_after in Hb.
      destruct (drop (length p) (c :: r));
        [exact I | now apply negb_true_iff].
    + destruct (IH _ H) as (p & pre & post & Hp & -> & Hbefore & Hafter).
      exists p, (c :: pre), post.
      split; [exact Hp|]. split; [reflexivity|]. split; [|exact Hafter].
      destruct pre as [|x pre]; [exact Hbefore|].
      rewrite last_cons_cons.
      destruct (last (x :: pre)) eqn:E; [exact Hbefore|].
      apply last_None in E. discriminate E.
  - intros (p & pre & post & Hp & -> & Hbefore & Hafter).
    revert prev Hbefore. induction pre as [|c pre IH]; intros prev Hbefore.
    + rewrite bounded_search_unfold. apply orb_true_iff. left.
      cbn in Hbefore. subst prev. cbn [negb andb app].
      apply existsb_exists. exists p. split; [exact Hp|].
      rewrite startswith_app, drop_app_length. cbn [andb].
      unfold WikipediaService.boundary_after.
      destruct post; [reflexivity | now apply negb_true_iff].
    + rewrite bounded_search_unfold. apply orb_true_iff. right.
      cbn [app]. apply IH.
      destruct pre as [|x pre]; [exact Hbefore|].
      rewrite last_cons_cons in Hbefore.
      destruct (last (x :: pre)) eqn:E; [exact Hbefore|].
      apply last_None in E. discriminate E.
Qed.

Lemma get_response_wikipedia (cfg : Config) (w : Wikipedia) (g : GenAI)
    (message session_id : str) (user_contexts : gmap str Context) :
  WikipediaService.is_wikipedia_query message = false ->
  source (AIService.get_response cfg w g message session_id user_contexts)
  <> src_wikipedia.
Proof.
  intros Hq. unfold AIService.get_response,
    AIService._get_gemini_code_response, AIService._get_gemini_response.
  rewrite Hq.
  pose proof (fallback_source message session_id user_contexts) as Hf.
  destruct (AIService.is_code_request message).
  - destruct (AIService.unavailable cfg g); cbn [source]; discriminate.
  - destruct (AIService.unavailable cfg g).
    + rewrite Hf. discriminate.
    + destruct (generate_content g _) as [| | |[|c t]];
        rewrite ?Hf; cbn [source]; discriminate.
Qed.

(** X16.  A message is treated as a knowledge query exactly when its
    lower-cased text contains one of the nine trigger phrases as whole
    words: with no word character directly before the phrase and none
    directly after it.  In particular it then contains the phrase, and a
    message whose lower-cased text contains none of the nine phrases is
    never answered from Wikipedia, whatever the providers and the
    session. *)
Theorem is_wikipedia_query_sound (message : str) :
  (WikipediaService.is_wikipedia_query message = true <->
   exists p pre post,
     In p (concat WikipediaService.wiki_patterns)
     /\ lower message = pre ++ p ++ post
     /\ match last pre with None => True | Some c => is_word c = false end
     /\ match post with [] => True | c :: _ => is_word c = false end)
  /\ (WikipediaService.is_wikipedia_query message = true ->
      exists p,
        In p (concat WikipediaService.wiki_patterns)
        /\ contains p (lower message) = true)
  /\ ((forall p, In p (concat WikipediaService.wiki_patterns) ->
         contains p (lower message) = false) ->
      forall cfg w g session_id user_contexts,
        source (AIService.get_response cfg w g message session_id
                  user_contexts)
        <> src_wikipedia).
Proof.
  assert (Hiff : WikipediaService.is_wikipedia_query message = true <->
    exists p pre post,
      In p (concat WikipediaService.wiki_patterns)
      /\ lower message = pre ++ p ++ post
      /\ match last pre with None => True | Some c => is_word c = false end
      /\ match post with [] => True | c :: _ => is_word c = false end).
  { unfold WikipediaService.is_wikipedia_query. split.
    - intros H. apply existsb_exists in H as (pattern & Hin & Hs).
      apply bounded_search_spec in Hs
        as (p & pre & post & Hp & Heq & Hbefore & Hafter).
      exists p, pre, post. split.
      + apply in_concat. exists pattern. split; assumption.
      + split; [exact Heq|]. split; [|exact Hafter].
        destruct (last pre); [exact Hbefore | exact I].
    - intros (p & pre & post & Hp & Heq & Hbefore & Hafter).
      apply in_concat in Hp as (pattern & Hin & Hp).
      apply existsb_exists. exists pattern. split; [exact Hin|].
      apply bounded_search_spec. exists p, pre, post.
      split; [exact Hp|]. split; [exact Heq|]. split; [|exact Hafter].
      destruct (last pre); [exact Hbefore | reflexivity]. }
  assert (Hsound : WikipediaService.is_wikipedia_query message = true ->
    exists p, In p (concat WikipediaService.wiki_patterns)
              /\ contains p (lower message) = true).
  { intros H. apply Hiff in H as (p & pre & post & Hp & Heq & _).
    exists p. split; [exact Hp|]. rewrite Heq. apply contains_middle. }
  split; [exact Hiff|]. split; [exact Hsound|].
  intros Hnone cfg w g session_id user_contexts.
  apply get_response_wikipedia.
  destruct (WikipediaService.is_wikipedia_query message) eqn:E;
    [|reflexivity].
  destruct (Hsound eq_refl) as (p & Hp & Hc).
  rewrite (Hnone p Hp) in Hc. discriminate.
Qed.

(** "Who is Ada Lovelace?" contains "who is"; "how are you" contains
    none of the nine phrases and is not answered from Wikipedia. *)
Lemma is_wikipedia_query_sound_witness :
  (exists p,
     In p (concat WikipediaService.wiki_patterns)
     /\ contains p (lower (lit "Who is Ada Lovelace?")) = true)
  /\ source (AIService.get_response (default_config []) Examples.stub_wikipedia
               Examples.no_genai (lit "how are you") (lit "s1") ∅)
     <> src_wikipedia.
Proof.
  split.
  - apply (is_wikipedia_query_sound (lit "Who is Ada Lovelace?")).
    vm_compute. reflexivity.
  - apply (is_wikipedia_query_sound (lit "how are you")).
    intros p Hp. vm_compute in Hp.
    repeat (destruct Hp as [<-|Hp]; [vm_compute; reflexivity|]).
    destruct Hp.
Defined.

(** The word classes are those of Unicode: the Kelvin sign lowers to
    "k", so "WIKIPEDIA" spelt with it is a trigger; "é" and the
    ideographs are word characters, so "explain" glued to them is not a
    whole word. *)
Example is_wikipedia_query_unicode :
  WikipediaService.is_wikipedia_query
    (lit "WI" ++ [8490%N] ++ lit "IPEDIA on owls") = true
  /\ WikipediaService.is_wikipedia_query (lit "éexplain this") = false
  /\ WikipediaService.is_wikipedia_query (lit "请explain这段python code")
     = false
  /\ WikipediaService.is_wikipedia_query (lit "please explain this") = true.
Proof.
  split; [|split; [|split]]; vm_compute; reflexivity.
Qed.

(** ** The chat route *)

Lemma valid_session_is_string (cfg : Config) (sid : pyval) (now : Z)
    (sessions : gmap str Session) :
  SessionManager.is_valid_session cfg sid now sessions = true ->
  truthy sid = true
  /\ exists s d, sid = PStr s /\ s <> [] /\ sessions !! s = Some d.
Proof.
  intros H.
  apply is_valid_session_true in H as (s & d & c & -> & Hs & Hd & _).
  split; [|eauto 6].
  cbn. now rewrite bool_decide_eq_false_2.
Qed.

(** What a successful request has gone through. *)
Lemma chat_ok_inv (cfg : Config) (env : ChatEnv) (rq : ChatRequest)
    (st st' : Stores) (resp sid : str) (ts : Z) (rt : str) (src : Source)
    (em : str) :
  ChatRoute.chat cfg env rq st = (ReplyOk resp sid ts rt src em, st') ->
  exists m sidf im,
    rq_options rq = false
    /\ fst (RateLimiter.is_rate_limited cfg (ChatRoute.client_ip_of rq)
              (t_rate env) (st_tracker st)) = false
    /\ rq_json rq = JsonObject (Some (PStr m)) sidf im
    /\ strip m <> []
    /\ len (strip m) <= MAX_MESSAGE_LENGTH cfg
    /\ let rs :=
         ChatRoute.resolve_session cfg env (ChatRoute.client_ip_of rq)
           (default (PStr []) sidf) (st_sessions st) (st_contexts st) in
       let response_data :=
         AIService.get_response cfg (env_wikipedia env) (env_genai env)
           (strip m) rs.1.1 rs.2 in
       sid = rs.1.1
       /\ resp = text response_data
       /\ src = source response_data
       /\ st' =
          {| st_history :=
               snd (HistoryManager.add_conversation cfg
                      {| c_uuid := uuid_entry env;
                         c_now := t_history env;
                         c_user_msg := strip m;
                         c_bot_reply := resp;
                         c_session_id := sid;
                         c_input_method := default (lit "text") im;
                         c_response_time := elapsed_text env |}
                      (st_history st));
             st_sessions := rs.1.2;
             st_tracker :=
               snd (RateLimiter.is_rate_limited cfg
                      (ChatRoute.client_ip_of rq) (t_rate env)
                      (st_tracker st));
             st_contexts :=
               ConversationEnhancer.update_context sid (strip m) resp
                 (t_context env) rs.2 |}.
Proof.
  unfold ChatRoute.chat.
  destruct (rq_options rq); [discriminate|].
  destruct (RateLimiter.is_rate_limited cfg (ChatRoute.client_ip_of rq)
              (t_rate env) (st_tracker st)) as [limited tracker].
  destruct limited; [discriminate|].
  destruct (rq_json rq) as [| |mf sidf im]; try discriminate.
  destruct mf as [[|m|n|l]|]; cbn [default from_option id];
    try discriminate.
  case_bool_decide as He; [discriminate|].
    destruct (len (strip m) >? MAX_MESSAGE_LENGTH cfg) eqn:Hlen;
      [discriminate|].
    cbn [ChatRoute.with_tracker st_sessions st_contexts st_history].
    destruct (ChatRoute.resolve_session cfg env (ChatRoute.client_ip_of rq)
                (default (PStr []) sidf) (st_sessions st) (st_contexts st))
      as [[sid0 sessions] contexts] eqn:Hrs.
    unfold HistoryManager.add_conversation. cbv zeta.
    intros H. apply pair_equal_spec in H as [Hreply Hst].
    assert (Hsid : sid = sid0)
      by (apply (f_equal (fun r => match r with
                                   | ReplyOk _ s _ _ _ _ => s
                                   | _ => []
                                   end)) in Hreply; now symmetry).
    assert (Hresp : resp = text (AIService.get_response cfg
                      (env_wikipedia env) (env_genai env) (strip m) sid0
                      contexts))
      by (apply (f_equal (fun r => match r with
                                   | ReplyOk x _ _ _ _ _ => x
                                   | _ => []
                                   end)) in Hreply; now symmetry).
    assert (Hsrc : src = source (AIService.get_response cfg
                      (env_wikipedia env) (env_genai env) (strip m) sid0
                      contexts))
      by (apply (f_equal (fun r => match r with
                                   | ReplyOk _ _ _ _ x _ => x
                                   | _ => src_error
                                   end)) in Hreply; now symmetry).
    exists m, sidf, im.
    split; [reflexivity|]. split; [reflexivity|]. split; [reflexivity|].
    split; [assumption|]. split.
    { rewrite Z.gtb_ltb in Hlen. now apply Z.ltb_ge in Hlen. }
    cbv zeta. rewrite ?Hrs. cbn [fst snd].
    split; [exact Hsid|]. split; [exact Hresp|]. split; [exact Hsrc|].
    clear Hreply Hsrc. subst sid resp. rewrite <- Hst. reflexivity.
Qed.

Lemma client_ip_hashable (rq : ChatRequest) :
  exists k, hash_key (ChatRoute.client_ip_of rq) = Ok k.
Proof.
  unfold ChatRoute.client_ip_of.
  destruct (match rq_forwarded_for rq with
            | Some h => Some h
            | None => rq_remote_addr rq
            end) as [ip|]; [|now exists HNone].
  destruct (_ && _); eexists; reflexivity.
Qed.

Lemma is_rate_limited_other_keys (cfg : Config) (client_ip : pyval)
    (k : hkey) (now : Z) (tracker : gmap hkey (list Z)) :
  hash_key client_ip = Ok k ->
  forall k', k' <> k ->
    snd (RateLimiter.is_rate_limited cfg client_ip now tracker) !! k'
    = tracker !! k'.
Proof.
  intros Hk k' Hne. rewrite (is_rate_limited_step cfg client_ip k Hk).
  destruct (_ >=? _); cbn [snd]; now apply lookup_insert_ne.
Qed.

(** X17.  A chat request that is not answered with the success object
    (pre-flight, rate-limited, missing or malformed body, empty or
    over-long message) leaves the history, the sessions and the contexts
    exactly as they were.  A pre-flight request changes nothing at all;
    after any other refused request the rate windows are those the
    admission check of the client's address left, so only the window of
    that address can have changed and the windows of all other keys are
    as before. *)
Theorem chat_failure_changes_nothing (cfg : Config) (env : ChatEnv)
    (rq : ChatRequest) (st st' : Stores) (reply : ChatReply) :
  ChatRoute.chat cfg env rq st = (reply, st') ->
  (reply = ReplyOptions \/ exists status error, reply = ReplyError status error) ->
  st_history st' = st_history st
  /\ st_sessions st' = st_sessions st
  /\ st_contexts st' = st_contexts st
  /\ (reply = ReplyOptions -> st' = st)
  /\ (reply <> ReplyOptions ->
      st_tracker st'
      = snd (RateLimiter.is_rate_limited cfg (ChatRoute.client_ip_of rq)
               (t_rate env) (st_tracker st)))
  /\ (exists k,
        hash_key (ChatRoute.client_ip_of rq) = Ok k
        /\ forall k', k' <> k -> st_tracker st' !! k' = st_tracker st !! k').
Proof.
  unfold ChatRoute.chat. intros H Hreply.
  destruct (client_ip_hashable rq) as (k & Hk).
  destruct (rq_options rq).
  { apply pair_equal_spec in H as [<- <-].
    split; [reflexivity|]. split; [reflexivity|]. split; [reflexivity|].
    split; [reflexivity|]. split; [congruence|].
    exists k. split; [exact Hk | reflexivity]. }
  pose proof (is_rate_limited_other_keys cfg _ k (t_rate env) (st_tracker st)
                Hk) as Hother.
  destruct (RateLimiter.is_rate_limited cfg (ChatRoute.client_ip_of rq)
              (t_rate env) (st_tracker st)) as [limited tracker].
  cbn [snd] in Hother.
  assert (Hno : forall r s, (ReplyError r s, ChatRoute.with_tracker st tracker)
                            = (reply, st') ->
            st_history st' = st_history st /\ st_sessions st' = st_sessions st
            /\ st_contexts st' = st_contexts st
            /\ (reply = ReplyOptions -> st' = st)
            /\ (reply <> ReplyOptions -> st_tracker st' = tracker)
            /\ (exists k,
                  hash_key (ChatRoute.client_ip_of rq) = Ok k
                  /\ forall k', k' <> k ->
                       st_tracker st' !! k' = st_tracker st !! k')).
  { intros r s Heq. apply pair_equal_spec in Heq as [<- <-].
    split; [reflexivity|]. split; [reflexivity|]. split; [reflexivity|].
    split; [discriminate|]. split; [reflexivity|].
    exists k. split; [exact Hk | exact Hother]. }
  destruct limited; [now apply Hno in H|].
  destruct (rq_json rq) as [| |mf sidf im]; try (now apply Hno in H).
  destruct (default (PStr []) mf) as [|m|n|l]; try (now apply Hno in H).
  case_bool_decide; [now apply Hno in H|].
  destruct (len (strip m) >? MAX_MESSAGE_LENGTH cfg); [now apply Hno in H|].
  destruct (ChatRoute.resolve_session _ _ _ _ _ _) as [[sid0 sessions] contexts].
  destruct (HistoryManager.add_conversation _ _ _) as [e history].
  apply pair_equal_spec in H as [<- _].
  destruct Hreply as [Hr|(status & error & Hr)]; discriminate Hr.
Qed.

(** A blank message from 10.0.0.1 is refused: nothing is stored, and the
    only trace is the time of the request in the window of 10.0.0.1. *)
Lemma chat_failure_changes_nothing_witness :
  let r := ChatRoute.chat (default_config []) MoreExamples.env0
             MoreExamples.blank_request MoreExamples.empty_stores in
  fst r = ReplyError 400 (lit "Message cannot be empty")
  /\ st_sessions (snd r) = ∅ /\ st_history (snd r) = []
  /\ st_tracker (snd r)
     = snd (RateLimiter.is_rate_limited (default_config [])
              (ChatRoute.client_ip_of MoreExamples.blank_request)
              (t_rate MoreExamples.env0) ∅).
Proof.
  intros r.
  assert (Hf : fst r = ReplyError 400 (lit "Message cannot be empty"))
    by (vm_compute; reflexivity).
  pose proof (surjective_pairing r) as H. rewrite Hf in H.
  destruct (chat_failure_changes_nothing _ _ _ _ _ _ H)
    as (Hh & Hs & _ & _ & Ht & _).
  - right. eauto.
  - split; [exact Hf|]. split; [exact Hs|]. split; [exact Hh|].
    apply Ht. discriminate.
Defined.

Lemma resolve_session_valid (cfg : Config) (env : ChatEnv) (ip v : pyval)
    (sessions : gmap str Session) (contexts : gmap str Context) :
  SessionManager.is_valid_session cfg v (t_valid env) sessions = true ->
  exists s d,
    v = PStr s /\ s <> [] /\ sessions !! s = Some d
    /\ ChatRoute.resolve_session cfg env ip v sessions contexts
       = (s,
          <[s := {| created := created d; last_activity := t_session env;
                    user_ip := user_ip d;
                    message_count := message_count d + 1 |}]> sessions,
          contexts).
Proof.
  intros Hv.
  destruct (valid_session_is_string _ _ _ _ Hv) as (Ht & s & d & -> & Hs & Hd).
  exists s, d. split; [reflexivity|]. split; [assumption|].
  split; [assumption|].
  unfold ChatRoute.resolve_session. cbv zeta. rewrite Hv, Ht. cbn [negb orb].
  unfold SessionManager.update_session. now rewrite Hd.
Qed.

Lemma resolve_session_invalid (cfg : Config) (env : ChatEnv) (ip v : pyval)
    (sessions : gmap str Session) (contexts : gmap str Context) :
  SessionManager.is_valid_session cfg v (t_valid env) sessions = false ->
  ChatRoute.resolve_session cfg env ip v sessions contexts
  = SessionManager.create_session (uuid_session env) (t_session env) ip
      sessions contexts.
Proof.
  intros Hv. unfold ChatRoute.resolve_session. cbv zeta. rewrite Hv.
  cbn [negb]. rewrite orb_true_r. now destruct v.
Qed.

Lemma last_last_n {A} (n : nat) (l : list A) (x : A) :
  (1 <= n)%nat -> last (Runs.last_n n (l ++ [x])) = Some x.
Proof.
  intros Hn. unfold Runs.last_n.
  rewrite last_lookup, length_drop, lookup_drop, length_app. cbn [length].
  replace (length l + 1 - n + Init.Nat.pred (length l + 1 - (length l + 1 - n)))%nat
    with (length l) by lia.
  rewrite lookup_app_r by lia. now rewrite Nat.sub_diag.
Qed.

Lemma add_conversation_last (cfg : Config) (c : HistoryCall)
    (history : list HistoryEntry) :
  1 <= MAX_HISTORY_ENTRIES cfg ->
  last (snd (HistoryManager.add_conversation cfg c history))
  = Some (HistoryManager.make_entry c).
Proof.
  intros Hcap. unfold HistoryManager.add_conversation. cbv zeta. cbn [snd].
  destruct (_ >? _) eqn:E; [|apply last_snoc].
  apply Z.gtb_lt in E. unfold len in E. rewrite length_app in E.
  cbn [length] in E.
  destruct history as [|e h]; [cbn in E; lia|].
  cbn [app HistoryManager.pop0 tail]. apply last_snoc.
Qed.

(** X18.  The success object is only ever given for a request that was
    admitted by the rate limiter and whose message is a string that,
    stripped, is neither empty nor longer than [MAX_MESSAGE_LENGTH]; and
    the reply text it carries is never empty. *)
Theorem chat_ok_requires_message (cfg : Config) (env : ChatEnv)
    (rq : ChatRequest) (st st' : Stores) (resp sid : str) (ts : Z)
    (rt : str) (src : Source) (em : str) :
  ChatRoute.chat cfg env rq st = (ReplyOk resp sid ts rt src em, st') ->
  (exists m sidf im,
      rq_json rq = JsonObject (Some (PStr m)) sidf im
      /\ strip m <> []
      /\ len (strip m) <= MAX_MESSAGE_LENGTH cfg)
  /\ fst (RateLimiter.is_rate_limited cfg (ChatRoute.client_ip_of rq)
            (t_rate env) (st_tracker st)) = false
  /\ resp <> [].
Proof.
  intros H. apply chat_ok_inv in H
    as (m & sidf & im & _ & Hrate & Hjson & Hne & Hlen & Hrest).
  cbv zeta in Hrest. destruct Hrest as (_ & Hresp & _).
  split; [eauto 7|]. split; [exact Hrate|].
  rewrite Hresp. apply get_response_never_empty.
Qed.

Lemma chat_ok_requires_message_witness :
  let r := ChatRoute.chat (default_config []) MoreExamples.env0
             MoreExamples.hello_request MoreExamples.empty_stores in
  fst r = MoreExamples.hello_reply
  /\ fst (RateLimiter.is_rate_limited (default_config [])
            (ChatRoute.client_ip_of MoreExamples.hello_request) 1000 ∅)
     = false.
Proof.
  intros r.
  assert (Hf : fst r = MoreExamples.hello_reply) by (vm_compute; reflexivity).
  pose proof (surjective_pairing r) as H. rewrite Hf in H.
  split; [exact Hf|].
  now destruct (chat_ok_requires_message _ _ _ _ _ _ _ _ _ _ _ H)
    as (_ & Hrate & _).
Defined.

(** X19.  A successful request is recorded once in each store: with a
    history capacity of at least one, the newest history entry carries
    the stripped message, the stripped reply and the session id of the
    answer; and the context of that session ends with the exchange of
    the same message and the reply as sent. *)
Theorem chat_ok_records_exchange (cfg : Config) (env : ChatEnv)
    (rq : ChatRequest) (st st' : Stores) (resp sid : str) (ts : Z)
    (rt : str) (src : Source) (em : str) :
  ChatRoute.chat cfg env rq st = (ReplyOk resp sid ts rt src em, st') ->
  1 <= MAX_HISTORY_ENTRIES cfg ->
  exists m sidf im entry context exchange,
    rq_json rq = JsonObject (Some (PStr m)) sidf im
    /\ last (st_history st') = Some entry
    /\ h_user entry = strip m
    /\ h_bot entry = strip resp
    /\ h_session_id entry = sid
    /\ h_id entry = uuid_entry env
    /\ st_contexts st' !! sid = Some context
    /\ last (conversation_history context) = Some exchange
    /\ ex_user exchange = strip m
    /\ ex_bot exchange = resp.
Proof.
  intros H Hcap. apply chat_ok_inv in H
    as (m & sidf & im & _ & _ & Hjson & _ & _ & Hrest).
  cbv zeta in Hrest. destruct Hrest as (_ & _ & _ & ->).
  cbn [st_history st_contexts].
  rewrite add_conversation_last by assumption.
  rewrite update_context_lookup. cbv zeta.
  do 6 eexists. split; [exact Hjson|]. split; [reflexivity|].
  cbn [HistoryManager.make_entry h_user h_bot h_session_id h_id c_user_msg
       c_bot_reply c_session_id c_uuid].
  split; [apply strip_idempotent|]. split; [reflexivity|].
  split; [reflexivity|]. split; [reflexivity|]. split; [reflexivity|].
  cbn [conversation_history]. split.
  - apply last_last_n. lia.
  - split; reflexivity.
Qed.

Lemma chat_ok_records_exchange_witness :
  let r := ChatRoute.chat (default_config []) MoreExamples.env0
             MoreExamples.hello_request MoreExamples.empty_stores in
  exists entry,
    last (st_history (snd r)) = Some entry
    /\ h_user entry = lit "hello there"
    /\ h_session_id entry = uuid_session MoreExamples.env0.
Proof.
  intros r.
  assert (Hf : fst r = MoreExamples.hello_reply) by (vm_compute; reflexivity).
  pose proof (surjective_pairing r) as H. rewrite Hf in H.
  destruct (chat_ok_records_exchange _ _ _ _ _ _ _ _ _ _ _ H)
    as (m & sidf & im & entry & context & exchange
        & Hjson & Hlast & Huser & _ & Hsid & _).
  - vm_compute. discriminate.
  - exists entry. split; [exact Hlast|]. split; [|exact Hsid].
    rewrite Huser.
    apply (f_equal (fun b => match b with
                             | JsonObject (Some (PStr x)) _ _ => x
                             | _ => []
                             end)) in Hjson.
    cbn [MoreExamples.hello_request rq_json] in Hjson.
    rewrite <- Hjson. vm_compute. reflexivity.
Defined.

(** X20.  The session id of the answer is always a session whose last
    activity is this request.  A request carrying an id that is valid
    keeps that id and its message counter goes up by one; any other
    request (no id, unknown, expired or malformed id) gets the fresh id,
    whose session starts with a message counter of 0, so the first
    message of a session is not counted, while its context already
    counts one interaction. *)
Theorem chat_session_choice (cfg : Config) (env : ChatEnv)
    (rq : ChatRequest) (st st' : Stores) (resp sid : str) (ts : Z)
    (rt : str) (src : Source) (em : str)
    (mf sidf : option pyval) (im : option str) :
  ChatRoute.chat cfg env rq st = (ReplyOk resp sid ts rt src em, st') ->
  rq_json rq = JsonObject mf sidf im ->
  let requested := default (PStr []) sidf in
  (exists d, st_sessions st' !! sid = Some d
             /\ last_activity d = t_session env)
  /\ (SessionManager.is_valid_session cfg requested (t_valid env)
        (st_sessions st) = true ->
      requested = PStr sid
      /\ exists d, st_sessions st !! sid = Some d
           /\ st_sessions st'
              = <[sid := {| created := created d;
                            last_activity := t_session env;
                            user_ip := user_ip d;
                            message_count := message_count d + 1 |}]>
                  (st_sessions st))
  /\ (SessionManager.is_valid_session cfg requested (t_valid env)
        (st_sessions st) = false ->
      sid = uuid_session env
      /\ st_sessions st'
         = <[sid := {| created := t_session env;
                       last_activity := t_session env;
                       user_ip := ChatRoute.client_ip_of rq;
                       message_count := 0 |}]> (st_sessions st)
      /\ exists context,
           st_contexts st' !! sid = Some context
           /\ interaction_count context = 1
           /\ len (conversation_history context) = 1).
Proof.
  intros H Hjson. apply chat_ok_inv in H
    as (m & sidf' & im' & _ & _ & Hjson' & _ & _ & Hrest).
  rewrite Hjson in Hjson'.
  assert (Hsidf : sidf' = sidf)
    by (apply (f_equal (fun b => match b with
                                 | JsonObject _ x _ => x
                                 | _ => None
                                 end)) in Hjson'; now symmetry).
  subst sidf'. cbv zeta in *.
  destruct Hrest as (Hsid & _ & _ & ->).
  cbn [st_sessions st_contexts].
  destruct (SessionManager.is_valid_session cfg (default (PStr []) sidf)
              (t_valid env) (st_sessions st)) eqn:Hv.
  - destruct (resolve_session_valid cfg env (ChatRoute.client_ip_of rq)
                _ _ (st_contexts st) Hv) as (s & d & Hreq & Hs & Hd & Hrs).
    rewrite Hrs in *. cbn [fst snd] in *. subst sid.
    split; [|split; [|discriminate]].
    + eexists. split; [apply lookup_insert_eq | reflexivity].
    + intros _. split; [exact Hreq|]. exists d. split; [exact Hd | reflexivity].
  - rewrite (resolve_session_invalid cfg env (ChatRoute.client_ip_of rq)
               _ _ (st_contexts st) Hv) in *.
    cbn [SessionManager.create_session fst snd] in *. subst sid.
    split; [|split; [discriminate|]].
    + eexists. split; [apply lookup_insert_eq | reflexivity].
    + intros _. split; [reflexivity|]. split; [reflexivity|].
      rewrite update_context_lookup. cbv zeta. rewrite lookup_insert_eq.
      eexists. split; [reflexivity|].
      cbn [default from_option id interaction_count conversation_history
           empty_context app]. split; reflexivity.
Qed.

Lemma chat_session_choice_witness :
  let r := ChatRoute.chat (default_config []) MoreExamples.env0
             MoreExamples.hello_request MoreExamples.empty_stores in
  fst r = MoreExamples.hello_reply
  /\ message_count
       <$> (st_sessions (snd r) !! uuid_session MoreExamples.env0)
     = Some 0.
Proof.
  intros r.
  assert (Hf : fst r = MoreExamples.hello_reply) by (vm_compute; reflexivity).
  pose proof (surjective_pairing r) as H. rewrite Hf in H.
  split; [exact Hf|].
  destruct (chat_session_choice _ _ _ _ _ _ _ _ _ _ _ _ _ _ H eq_refl)
    as (_ & _ & Hnew).
  destruct Hnew as (_ & Hs & _); [vm_compute; reflexivity|].
  rewrite Hs, lookup_insert_eq. reflexivity.
Defined.

(** ** Accounts *)

Lemma by_username_none (name : str) (db : list User) :
  Accounts.by_username name db = None -> ~ In name (map username db).
Proof.
  unfold Accounts.by_username. intros H Hin.
  apply in_map_iff in Hin as (u & Hu & Hin).
  pose proof (List.find_none _ _ H u Hin) as Hf. cbn beta in Hf.
  now rewrite bool_decide_eq_true_2 in Hf.
Qed.

Lemma by_email_none (e : str) (db : list User) :
  Accounts.by_email e db = None -> ~ In e (map email db).
Proof.
  unfold Accounts.by_email. intros H Hin.
  apply in_map_iff in Hin as (u & Hu & Hin).
  pose proof (List.find_none _ _ H u Hin) as Hf. cbn beta in Hf.
  now rewrite bool_decide_eq_true_2 in Hf.
Qed.

Lemma find_app_none {A} (f : A -> bool) (l l' : list A) :
  List.find f l = None -> List.find f (l ++ l') = List.find f l'.
Proof.
  induction l as [|x l IH]; [reflexivity|].
  cbn. destruct (f x); [discriminate | exact IH].
Qed.

(** What a successful signup has checked and written. *)
Lemma signup_ok_inv (body : AuthBody) (db db' : list User) (status : Z)
    (target : str) :
  Accounts.signup POST body db = (AuthOk status target, db') ->
  exists u e p,
    body = AuthObject u e p
    /\ 3 <= len (strip (default [] u))
    /\ Accounts.by_username (strip (default [] u)) db = None
    /\ Accounts.by_email (strip (default [] e)) db = None
    /\ db' = db ++ [ {| u_id := len db + 1;
                        username := strip (default [] u);
                        email := strip (default [] e);
                        password := strip (default [] p) |} ].
Proof.
  unfold Accounts.signup. destruct body as [|u e p]; [discriminate|].
  cbv zeta.
  destruct (bool_decide (strip (default [] u) = [])
            || (len (strip (default [] u)) <? 3)) eqn:Hshort;
    [discriminate|].
  apply orb_false_iff in Hshort as [_ Hshort]. apply Z.ltb_ge in Hshort.
  case_bool_decide as Hu; [discriminate|].
  case_bool_decide as He; [discriminate|].
  intros H. apply pair_equal_spec in H as [_ <-].
  exists u, e, p. split; [reflexivity|]. split; [exact Hshort|].
  split; [|split; [|reflexivity]].
  - destruct (Accounts.by_username _ db); [exfalso; apply Hu; eauto | easy].
  - destruct (Accounts.by_email _ db); [exfalso; apply He; eauto | easy].
Qed.

Lemma signup_step (m : Method) (body : AuthBody) (db : list User) :
  snd (Accounts.signup m body db) = db
  \/ exists status target,
       m = POST
       /\ Accounts.signup m body db
          = (AuthOk status target, snd (Accounts.signup m body db)).
Proof.
  destruct m; [now left|].
  unfold Accounts.signup. destruct body as [|u e p]; [now left|].
  cbv zeta.
  destruct (_ || _); [now left|].
  case_bool_decide; [now left|].
  case_bool_decide; [now left|].
  right. eauto.
Qed.

(** X21.  Signup keeps the table consistent: if no two rows share a
    user name or an e-mail address before a signup request, none do
    after it, whatever the request; a request either changes nothing or
    appends one row, and it never alters or removes an existing row.
    Hence a table built by signups alone never has duplicates. *)
Theorem signup_keeps_unique (m : Method) (body : AuthBody) (db : list User) :
  NoDup (map username db) -> NoDup (map email db) ->
  let db' := snd (Accounts.signup m body db) in
  NoDup (map username db') /\ NoDup (map email db')
  /\ (db' = db \/ exists row, db' = db ++ [row])
  /\ (forall bodies,
        NoDup (map username (Runs.signup_all bodies db))
        /\ NoDup (map email (Runs.signup_all bodies db))).
Proof.
  assert (Hstep : forall m body db,
            NoDup (map username db) -> NoDup (map email db) ->
            NoDup (map username (snd (Accounts.signup m body db)))
            /\ NoDup (map email (snd (Accounts.signup m body db)))
            /\ (snd (Accounts.signup m body db) = db
                \/ exists row, snd (Accounts.signup m body db) = db ++ [row])).
  { clear. intros m body db Hu He.
    destruct (signup_step m body db) as [Hsame|(status & target & -> & Hok)].
    - rewrite Hsame. auto.
    - apply signup_ok_inv in Hok as (u & e & p & _ & _ & Hnu & Hne & Hdb).
      rewrite Hdb. rewrite !map_app. cbn [map username email].
      split; [|split; [|eauto]].
      + apply NoDup_app. split; [exact Hu|]. split.
        * intros x Hx Hx'. apply list_elem_of_In in Hx.
          apply list_elem_of_singleton in Hx'. subst x.
          now apply by_username_none in Hnu.
        * apply NoDup_singleton.
      + apply NoDup_app. split; [exact He|]. split.
        * intros x Hx Hx'. apply list_elem_of_In in Hx.
          apply list_elem_of_singleton in Hx'. subst x.
          now apply by_email_none in Hne.
        * apply NoDup_singleton. }
  intros Hu He. cbv zeta.
  destruct (Hstep m body db Hu He) as (H1 & H2 & H3).
  split; [exact H1|]. split; [exact H2|]. split; [exact H3|].
  intros bodies. revert db Hu He H1 H2 H3.
  induction bodies as [|b bs IH]; intros db Hu He _ _ _; [now split|].
  unfold Runs.signup_all. cbn [fold_left].
  change (fold_left _ bs ?d) with (Runs.signup_all bs d).
  destruct (Hstep POST b db Hu He) as (H1 & H2 & H3).
  apply IH; try assumption.
  - destruct (Hstep m body (snd (Accounts.signup POST b db)) H1 H2)
      as (K & _). exact K.
  - destruct (Hstep m body (snd (Accounts.signup POST b db)) H1 H2)
      as (_ & K & _). exact K.
  - destruct (Hstep m body (snd (Accounts.signup POST b db)) H1 H2)
      as (_ & _ & K). exact K.
Qed.

Lemma signup_keeps_unique_witness :
  let db :=
    Runs.signup_all
      [MoreExamples.ada_signup; MoreExamples.ada_signup;
       AuthObject (Some (lit "al")) None None] [] in
  NoDup (map username db) /\ map username db = [lit "ada"].
Proof.
  intros db.
  destruct (signup_keeps_unique GET AuthFault []) as (_ & _ & _ & Hrun).
  - constructor.
  - constructor.
  - split; [apply (Hrun _)|]. vm_compute. reflexivity.
Defined.

(** X22.  A signup that succeeded can be used at once: a login with the
    same user name and password (white space around either is ignored)
    is accepted whatever the cookie session was, marks it logged in
    under the stripped user name and thereby opens the protected views;
    a login under that name with another password is refused with
    status 401, and after logout the protected views are closed again. *)
Theorem signup_then_login (u e p : option str) (db db' : list User)
    (status : Z) (target : str) (ws : WebSession) :
  Accounts.signup POST (AuthObject u e p) db = (AuthOk status target, db') ->
  let ws' := {| ws_user_id := Some (strip (default [] u));
                ws_logged_in := true |} in
  (forall e', Accounts.login POST (AuthObject u e' p) db' ws
              = (AuthOk 200 (lit "/welcome"), ws'))
  /\ (forall is_json, Accounts.login_required is_json ws' = None)
  /\ (forall e' p',
        strip (default [] p') <> strip (default [] p) ->
        Accounts.login POST (AuthObject u e' p') db' ws
        = (AuthError 401 (lit "Invalid username or password"), ws))
  /\ (forall is_json,
        Accounts.login_required is_json (snd (Accounts.logout ws')) <> None).
Proof.
  intros H. apply signup_ok_inv in H
    as (u0 & e0 & p0 & Hbody & _ & Hnu & _ & ->).
  assert (u0 = u /\ p0 = p) as [-> ->].
  { split.
    - apply (f_equal (fun b => match b with
                               | AuthObject x _ _ => x
                               | AuthFault => None
                               end)) in Hbody. now symmetry.
    - apply (f_equal (fun b => match b with
                               | AuthObject _ _ x => x
                               | AuthFault => None
                               end)) in Hbody. now symmetry. }
  assert (Hfind : Accounts.by_username (strip (default [] u))
                    (db ++ [ {| u_id := len db + 1;
                                username := strip (default [] u);
                                email := strip (default [] e0);
                                password := strip (default [] p) |} ])
                  = Some {| u_id := len db + 1;
                            username := strip (default [] u);
                            email := strip (default [] e0);
                            password := strip (default [] p) |}).
  { unfold Accounts.by_username in *. rewrite find_app_none by exact Hnu.
    cbn [List.find username]. now rewrite bool_decide_eq_true_2. }
  cbv zeta. split; [|split; [|split]].
  - intros e'. unfold Accounts.login. cbv zeta. rewrite Hfind.
    unfold Accounts.check_password. cbn [password].
    now rewrite bool_decide_eq_true_2.
  - intros []; reflexivity.
  - intros e' p' Hp. unfold Accounts.login. cbv zeta. rewrite Hfind.
    unfold Accounts.check_password. cbn [password].
    rewrite bool_decide_eq_false_2; [reflexivity | congruence].
  - intros []; discriminate.
Qed.

Lemma signup_then_login_witness :
  let db' := snd (Accounts.signup POST MoreExamples.ada_signup []) in
  fst (Accounts.login POST
         (AuthObject (Some (lit " ada ")) None (Some (lit "s3cret ")))
         db' {| ws_user_id := None; ws_logged_in := false |})
  = AuthOk 200 (lit "/welcome").
Proof.
  intros db'.
  assert (Hf : fst (Accounts.signup POST MoreExamples.ada_signup [])
               = AuthOk 201 (lit "/login")) by (vm_compute; reflexivity).
  pose proof (surjective_pairing
                (Accounts.signup POST MoreExamples.ada_signup [])) as H.
  rewrite Hf in H.
  destruct (signup_then_login _ _ _ _ _ _ _
              {| ws_user_id := None; ws_logged_in := false |} H)
    as (Hlogin & _).
  fold db' in Hlogin. now rewrite Hlogin.
Defined.

(** X23.  A login is accepted only for stored credentials: the table
    then holds a row with exactly the stripped user name and password of
    the request.  A login that is not accepted leaves the cookie session
    as it was. *)
Theorem login_sound (m : Method) (body : AuthBody) (db : list User)
    (ws : WebSession) :
  (forall status target ws',
      Accounts.login m body db ws = (AuthOk status target, ws') ->
      exists u e p row,
        body = AuthObject u e p
        /\ In row db
        /\ username row = strip (default [] u)
        /\ password row = strip (default [] p)
        /\ ws' = {| ws_user_id := Some (strip (default [] u));
                    ws_logged_in := true |})
  /\ ((forall status target,
          fst (Accounts.login m body db ws) <> AuthOk status target) ->
      snd (Accounts.login m body db ws) = ws).
Proof.
  unfold Accounts.login. split.
  - intros status target ws'.
    destruct m; [discriminate|]. destruct body as [|u e p]; [discriminate|].
    cbv zeta.
    destruct (Accounts.by_username _ db) as [row|] eqn:Hrow; [|discriminate].
    unfold Accounts.check_password. case_bool_decide as Hp; [|discriminate].
    intros H. apply pair_equal_spec in H as [_ <-].
    unfold Accounts.by_username in Hrow.
    apply List.find_some in Hrow as [Hin Hname].
    apply bool_decide_eq_true_1 in Hname.
    exists u, e, p, row. auto.
  - intros Hno. destruct m; [reflexivity|].
    destruct body as [|u e p]; [reflexivity|]. cbv zeta in *.
    destruct (Accounts.by_username _ db) as [row|]; [|reflexivity].
    destruct (Accounts.check_password row _); [|reflexivity].
    exfalso. now apply (Hno 200 (lit "/welcome")).
Qed.

Lemma login_sound_witness :
  snd (Accounts.login POST
         (AuthObject (Some (lit "ada")) None (Some (lit "guess")))
         (snd (Accounts.signup POST MoreExamples.ada_signup []))
         {| ws_user_id := None; ws_logged_in := false |})
  = {| ws_user_id := None; ws_logged_in := false |}.
Proof.
  destruct (login_sound POST
              (AuthObject (Some (lit "ada")) None (Some (lit "guess")))
              (snd (Accounts.signup POST MoreExamples.ada_signup []))
              {| ws_user_id := None; ws_logged_in := false |}) as (_ & H).
  apply H. intros status target. vm_compute. discriminate.
Defined.
